(** * The plugin configuration popup of the Faceswap GUI

    A shallow embedding of [lib/gui/popup_configure.py]: the registry of the
    one open popup ([POPUP], [popup_config]) and the dialog class
    [ConfigurePlugins] with its operations [get_config] (Load), [build] and
    [build_page] (Render), [reset], [save_config] and the Cancel button.

    Python dictionaries are insertion-ordered association lists, because the
    module iterates over them ([defaults.items()], [list(POPUP.keys())[0]]);
    faults (KeyError, IndexError, ...) are [None] in the option monad; Tk
    variables live in a store indexed by their number. *)

From stdpp Require Import base option list strings gmap sorting.
From Stdlib Require Import Ascii String.


(** ** Python dictionaries with string keys *)

Abbreviation dict A := (list (string * A)) (only parsing).

Section dict.
Context {A : Type}.

(** [d.get(k)]: the value bound to [k], if any. [d[k]] is the same lookup,
    where [None] stands for KeyError. *)
Fixpoint dict_get (d : dict A) (k : string) : option A :=
  match d with
  | [] => None
  | (k', v) :: d' => if decide (k' = k) then Some v else dict_get d' k
  end.

(** [d[k] = v]: an existing key keeps its position, a new key goes last. *)
Fixpoint dict_set (d : dict A) (k : string) (v : A) : dict A :=
  match d with
  | [] => [(k, v)]
  | (k', v') :: d' =>
      if decide (k' = k) then (k, v) :: d' else (k', v') :: dict_set d' k v
  end.

(** [del d[k]]: KeyError when [k] is absent. *)
Fixpoint dict_del (d : dict A) (k : string) : option (dict A) :=
  match d with
  | [] => None
  | (k', v') :: d' =>
      if decide (k' = k) then Some d' else cons (k', v') <$> dict_del d' k
  end.

Definition dict_keys (d : dict A) : list string := d.*1.
Definition dict_values (d : dict A) : list A := d.*2.

(** [d.setdefault(k, v)]: binds [k] to [v] unless it is bound already; the
    caller then reads the binding with [dict_get]. *)
Definition dict_setdefault (d : dict A) (k : string) (v : A) : dict A :=
  match dict_get d k with
  | Some _ => d
  | None => dict_set d k v
  end.

(** [{k: v for (k, v) in kvs}]: later pairs overwrite earlier ones. *)
Definition dict_of_pairs (kvs : list (string * A)) : dict A :=
  foldl (λ d kv, dict_set d kv.1 kv.2) [] kvs.
End dict.

(** A [for] loop whose body may fault: the state is threaded through the
    elements, the first fault ends the loop. *)
Fixpoint for_each {S B : Type} (body : S → B → option S) (l : list B) (s : S)
    : option S :=
  match l with
  | [] => Some s
  | x :: l' => s' ← body s x; for_each body l' s'
  end.

(** ** Python strings *)

(** [c in s] for a one-character [c]. *)
Fixpoint contains_char (c : ascii) (s : string) : bool :=
  match s with
  | EmptyString => false
  | String a s' => if decide (a = c) then true else contains_char c s'
  end.

(** [s.split(c)] for a one-character separator [c]: the pieces between the
    occurrences of [c], never an empty list. *)
Fixpoint split (c : ascii) (s : string) : list string :=
  match s with
  | EmptyString => [EmptyString]
  | String a s' =>
      if decide (a = c) then EmptyString :: split c s'
      else match split c s' with
           | [] => [String a EmptyString]
           | piece :: pieces => String a piece :: pieces
           end
  end.

(** The text of [s] before its first [c]; all of [s] when [c] is absent. *)
Fixpoint prefix_before (c : ascii) (s : string) : string :=
  match s with
  | EmptyString => EmptyString
  | String a s' => if decide (a = c) then EmptyString else String a (prefix_before c s')
  end.

(** [s[s.rfind(c) + 1:]]: the text after the last [c]; all of [s] when [c] is
    absent ([rfind] is -1 then and the slice starts at 0). *)
Fixpoint after_last (c : ascii) (s : string) : string :=
  match s with
  | EmptyString => EmptyString
  | String a s' =>
      if contains_char c s' then after_last c s'
      else if decide (a = c) then s' else s
  end.

(** [s.replace(a, b)] for one-character [a] and [b]. *)
Fixpoint replace_char (a b : ascii) (s : string) : string :=
  match s with
  | EmptyString => EmptyString
  | String x s' => String (if decide (x = a) then b else x) (replace_char a b s')
  end.

Definition is_upper (a : ascii) : bool :=
  let n := nat_of_ascii a in (65 <=? n)%nat && (n <=? 90)%nat.
Definition is_lower (a : ascii) : bool :=
  let n := nat_of_ascii a in (97 <=? n)%nat && (n <=? 122)%nat.
Definition to_upper (a : ascii) : ascii :=
  if is_lower a then ascii_of_nat (nat_of_ascii a - 32) else a.
Definition to_lower (a : ascii) : ascii :=
  if is_upper a then ascii_of_nat (nat_of_ascii a + 32) else a.

(** [s.title()] on ASCII text: a letter that follows a letter is lowered, any
    other letter is raised; characters that are not ASCII letters are kept and
    count as uncased. Python changes the case of letters outside ASCII as
    well, so this is [str.title] on ASCII text only. *)
Fixpoint title_from (prev_cased : bool) (s : string) : string :=
  match s with
  | EmptyString => EmptyString
  | String a s' =>
      let cased := is_upper a || is_lower a in
      String (if prev_cased then to_lower a else to_upper a) (title_from cased s')
  end.
Definition title (s : string) : string := title_from false s.

(** [sorted(l)] on a list of strings: ascending in Python's string order,
    which compares character by character. *)
Definition sorted (l : list string) : list string := merge_sort String.le l.

(** [l.index(x)]: the position of the first [x]; ValueError when absent. *)
Fixpoint list_index (x : string) (l : list string) : option nat :=
  match l with
  | [] => None
  | y :: l' => if decide (y = x) then Some 0%nat else S <$> list_index x l'
  end.

(** [l.pop(i)]: the element at [i] and the list without it; IndexError when
    [i] is out of range. *)
Fixpoint list_pop {A : Type} (i : nat) (l : list A) : option (A * list A) :=
  match l, i with
  | [], _ => None
  | x :: l', O => Some (x, l')
  | x :: l', S i' => '(y, r) ← list_pop i' l'; Some (y, x :: r)
  end.

(** [l.insert(i, x)]: [x] goes before position [i], at the end when [i] is
    past it. *)
Definition list_insert_at {A : Type} (i : nat) (x : A) (l : list A) : list A :=
  (take i l ++ x :: drop i l)%list.

Example split_example : split "." "extract.detect.s3fd" = ["extract"; "detect"; "s3fd"].
Proof. reflexivity. Qed.
Example title_example : title (replace_char "_" " " (after_last "." "detect.s3fd_amd")) = "S3Fd Amd".
Proof. reflexivity. Qed.
Example sorted_example : sorted ["train"; "global"; "extract"] = ["extract"; "global"; "train"].
Proof. vm_compute. reflexivity. Qed.

(** ** The data the dialog works on *)

(** Python's [configparser.ConfigParser(allow_no_value=True)], as far as the
    module and its collaborator use it: the named sections in file order, each
    a dictionary from option name to its stored string ([None] for a line
    without a value, which is how help comments are stored), the values of the
    default section, and the transformation applied to option names. *)
Inductive optionxform := xform_lower | xform_str.

Record ConfigParser := {
  cp_optionxform : optionxform;
  cp_defaults : dict (option string);
  cp_sections : dict (dict (option string))
}.

Definition cp_with_sections (p : ConfigParser) (s : dict (dict (option string))) :=
  {| cp_optionxform := cp_optionxform p; cp_defaults := cp_defaults p; cp_sections := s |}.
Definition cp_with_defaults (p : ConfigParser) (s : dict (option string)) :=
  {| cp_optionxform := cp_optionxform p; cp_defaults := s; cp_sections := cp_sections p |}.

(** [ConfigParser(allow_no_value=True)]: empty, option names lowered. *)
Definition new_ConfigParser : ConfigParser :=
  {| cp_optionxform := xform_lower; cp_defaults := []; cp_sections := [] |}.

(** [parser.sections()] *)
Definition sections (p : ConfigParser) : list string := dict_keys (cp_sections p).

Fixpoint lower (s : string) : string :=
  match s with
  | EmptyString => EmptyString
  | String a s' => String (to_lower a) (lower s')
  end.

Definition apply_optionxform (p : ConfigParser) (name : string) : string :=
  match cp_optionxform p with
  | xform_lower => lower name
  | xform_str => name
  end.

(** The string stored for [name] in the named section [sect], if any. *)
Definition cp_stored (p : ConfigParser) (sect name : string) : option (option string) :=
  opts ← dict_get (cp_sections p) sect; dict_get opts name.

(** A reference to the options dictionary [defaults[section]]. The popup never
    copies these dictionaries: [config_dict_gui] holds the very objects of
    [defaults], so what is written through one is read through the other. The
    collaborator builds [defaults] as a tree of fresh dictionaries, hence an
    object is identified by the section it belongs to. *)
Inductive optref := DefaultsOf (section : string).

Section popup_configure.
(** The values options take (what [default], [value] and a Tk variable's
    [get()] give) and Python's [str] on them. *)
Context {V : Type} (str : V → string).

(** The metadata dictionary of one option: the keys this module reads or
    writes. An absent key is [None], reading it is a KeyError. *)
Record Option := {
  opt_default : option V;
  opt_helptext : option string;
  opt_value : option V;
  opt_selected : option nat
}.

Definition opt_with_value (o : Option) (v : V) : Option :=
  {| opt_default := opt_default o; opt_helptext := opt_helptext o;
     opt_value := Some v; opt_selected := opt_selected o |}.
Definition opt_with_selected (o : Option) (x : nat) : Option :=
  {| opt_default := opt_default o; opt_helptext := opt_helptext o;
     opt_value := opt_value o; opt_selected := Some x |}.

(** What a key of [defaults[section]] is bound to: the section's help text
    under "helptext", an option's metadata under any other key. *)
Inductive Entry := EText (text : string) | EOption (o : Option).

(** The configuration collaborator (a [FaceswapConfig]): its parser
    [config], its [defaults], the section [section] its [config_dict]
    property reads, and the text of the file at [configfile]. *)
Record FaceswapConfig := {
  config : ConfigParser;
  defaults : dict (dict Entry);
  section : string;
  configfile : string
}.

Definition with_config (c : FaceswapConfig) (p : ConfigParser) :=
  {| config := p; defaults := defaults c; section := section c; configfile := configfile c |}.
Definition with_defaults (c : FaceswapConfig) (d : dict (dict Entry)) :=
  {| config := config c; defaults := d; section := section c; configfile := configfile c |}.
Definition with_section (c : FaceswapConfig) (s : string) :=
  {| config := config c; defaults := defaults c; section := s; configfile := configfile c |}.
Definition with_configfile (c : FaceswapConfig) (t : string) :=
  {| config := config c; defaults := defaults c; section := section c; configfile := t |}.

(** The collaborator's operations, which are not part of this module:
    - [config_dict]: the property giving the stored values, typed, that
      apply to the current section; it reads the parser and may fault on
      malformed stored text;
    - [format_help helptext is_section]: the comment text for a help text;
    - [insert_config_section section helptext parser]: writes a section
      header into [parser];
    - [write_config parser]: the file text [save_config()] writes;
    - [valid_interpolation value]: the check the parser makes on a value
      before it stores it ([set] raises ValueError when it fails). *)
Context (config_dict : ConfigParser → string → option (dict V)).
Context (format_help : string → bool → string).
Context (insert_config_section : string → Entry → ConfigParser → option ConfigParser).
Context (write_config : ConfigParser → string).
Context (valid_interpolation : string → bool).

(** [if value: value = self._interpolation.before_set(...)]: a value that is
    [None] or empty is stored unchecked. *)
Definition cp_accepts (value : option string) : bool :=
  match value with
  | None | Some EmptyString => true
  | Some v => valid_interpolation v
  end.

(** [parser.set(section, option, value)] *)
Definition cp_set (p : ConfigParser) (sect name : string) (value : option string)
    : option ConfigParser :=
  if negb (cp_accepts value) then None
  else if bool_decide (sect = "" ∨ sect = "DEFAULT") then
    Some (cp_with_defaults p (dict_set (cp_defaults p) (apply_optionxform p name) value))
  else
    opts ← dict_get (cp_sections p) sect;
    Some (cp_with_sections p
            (dict_set (cp_sections p) sect (dict_set opts (apply_optionxform p name) value))).

(** A widget built by [ControlPanel(parent, options, info)]. *)
Record panel := { panel_options : optref; panel_info : Entry }.

(** A page of the category notebook: a nested notebook of titled plugin
    panels, or one panel. *)
Inductive page := Notebook (tabs : list (string * panel)) | PanelPage (p : panel).

(** The state of a [ConfigurePlugins] popup: the attributes of the object,
    the tabs of its category notebook, the Tk variables (numbered as tkinter
    numbers them, from a counter) and whether the window still exists. *)
Record ConfigurePlugins := {
  self_config : FaceswapConfig;
  plugin_info : dict Entry;
  config_dict_gui : dict (dict optref);
  container : list (string * page);
  tk_vars : gmap nat V;
  tk_varnum : nat;
  winfo_exists : bool
}.

Definition set_self_config (d : ConfigurePlugins) (c : FaceswapConfig) :=
  {| self_config := c; plugin_info := plugin_info d;
     config_dict_gui := config_dict_gui d; container := container d;
     tk_vars := tk_vars d; tk_varnum := tk_varnum d; winfo_exists := winfo_exists d |}.
Definition set_plugin_info (d : ConfigurePlugins) (i : dict Entry) :=
  {| self_config := self_config d; plugin_info := i;
     config_dict_gui := config_dict_gui d; container := container d;
     tk_vars := tk_vars d; tk_varnum := tk_varnum d; winfo_exists := winfo_exists d |}.
Definition set_config_dict_gui (d : ConfigurePlugins) (g : dict (dict optref)) :=
  {| self_config := self_config d; plugin_info := plugin_info d;
     config_dict_gui := g; container := container d;
     tk_vars := tk_vars d; tk_varnum := tk_varnum d; winfo_exists := winfo_exists d |}.
Definition set_container (d : ConfigurePlugins) (t : list (string * page)) :=
  {| self_config := self_config d; plugin_info := plugin_info d;
     config_dict_gui := config_dict_gui d; container := t;
     tk_vars := tk_vars d; tk_varnum := tk_varnum d; winfo_exists := winfo_exists d |}.
Definition set_tk_vars (d : ConfigurePlugins) (m : gmap nat V) :=
  {| self_config := self_config d; plugin_info := plugin_info d;
     config_dict_gui := config_dict_gui d; container := container d;
     tk_vars := m; tk_varnum := tk_varnum d; winfo_exists := winfo_exists d |}.
Definition set_tk_varnum (d : ConfigurePlugins) (n : nat) :=
  {| self_config := self_config d; plugin_info := plugin_info d;
     config_dict_gui := config_dict_gui d; container := container d;
     tk_vars := tk_vars d; tk_varnum := n; winfo_exists := winfo_exists d |}.

(** [widget.destroy()] *)
Definition destroy (d : ConfigurePlugins) : ConfigurePlugins :=
  {| self_config := self_config d; plugin_info := plugin_info d;
     config_dict_gui := config_dict_gui d; container := container d;
     tk_vars := tk_vars d; tk_varnum := tk_varnum d; winfo_exists := false |}.

(** The options dictionary a reference denotes. *)
Definition deref (c : FaceswapConfig) (r : optref) : option (dict Entry) :=
  match r with DefaultsOf s => dict_get (defaults c) s end.

(** [options[key] = e] through a reference. *)
Definition store (c : FaceswapConfig) (r : optref) (key : string) (e : Entry)
    : option FaceswapConfig :=
  match r with
  | DefaultsOf s =>
      options ← dict_get (defaults c) s;
      Some (with_defaults c (dict_set (defaults c) s (dict_set options key e)))
  end.

(** ** Load: [ConfigurePlugins.get_config] *)

(** One turn of the loop over [options.keys()]: the help text goes to
    [plugin_info]; any other key is an option, whose "value" becomes the
    stored value when there is one and its "default" otherwise. *)
Definition get_config_option (sect : string) (st : FaceswapConfig * dict Entry)
    (key : string) : option (FaceswapConfig * dict Entry) :=
  let '(c, info) := st in
  options ← dict_get (defaults c) sect;
  e ← dict_get options key;
  if decide (key = "helptext") then Some (c, dict_set info sect e)
  else
    match e with
    | EText _ => None
    | EOption o =>
        stored ← config_dict (config c) (section c);
        dflt ← opt_default o;
        let value := default dflt (dict_get stored key) in
        c' ← store c (DefaultsOf sect) key (EOption (opt_with_value o value));
        Some (c', info)
    end.

(** One turn of the loop over [self.config.config.sections()]. *)
Definition get_config_section
    (st : FaceswapConfig * dict Entry * dict (dict optref)) (sect : string)
    : option (FaceswapConfig * dict Entry * dict (dict optref)) :=
  let '(c, info, conf) := st in
  let c := with_section c sect in
  category ← split "." sect !! 0%nat;
  options ← dict_get (defaults c) sect;
  let conf := dict_setdefault conf category [] in
  by_section ← dict_get conf category;
  let conf := dict_set conf category (dict_set by_section sect (DefaultsOf sect)) in
  '(c, info) ← for_each (get_config_option sect) (dict_keys options) (c, info);
  Some (c, info, conf).

Definition get_config (d : ConfigurePlugins)
    : option (dict (dict optref) * ConfigurePlugins) :=
  '(c, info, conf) ← for_each get_config_section
                        (sections (config (self_config d)))
                        (self_config d, plugin_info d, []);
  Some (conf, set_plugin_info (set_self_config d c) info).

(** ** Render: [build] and [build_page] *)

(** Modelled from the spec: [ControlPanel] (lib/gui/control_helper.py), the
    "generic control-panel widget builder that renders one section's options
    into a page, given the option metadata and section help text". The live
    widget bindings it leaves behind are what [reset] and [save_config] read
    as [option["selected"]]: one new Tk variable per option, holding the
    option's current value. *)
Definition ControlPanel_option (r : optref) (d : ConfigurePlugins) (key : string)
    : option ConfigurePlugins :=
  if decide (key = "helptext") then Some d
  else
    options ← deref (self_config d) r;
    e ← dict_get options key;
    match e with
    | EText _ => None
    | EOption o =>
        v ← opt_value o;
        let x := tk_varnum d in
        c ← store (self_config d) r key (EOption (opt_with_selected o x));
        Some (set_self_config
                (set_tk_varnum (set_tk_vars d (<[x := v]> (tk_vars d))) (S x)) c)
    end.

Definition ControlPanel (options : optref) (info : Entry) (d : ConfigurePlugins)
    : option (panel * ConfigurePlugins) :=
  opts ← deref (self_config d) options;
  d' ← for_each (ControlPanel_option options) (dict_keys opts) d;
  Some ({| panel_options := options; panel_info := info |}, d').

(** One turn of the loop over [plugins] in the nested branch. *)
Definition build_page_plugin (category : string)
    (st : list (string * panel) * ConfigurePlugins) (plugin : string)
    : option (list (string * panel) * ConfigurePlugins) :=
  let '(tabs, d) := st in
  by_section ← dict_get (config_dict_gui d) category;
  options ← dict_get by_section plugin;
  info ← dict_get (plugin_info d) plugin;
  '(frame, d') ← ControlPanel options info d;
  let text := title (replace_char "_" " " (after_last "." plugin)) in
  Some ((tabs ++ [(text, frame)])%list, d').

Definition build_page (d : ConfigurePlugins) (category : string)
    : option (page * ConfigurePlugins) :=
  by_section ← dict_get (config_dict_gui d) category;
  let plugins := sorted (dict_keys by_section) in
  if existsb (λ plugin, bool_decide (plugin ≠ category)) plugins then
    '(tabs, d') ← for_each (build_page_plugin category) plugins ([], d);
    Some (Notebook tabs, d')
  else
    plugin ← plugins !! 0%nat;
    options ← dict_get by_section plugin;
    info ← dict_get (plugin_info d) plugin;
    '(frame, d') ← ControlPanel options info d;
    Some (PanelPage frame, d').

(** The order of the category tabs: [sorted], then "global" moved to the
    front. *)
Definition category_order (keys : list string) : option (list string) :=
  let categories := sorted keys in
  if bool_decide ("global" ∈ categories) then
    i ← list_index "global" categories;
    '(g, rest) ← list_pop i categories;
    Some (list_insert_at 0 g rest)
  else Some categories.

Definition build_category (d : ConfigurePlugins) (category : string)
    : option ConfigurePlugins :=
  '(pg, d') ← build_page d category;
  Some (set_container d' (container d' ++ [(title category, pg)])%list).

Definition build (d : ConfigurePlugins) : option ConfigurePlugins :=
  categories ← category_order (dict_keys (config_dict_gui d));
  for_each build_category categories d.

(** ** Reset *)

Definition reset_lookup (sect : string) : option (string * string) :=
  if contains_char "." sect then
    category ← split "." sect !! 0%nat; Some (category, sect)
  else Some (sect, sect).

Definition reset_item (lookup : string * string) (d : ConfigurePlugins)
    (kv : string * Entry) : option ConfigurePlugins :=
  let '(item, def_opt) := kv in
  if decide (item = "helptext") then Some d
  else
    match def_opt with
    | EText _ => None
    | EOption o =>
        dflt ← opt_default o;
        by_section ← dict_get (config_dict_gui d) lookup.1;
        r ← dict_get by_section lookup.2;
        options ← deref (self_config d) r;
        e ← dict_get options item;
        match e with
        | EText _ => None
        | EOption o' =>
            tk_var ← opt_selected o';
            Some (set_tk_vars d (<[tk_var := dflt]> (tk_vars d)))
        end
    end.

Definition reset_section (d : ConfigurePlugins) (si : string * dict Entry)
    : option ConfigurePlugins :=
  let '(sect, items) := si in
  lookup ← reset_lookup sect;
  for_each (reset_item lookup) items d.

Definition reset (d : ConfigurePlugins) : option ConfigurePlugins :=
  for_each reset_section (defaults (self_config d)) d.

(** ** Save *)

(** [{sect: opts for value in config_dict_gui.values()
                  for sect, opts in value.items()}] *)
Definition flatten (gui : dict (dict optref)) : dict optref :=
  dict_of_pairs (mjoin (dict_values gui)).

Definition save_config_item (d : ConfigurePlugins) (options : dict optref)
    (sect : string) (new_config : ConfigParser) (kv : string * Entry)
    : option ConfigParser :=
  let '(item, def_opt) := kv in
  if decide (item = "helptext") then Some new_config
  else
    r ← dict_get options sect;
    opts ← deref (self_config d) r;
    new_opt ← dict_get opts item;
    match def_opt with
    | EText _ => None
    | EOption o =>
        helptext ← opt_helptext o;
        let helptext := format_help helptext false in
        new_config ← cp_set new_config sect helptext None;
        match new_opt with
        | EText _ => None
        | EOption o' =>
            tk_var ← opt_selected o';
            v ← tk_vars d !! tk_var;
            cp_set new_config sect item (Some (str v))
        end
    end.

Definition save_config_section (d : ConfigurePlugins) (options : dict optref)
    (new_config : ConfigParser) (si : string * dict Entry) : option ConfigParser :=
  let '(sect, items) := si in
  helptext ← dict_get items "helptext";
  new_config ← insert_config_section sect helptext new_config;
  for_each (save_config_item d options sect) items new_config.

Definition save_config (d : ConfigurePlugins) : option ConfigurePlugins :=
  let options := flatten (config_dict_gui d) in
  new_config ← for_each (save_config_section d options)
                  (defaults (self_config d)) new_ConfigParser;
  let c := with_config (self_config d) new_config in
  let c := with_configfile c (write_config (config c)) in
  Some (destroy (set_self_config d c)).

(** ** The buttons of [add_actions] and the construction of the popup *)

Inductive button := Cancel | OK | Reset.

(** The [command=] each button is bound to. *)
Definition press (b : button) (d : ConfigurePlugins) : option ConfigurePlugins :=
  match b with
  | Cancel => Some (destroy d)
  | OK => save_config d
  | Reset => reset d
  end.

(** A user's edit of a widget: its Tk variable takes the new value. *)
Definition edit (x : nat) (v : V) (d : ConfigurePlugins) : ConfigurePlugins :=
  set_tk_vars d (<[x := v]> (tk_vars d)).

(** What the user does in the open dialog, and a run of such events. *)
Inductive user_action := Edit (x : nat) (v : V) | Press (b : button).

Definition act (d : ConfigurePlugins) (a : user_action) : option ConfigurePlugins :=
  match a with
  | Edit x v => Some (edit x v d)
  | Press b => press b d
  end.

(** [ConfigurePlugins(config, root)]: Load, then Render. [varnum] is
    tkinter's running count of variables; the window's title, icon and
    geometry play no part in what follows and are left out. *)
Definition new_toplevel (c : FaceswapConfig) (varnum : nat) : ConfigurePlugins :=
  {| self_config := c; plugin_info := []; config_dict_gui := [];
     container := []; tk_vars := ∅; tk_varnum := varnum; winfo_exists := true |}.

Definition ConfigurePlugins_init (cfg : string * FaceswapConfig) (varnum : nat)
    : option ConfigurePlugins :=
  let d := new_toplevel cfg.2 varnum in
  '(conf, d) ← get_config d;
  build (set_config_dict_gui d conf).

(** ** The registry of the open popup *)

(** The module's global [POPUP] binds a configuration name to a popup object;
    objects are numbered and kept in [windows]. *)
Record World := {
  POPUP : dict nat;
  windows : gmap nat ConfigurePlugins;
  next_window : nat;
  tk_count : nat
}.

Definition initial_world : World :=
  {| POPUP := []; windows := ∅; next_window := 0; tk_count := 0 |}.

(** Lines 20-24: close the popup that is registered, if any. *)
Definition close_open_popup (w : World) : option World :=
  match POPUP w with
  | [] => Some w
  | _ :: _ =>
      p_key ← dict_keys (POPUP w) !! 0%nat;
      obj ← dict_get (POPUP w) p_key;
      d ← windows w !! obj;
      popup ← dict_del (POPUP w) p_key;
      Some {| POPUP := popup; windows := <[obj := destroy d]> (windows w);
              next_window := next_window w; tk_count := tk_count w |}
  end.

(** [popup_config(config, root)]. A fault in the constructor is a fault of
    the call. *)
Definition popup_config (w : World) (cfg : string * FaceswapConfig) : option World :=
  w ← close_open_popup w;
  window ← ConfigurePlugins_init cfg (tk_count w);
  let obj := next_window w in
  Some {| POPUP := dict_set (POPUP w) cfg.1 obj;
          windows := <[obj := window]> (windows w);
          next_window := S obj; tk_count := tk_varnum window |}.

(** ** The application around the popup *)

(** What happens while the GUI runs: a menu entry opens the popup of a
    configuration ([popup_config]), or the user acts in the popup object
    [obj]. A popup that closes itself (Cancel, OK) calls [self.destroy] and
    does not touch [POPUP]. *)
Inductive app_event :=
  | Open (cfg : string * FaceswapConfig)
  | InPopup (obj : nat) (a : user_action).

Definition app_step (w : World) (ev : app_event) : option World :=
  match ev with
  | Open cfg => popup_config w cfg
  | InPopup obj a =>
      d ← windows w !! obj;
      d' ← act d a;
      Some {| POPUP := POPUP w; windows := <[obj := d']> (windows w);
              next_window := next_window w; tk_count := tk_count w |}
  end.
End popup_configure.

Arguments store : simpl never.
Arguments deref : simpl never.
Arguments cp_set : simpl never.
Arguments ControlPanel : simpl never.

(** * The vocabulary of the statements

    Predicates and functions in which the properties below are stated: what
    Load, Render, Reset and Save establish or preserve, and what is asked of
    the collaborator. *)

Section dict_rel.
Context {A : Type} (R : A → A → Prop).

(** The same keys in the same order, bound to related values. *)
Definition dict_rel (d d' : dict A) : Prop :=
  Forall2 (λ x y : string * A, x.1 = y.1 ∧ R x.2 y.2) d d'.
End dict_rel.

(** The effect of one turn of Load's loop on the grouping. *)
Definition group_section (conf : dict (dict optref)) (sect : string) : dict (dict optref) :=
  let category := prefix_before "." sect in
  let conf1 := dict_setdefault conf category [] in
  dict_set conf1 category
    (dict_set (default [] (dict_get conf1 category)) sect (DefaultsOf sect)).

(** The grouping of the sections [done]: categories are bound once, a
    category binds each of its sections once, to the section's own options,
    and every section of [done] is found under its prefix. *)
Definition partitioned (done : list string) (conf : dict (dict optref)) : Prop :=
  NoDup (dict_keys conf) ∧
  Forall (λ ci : string * dict optref,
            NoDup (dict_keys ci.2) ∧
            Forall (λ sr : string * optref,
                      sr.1 ∈ done ∧ prefix_before "." sr.1 = ci.1 ∧
                      sr.2 = DefaultsOf sr.1) ci.2) conf ∧
  ∀ s, s ∈ done →
       ∃ by_section, dict_get conf (prefix_before "." s) = Some by_section ∧
                     dict_get by_section s = Some (DefaultsOf s).

(** The section → options mapping Load produces, in the words of the claim:
    every section it read, bound to that section's options. *)
Definition loaded_sections (sects : list string) : dict optref :=
  dict_of_pairs ((λ s, (s, DefaultsOf s)) <$> sects).

(** The text of a plugin's tab. *)
Definition plugin_title (plugin : string) : string :=
  title (replace_char "_" " " (after_last "." plugin)).

(** Text in ASCII: on such text [title] is Python's [str.title], which changes
    the case of letters outside ASCII as well. *)
Definition ascii_text (s : string) : Prop :=
  Forall (λ a, nat_of_ascii a < 128) (list_ascii_of_string s).

Section vocabulary.
Context {V : Type}.
Context (config_dict : ConfigParser → string → option (dict V)).
Context (format_help : string → bool → string).
Context (insert_config_section : string → @Entry V → ConfigParser → option ConfigParser).
Implicit Types (d : @ConfigurePlugins V) (c : @FaceswapConfig V)
  (D : dict (dict (@Entry V))) (G : string → string → Prop) (m : gmap nat V)
  (w : @World V) (o : @Option V) (e : @Entry V).

(** Load and Render write the keys "value" and "selected" of an option and
    nothing else: what a key is bound to keeps its kind, its "default" and its
    "helptext". *)
Inductive same_meta : @Entry V → @Entry V → Prop :=
  | same_meta_text t : same_meta (EText t) (EText t)
  | same_meta_option o o' :
      opt_default o = opt_default o' → opt_helptext o = opt_helptext o' →
      same_meta (EOption o) (EOption o').

(** The same keys with the same metadata, in one section and in all. *)
Definition same_options : dict (@Entry V) → dict (@Entry V) → Prop := dict_rel same_meta.
Definition same_schema : dict (dict (@Entry V)) → dict (dict (@Entry V)) → Prop :=
  dict_rel same_options.

(** [defaults[sect][key]] *)
Definition entry_at (D : dict (dict (@Entry V))) (sect key : string) : option (@Entry V) :=
  options ← dict_get D sect; dict_get options key.

(** The value Load gives an option of section [sect]: the stored value for
    its key when the collaborator reports one, its default otherwise. *)
Definition loaded_value (p : ConfigParser) (sect key : string) (o : @Option V) : Prop :=
  ∃ stored dflt,
    config_dict p sect = Some stored ∧ opt_default o = Some dflt ∧
    opt_value o = Some (default dflt (dict_get stored key)).

(** The options in [G] have been given their value. *)
Definition loaded_on (p : ConfigParser) (G : string → string → Prop)
    (D : dict (dict (@Entry V))) : Prop :=
  ∀ s k, G s k → k ≠ "helptext" →
         ∃ o, entry_at D s k = Some (EOption o) ∧ loaded_value p s k o.

(** The options of the sections [done], as the collaborator's defaults name
    them. *)
Definition options_of (D : dict (dict (@Entry V))) (done : list string)
    (s k : string) : Prop :=
  s ∈ done ∧ ∃ options, dict_get D s = Some options ∧ k ∈ dict_keys options.

(** The sections [sects] can be loaded from [p] with the defaults [D]: the
    collaborator reads the values stored for each of them, and each of them
    has defaults in which every key other than "helptext" is an option with a
    default. *)
Definition loadable (p : ConfigParser) D (sects : list string) : Prop :=
  ∀ s, s ∈ sects →
    is_Some (config_dict p s) ∧
    ∃ opts, dict_get D s = Some opts ∧
      ∀ k, k ∈ dict_keys opts → k ≠ "helptext" →
           ∃ o, dict_get opts k = Some (EOption o) ∧ is_Some (opt_default o).

(** What Render leaves alone: the grouping, the help texts, the parser, the
    file, the window, and the schema of the defaults. *)
Definition render_frame d d' : Prop :=
  config_dict_gui d' = config_dict_gui d ∧ plugin_info d' = plugin_info d ∧
  winfo_exists d' = winfo_exists d ∧
  config (self_config d') = config (self_config d) ∧
  configfile (self_config d') = configfile (self_config d) ∧
  same_schema (defaults (self_config d)) (defaults (self_config d')).

(** A tab of a nested notebook shows [plugin]: its text is the plugin's title
    and its panel is built on the options the grouping binds to the plugin. *)
Definition tab_of (by_section : dict optref) (plugin : string)
    (tab : string * @panel V) : Prop :=
  tab.1 = plugin_title plugin ∧
  dict_get by_section plugin = Some (panel_options tab.2).

(** The panels of a page and of the popup, in tab order, and the section
    whose options a panel shows. *)
Definition page_panels (pg : @page V) : list (@panel V) :=
  match pg with
  | Notebook tabs => tabs.*2
  | PanelPage p => [p]
  end.

Definition popup_panels d : list (@panel V) := (container d).*2 ≫= page_panels.

Definition panel_section (p : @panel V) : string :=
  match panel_options p with DefaultsOf s => s end.

(** The sections [sects] can be rendered: each has a help text on record and
    options in the defaults, every one with a "value". *)
Definition renderable d (sects : list string) : Prop :=
  ∀ s, s ∈ sects →
    is_Some (dict_get (plugin_info d) s) ∧
    is_Some (dict_get (defaults (self_config d)) s) ∧
    ∀ k e, entry_at (defaults (self_config d)) s k = Some e → k ≠ "helptext" →
           ∃ o, e = EOption o ∧ is_Some (opt_value o).

(** The nesting condition in the words of the claim: a category with several
    plugins gets a nested notebook, a category with a single plugin gets the
    plugin's panel directly. *)
Definition nests_by_plugin_count d (category : string) : Prop :=
  ∀ by_section pg d',
    dict_get (config_dict_gui d) category = Some by_section →
    build_page d category = Some (pg, d') →
    if decide (1 < List.length (dict_keys by_section))
    then ∃ tabs, pg = Notebook tabs
    else ∃ frame, pg = PanelPage frame.

(** No window is shown. *)
Definition none_open w : Prop :=
  POPUP w = [] ∧ ∀ i d, windows w !! i = Some d → winfo_exists d = false.

(** One window is shown, the object [obj], registered under [name]. *)
Definition one_open w (name : string) (obj : nat) : Prop :=
  POPUP w = [(name, obj)] ∧
  (∃ d, windows w !! obj = Some d ∧ winfo_exists d = true) ∧
  ∀ i d, windows w !! i = Some d → winfo_exists d = true → i = obj.

(** Object numbers are handed out in order. *)
Definition numbered w : Prop := ∀ i, is_Some (windows w !! i) → i < next_window w.

(** The registry holds at most one popup, an object that has been created,
    and a window that is shown is the registered one. *)
Definition registry_covers_shown w : Prop :=
  List.length (POPUP w) ≤ 1 ∧
  (∀ name obj, dict_get (POPUP w) name = Some obj → is_Some (windows w !! obj)) ∧
  ∀ i d, windows w !! i = Some d → winfo_exists d = true →
         ∃ name, POPUP w = [(name, i)].

(** Keys are distinct, as in any Python dictionary. *)
Definition well_keyed D : Prop :=
  NoDup (dict_keys D) ∧ Forall (λ si : string * dict Entry, NoDup (dict_keys si.2)) D.

(** The popup has been loaded and rendered: every section of the defaults is
    in the grouping under its category, every option has a default and is bound
    to a Tk variable, and no Tk variable serves two options. *)
Definition rendered d : Prop :=
  let D := defaults (self_config d) in
  well_keyed D ∧
  (∀ sect, sect ∈ dict_keys D →
     ∃ by_section,
       dict_get (config_dict_gui d) (prefix_before "." sect) = Some by_section ∧
       dict_get by_section sect = Some (DefaultsOf sect)) ∧
  (∀ sect key e, entry_at D sect key = Some e → key ≠ "helptext" →
     ∃ o dflt x, e = EOption o ∧ opt_default o = Some dflt ∧ opt_selected o = Some x) ∧
  (∀ s k o s' k' o' x,
     entry_at D s k = Some (EOption o) → entry_at D s' k' = Some (EOption o') →
     k ≠ "helptext" → k' ≠ "helptext" →
     opt_selected o = Some x → opt_selected o' = Some x → s = s' ∧ k = k').

(** What Reset writes for one binding of a section: the option's default
    into the option's variable. *)
Definition item_write (kv : string * @Entry V) : option (nat * V) :=
  if decide (kv.1 = "helptext") then None
  else match kv.2 with
       | EText _ => None
       | EOption o => x ← opt_selected o; v ← opt_default o; Some (x, v)
       end.

(** All that Reset writes, in order, and the variable store after a list of
    writes. *)
Definition reset_writes D : list (nat * V) :=
  D ≫= λ si, omap item_write si.2.

Definition write_all m (ws : list (nat * V)) : gmap nat V :=
  foldl (λ m xv, <[xv.1 := xv.2]> m) m ws.

(** The Tk variable bound to an option. *)
Definition selected_at D (sect key : string) : option nat :=
  e ← entry_at D sect key;
  match e with
  | EText _ => None
  | EOption o => opt_selected o
  end.

(** The options in [G] are bound to variables that have been created, no two
    of them to the same one. *)
Definition bound_on G d : Prop :=
  let D := defaults (self_config d) in
  (∀ s k, G s k → k ≠ "helptext" →
     ∃ x, selected_at D s k = Some x ∧ x < tk_varnum d ∧ is_Some (tk_vars d !! x)) ∧
  (∀ s k s' k' x, G s k → G s' k' → k ≠ "helptext" → k' ≠ "helptext" →
     selected_at D s k = Some x → selected_at D s' k' = Some x → s = s' ∧ k = k').

(** The live edit value of an option: what [selected.get()] gives. *)
Definition edit_value d (sect item : string) : option V :=
  e ← entry_at (defaults (self_config d)) sect item;
  match e with
  | EText _ => None
  | EOption o => x ← opt_selected o; tk_vars d !! x
  end.

(** Every variable an option is bound to has a value. *)
Definition live d : Prop :=
  ∀ s k e, entry_at (defaults (self_config d)) s k = Some e → k ≠ "helptext" →
           is_Some (edit_value d s k).

(** The user's edits, one after the other. *)
Definition edits (d : @ConfigurePlugins V) (l : list (nat * V)) : @ConfigurePlugins V :=
  foldl (λ d xv, edit xv.1 xv.2 d) d l.


(** What Load may do to a binding: leave it, or set an option's "value". *)
Definition value_set (e e' : @Entry V) : Prop :=
  e' = e ∨ ∃ o v, e = EOption o ∧ e' = EOption (opt_with_value o v).

(** A binding Load cannot give a value: an option without "default" (a text
    where an option is expected faults as well). *)
Definition lacks_default (e : @Entry V) : Prop :=
  ∀ o, e = EOption o → opt_default o = None.

(** The contract of the collaborator's [insert_config_section]: given a help
    text and a new section name that is neither empty nor the parser's
    default section, it returns; the parser then keeps option names as they
    are given and has the new section, with some header, after the sections
    it had. *)
Definition writes_section_headers : Prop :=
  ∀ sect text p, sect ∉ sections p → sect ≠ "" → sect ≠ "DEFAULT" →
    ∃ p' header,
      insert_config_section sect (EText text) p = Some p' ∧
      cp_optionxform p' = xform_str ∧
      cp_sections p' = cp_sections p ++ [(sect, header)].

(** No formatted help text is the name of an option. *)
Definition help_is_no_option D : Prop :=
  ∀ sect key e text is_section,
    entry_at D sect key = Some e → key ≠ "helptext" →
    format_help text is_section ≠ key.

(** What Save needs of the defaults: every section is named like a file
    section and has a help text, every other key is an option with a help
    text. *)
Definition describes_sections D : Prop :=
  ∀ sect, sect ∈ dict_keys D →
    sect ≠ "" ∧ sect ≠ "DEFAULT" ∧
    (∃ text, entry_at D sect "helptext" = Some (EText text)) ∧
    ∀ key e, entry_at D sect key = Some e → key ≠ "helptext" →
             ∃ o, e = EOption o ∧ is_Some (opt_helptext o).

(** How the collaborator types a stored string: [parse sect key text] is the
    value its [config_dict] reports for the option [key] of section [sect]
    when the parser stores [text] for it. *)
Context (parse : string → string → string → V).


End vocabulary.

Section claim_words.
Context {V : Type} (str : V → string).
Context (config_dict : ConfigParser → string → option (dict V)).
Context (format_help : string → bool → string).
Context (insert_config_section : string → @Entry V → ConfigParser → option ConfigParser).
Context (write_config : ConfigParser → string).
Context (valid_interpolation : string → bool).

End claim_words.

(** * A reference collaborator and a small configuration

    Option values are strings here, as in the configuration file. The
    collaborator follows the interface description: stored values are those
    of the "global" section overlaid with those of the current section, help
    comments excluded; a section header is the section with its formatted help
    text as a comment. The file is written, and a value is checked before it
    is stored, as Python's [configparser] does. *)

Definition newline : string := String (ascii_of_nat 10) EmptyString.

Definition is_comment (name : string) : bool :=
  match name with
  | String a _ => bool_decide (a = "#"%char ∨ a = ascii_of_nat 10)
  | EmptyString => false
  end.

Definition ref_format_help (helptext : string) (is_section : bool) : string :=
  if is_section then "# " +:+ helptext else newline +:+ "# " +:+ helptext.

Definition ref_collect (opts : dict (option string)) (acc : dict string) : dict string :=
  foldl (λ acc key, match dict_get opts key with
                    | Some (Some v) => if is_comment key then acc else dict_set acc key v
                    | _ => acc
                    end) acc (dict_keys opts).

Definition ref_config_dict (p : ConfigParser) (sect : string) : option (dict string) :=
  let conf := ref_collect (default [] (dict_get (cp_sections p) "global")) [] in
  Some (ref_collect (default [] (dict_get (cp_sections p) sect)) conf).

Definition ref_insert_config_section (sect : string) (helptext : @Entry string)
    (p : ConfigParser) : option ConfigParser :=
  match helptext with
  | EText text =>
      if bool_decide (sect ∈ sections p ∨ sect = "" ∨ sect = "DEFAULT") then None
      else Some {| cp_optionxform := xform_str; cp_defaults := cp_defaults p;
                   cp_sections := dict_set (cp_sections p) sect
                                    [(ref_format_help text true, None)] |}
  | EOption _ => None
  end.

(** [ConfigParser.write] of the standard library, with its default delimiter:
    the default section first when it has values, then every section; a
    section is its header line, one line per option (a line break inside a
    value is followed by a tab, a key without a value is written alone) and an
    empty line. *)
Fixpoint indent_continuation (v : string) : string :=
  match v with
  | EmptyString => EmptyString
  | String a v' =>
      if decide (a = ascii_of_nat 10)
      then String a (String (ascii_of_nat 9) (indent_continuation v'))
      else String a (indent_continuation v')
  end.

Definition ref_write_option (kv : string * option string) : string :=
  match kv.2 with
  | Some v => kv.1 +:+ " = " +:+ indent_continuation v +:+ newline
  | None => kv.1 +:+ newline
  end.

Definition ref_write_section (s : string * dict (option string)) : string :=
  "[" +:+ s.1 +:+ "]" +:+ newline +:+ String.concat "" (map ref_write_option s.2)
    +:+ newline.

Definition ref_write_config (p : ConfigParser) : string :=
  match cp_defaults p with
  | [] => EmptyString
  | _ :: _ => ref_write_section ("DEFAULT", cp_defaults p)
  end +:+ String.concat "" (map ref_write_section (cp_sections p)).

(** [BasicInterpolation.before_set] of the standard library, the check
    [ConfigParser.set] makes on a value: every "%%" is taken out
    ([value.replace]), then every reference "%(name)s" with a non-empty
    [name] free of ")" ([_KEYCRE.sub]), and no "%" may be left. *)
Fixpoint drop_escaped_percents (s : string) : string :=
  match s with
  | EmptyString => EmptyString
  | String a s' =>
      match s' with
      | EmptyString => String a EmptyString
      | String b s'' =>
          if bool_decide (a = "%"%char ∧ b = "%"%char) then drop_escaped_percents s''
          else String a (drop_escaped_percents s')
      end
  end.

(** The length of the text [name)s] at the start of [s]; [nonempty] tells that
    a character of [name] has been read. *)
Fixpoint key_reference_rest (nonempty : bool) (s : string) : option nat :=
  match s with
  | EmptyString => None
  | String a s' =>
      if decide (a = ")"%char) then
        match s' with
        | String b _ => if nonempty && bool_decide (b = "s"%char) then Some 2%nat else None
        | EmptyString => None
        end
      else S <$> key_reference_rest true s'
  end.

(** The length of a reference "%(name)s" at the start of [s]. *)
Definition key_reference (s : string) : option nat :=
  match s with
  | String a (String b s') =>
      if bool_decide (a = "%"%char ∧ b = "("%char)
      then (λ n, S (S n)) <$> key_reference_rest false s'
      else None
  | _ => None
  end.

(** The text without its references, found from left to right; [skip] is the
    number of characters of the reference being dropped that are still to
    come. *)
Fixpoint drop_key_references (skip : nat) (s : string) : string :=
  match s with
  | EmptyString => EmptyString
  | String a s' =>
      match skip with
      | S k => drop_key_references k s'
      | O =>
          match key_reference s with
          | Some len => drop_key_references (len - 1) s'
          | None => String a (drop_key_references 0 s')
          end
      end
  end.

Definition ref_valid_interpolation (value : string) : bool :=
  negb (contains_char "%" (drop_key_references 0 (drop_escaped_percents value))).

Example valid_interpolation_example :
  ref_valid_interpolation <$> ["512"; "50%"; "50%%"; "%(home)s/models"; "%()s"; "%(home"]
  = [true; false; true; true; false; false].
Proof. reflexivity. Qed.

Definition ex_option (dflt help : string) : @Entry string :=
  EOption {| opt_default := Some dflt; opt_helptext := Some help;
             opt_value := None; opt_selected := None |}.

(** A configuration with a "global" section and two plugins of one category;
    the file stores [coverage] of the global section and [size] of the second
    plugin only. *)
Definition ex_defaults : dict (dict (@Entry string)) :=
  [("global", [("helptext", EText "Options for all plugins");
               ("coverage", ex_option "68.75" "How much of the face to use")]);
   ("model.original", [("helptext", EText "The original model");
                       ("lowmem", ex_option "False" "Lower memory use")]);
   ("model.dfl_h128", [("helptext", EText "A larger model");
                       ("lowmem", ex_option "False" "Lower memory use");
                       ("size", ex_option "128" "Resolution")])].

Definition ex_parser : ConfigParser :=
  {| cp_optionxform := xform_str; cp_defaults := [];
     cp_sections :=
       [("global", [("# OPTIONS FOR ALL PLUGINS", None); ("coverage", Some "75.0")]);
        ("model.original", [("# THE ORIGINAL MODEL", None)]);
        ("model.dfl_h128", [("# A LARGER MODEL", None); ("size", Some "256")])] |}.

Definition ex_config : @FaceswapConfig string :=
  {| config := ex_parser; defaults := ex_defaults; section := "global";
     configfile := "" |}.

(** The popup before Load, what Load returns for it, and the popup as built. *)
Definition ex_new : @ConfigurePlugins string := new_toplevel ex_config 0.

Definition ex_loaded : dict (dict optref) * @ConfigurePlugins string :=
  default ([], ex_new) (get_config ref_config_dict ex_new).

Definition ex_popup : @ConfigurePlugins string :=
  default ex_new (ConfigurePlugins_init ref_config_dict ("train", ex_config) 0).

(** A configuration whose category "trainer" has one plugin, and its popup
    once Load has run. *)
Definition cx_config : @FaceswapConfig string :=
  {| config := {| cp_optionxform := xform_str; cp_defaults := [];
                  cp_sections := [("trainer.original", [("# ORIGINAL TRAINER", None)])] |};
     defaults := [("trainer.original",
                   [("helptext", EText "Original trainer");
                    ("zoom", ex_option "5" "Zoom amount")])];
     section := ""; configfile := "" |}.

Definition cx_loaded : @ConfigurePlugins string :=
  let r := default ([], new_toplevel cx_config 0)
             (get_config ref_config_dict (new_toplevel cx_config 0)) in
  set_config_dict_gui r.2 r.1.

Definition cx_page : @page string * @ConfigurePlugins string :=
  default (Notebook [], cx_loaded) (build_page cx_loaded "trainer").

(** Some edits and a Reset in the example popup, and the popup after them. *)
Definition ex_actions : list (@user_action string) :=
  [Edit 2 "512"; Press Reset; Edit 0 "80.0"].

Definition ex_act : @ConfigurePlugins string → @user_action string → option ConfigurePlugins :=
  act id ref_format_help ref_insert_config_section ref_write_config
    ref_valid_interpolation.

Definition ex_edited : @ConfigurePlugins string :=
  default ex_popup (for_each ex_act ex_actions ex_popup).

(** The popup opened twice for the same configuration: the world after the
    first Open and after the second, which gets the configuration object as
    the first popup left it. *)
Definition ex_world1 : @World string :=
  default initial_world (popup_config ref_config_dict initial_world ("train", ex_config)).

Definition ex_world2 : @World string :=
  default initial_world
    (popup_config ref_config_dict ex_world1 ("train", self_config ex_popup)).

(** The example of the specification: one "global" section with one option
    whose default and stored value are 5; the option is edited to 7 and
    saved. *)
Definition spec_config : @FaceswapConfig string :=
  {| config := {| cp_optionxform := xform_str; cp_defaults := [];
                  cp_sections := [("global", [("opt1", Some "5")])] |};
     defaults := [("global", [("helptext", EText "");
                              ("opt1", ex_option "5" "An option")])];
     section := ""; configfile := "" |}.

Definition spec_popup : @ConfigurePlugins string :=
  default (new_toplevel spec_config 0)
    (ConfigurePlugins_init ref_config_dict ("global", spec_config) 0).

(** A configuration whose file has a section the defaults do not describe, and
    one whose option has no default. *)
Definition stray_config : @FaceswapConfig string :=
  {| config := {| cp_optionxform := xform_str; cp_defaults := [];
                  cp_sections := [("global", [("coverage", Some "75.0")]);
                                  ("convert.mask", [("blur", Some "3")])] |};
     defaults := ex_defaults; section := ""; configfile := "" |}.

Definition undefaulted_config : @FaceswapConfig string :=
  {| config := {| cp_optionxform := xform_str; cp_defaults := [];
                  cp_sections := [("global", [("coverage", Some "75.0")])] |};
     defaults := [("global",
                   [("helptext", EText "Options for all plugins");
                    ("coverage", EOption {| opt_default := None;
                                            opt_helptext := Some "How much of the face to use";
                                            opt_value := None; opt_selected := None |})])];
     section := ""; configfile := "" |}.

(** The example popup after Reset. *)
Definition ex_reset : @ConfigurePlugins string := default ex_popup (reset ex_popup).

(** A configuration whose file lacks two sections the defaults describe, and
    its popup. *)
Definition partial_config : @FaceswapConfig string :=
  {| config := {| cp_optionxform := xform_str; cp_defaults := [];
                  cp_sections := [("global", [("coverage", Some "75.0")])] |};
     defaults := ex_defaults; section := ""; configfile := "" |}.

Definition partial_popup : @ConfigurePlugins string :=
  default (new_toplevel partial_config 0)
    (ConfigurePlugins_init ref_config_dict ("train", partial_config) 0).

(** A session: the popup is opened, edited and cancelled, then opened again
    for the same configuration. *)
Definition ex_events : list (@app_event string) :=
  [Open ("train", ex_config); InPopup 0 (Edit 2 "512"); InPopup 0 (Press Cancel);
   Open ("train", ex_config)].

Definition ex_app_step : @World string → @app_event string → option World :=
  app_step id ref_config_dict ref_format_help ref_insert_config_section
    ref_write_config ref_valid_interpolation.

Definition ex_world3 : @World string :=
  default initial_world (for_each ex_app_step ex_events initial_world).

(** A configuration whose only section has no help text. *)
Definition helpless_config : @FaceswapConfig string :=
  {| config := {| cp_optionxform := xform_str; cp_defaults := [];
                  cp_sections := [("global", [("coverage", Some "75.0")])] |};
     defaults := [("global", [("coverage", ex_option "68.75" "How much of the face to use")])];
     section := ""; configfile := "" |}.

(** The example popup after an edit and OK. *)
Definition ex_saved : @ConfigurePlugins string :=
  default ex_popup
    (save_config id ref_format_help ref_insert_config_section ref_write_config
       ref_valid_interpolation (edits ex_popup [(2, "512")])).

(** * Properties *)

(** ** Dictionaries and loops *)

Section dict_facts.
Context {A : Type}.
Implicit Types (d : dict A) (k : string) (v : A).

Lemma dict_get_set_eq d k v : dict_get (dict_set d k v) k = Some v.
Proof.
  induction d as [|[k' v'] d IH]; simpl.
  - by rewrite decide_True.
  - destruct (decide (k' = k)) as [->|Hne]; simpl.
    + by rewrite decide_True.
    + by rewrite decide_False.
Qed.

Lemma dict_get_set_ne d k k' v : k ≠ k' → dict_get (dict_set d k v) k' = dict_get d k'.
Proof.
  intros Hne. induction d as [|[k0 v0] d IH]; simpl.
  - by rewrite decide_False.
  - destruct (decide (k0 = k)) as [->|Hne0]; simpl.
    + by rewrite !decide_False.
    + by rewrite IH.
Qed.

Lemma dict_get_set d k k' v :
  dict_get (dict_set d k v) k' = if decide (k = k') then Some v else dict_get d k'.
Proof.
  destruct (decide (k = k')) as [->|Hne].
  - apply dict_get_set_eq.
  - by apply dict_get_set_ne.
Qed.

Lemma dict_keys_set d k v :
  dict_keys (dict_set d k v) =
  match dict_get d k with
  | Some _ => dict_keys d
  | None => (dict_keys d ++ [k])%list
  end.
Proof.
  unfold dict_keys. induction d as [|[k' v'] d IH]; csimpl; [done|].
  destruct (decide (k' = k)) as [->|Hne]; csimpl; [done|].
  rewrite IH. by destruct (dict_get d k).
Qed.

Lemma dict_get_Some_elem d k v : dict_get d k = Some v → (k, v) ∈ d.
Proof.
  induction d as [|[k' v'] d IH]; simpl; [done|].
  destruct (decide (k' = k)) as [->|Hne].
  - intros [= ->]. left.
  - intros H. right. auto.
Qed.

Lemma dict_get_is_Some d k : is_Some (dict_get d k) ↔ k ∈ dict_keys d.
Proof.
  unfold dict_keys. induction d as [|[k' v'] d IH]; simpl.
  - split; [by intros [? ?]|by intros ?%elem_of_nil].
  - destruct (decide (k' = k)) as [->|Hne].
    + split; [intros _; left|eauto].
    + rewrite IH. split; [by right|].
      intros [?|?]%elem_of_cons; [congruence|done].
Qed.

Lemma dict_get_None d k : dict_get d k = None ↔ k ∉ dict_keys d.
Proof. rewrite <- dict_get_is_Some, eq_None_not_Some. done. Qed.

Lemma dict_elem_get d k v : NoDup (dict_keys d) → (k, v) ∈ d → dict_get d k = Some v.
Proof.
  unfold dict_keys. induction d as [|[k' v'] d IH]; simpl.
  - by intros _ ?%elem_of_nil.
  - intros [Hk' Hnd]%NoDup_cons [Heq|Hin]%elem_of_cons.
    + injection Heq as -> ->. by rewrite decide_True.
    + destruct (decide (k' = k)) as [->|Hne]; [|auto].
      destruct Hk'. apply list_elem_of_fmap. by exists (k, v).
Qed.

Lemma dict_keys_set_NoDup d k v : NoDup (dict_keys d) → NoDup (dict_keys (dict_set d k v)).
Proof.
  intros Hnd. rewrite dict_keys_set. destruct (dict_get d k) eqn:Hk; [done|].
  apply NoDup_app. split_and!; [done| |apply NoDup_singleton].
  intros x Hx ->%list_elem_of_singleton. by apply dict_get_None in Hk.
Qed.

Lemma dict_set_elem d k v k' v' :
  (k', v') ∈ dict_set d k v → (k' = k ∧ v' = v) ∨ (k', v') ∈ d.
Proof.
  induction d as [|[k0 v0] d IH]; simpl.
  - intros [= -> ->]%list_elem_of_singleton. by left.
  - destruct (decide (k0 = k)) as [->|Hne].
    + intros [[= -> ->]|Hin]%elem_of_cons; [by left|right; by right].
    + intros [[= -> ->]|Hin]%elem_of_cons; [right; left|].
      destruct (IH Hin) as [?|?]; [by left|right; by right].
Qed.

Lemma dict_set_Forall (P : string * A → Prop) d k v :
  Forall P d → P (k, v) → Forall P (dict_set d k v).
Proof.
  intros Hd Hkv. apply Forall_forall. intros [k' v'] Hin.
  apply dict_set_elem in Hin as [[-> ->]|Hin]; [done|].
  by eapply Forall_forall in Hd.
Qed.
End dict_facts.

Lemma for_each_app {S B : Type} (body : S → B → option S) (l1 l2 : list B) (s : S) :
  for_each body (l1 ++ l2) s = s' ← for_each body l1 s; for_each body l2 s'.
Proof.
  revert s. induction l1 as [|x l1 IH]; intros s; simpl; [done|].
  destruct (body s x) as [s1|]; simpl; [apply IH|done].
Qed.

(** Loop invariants: [I done s] holds of the state [s] reached once the
    elements [done] have been handled. *)
Lemma for_each_ind {S B : Type} (body : S → B → option S) (I : list B → S → Prop)
    (l : list B) (s0 s' : S) :
  I [] s0 →
  (∀ done x s s1, I done s → x ∈ l → body s x = Some s1 → I (done ++ [x]) s1) →
  for_each body l s0 = Some s' →
  I l s'.
Proof.
  intros H0 Hstep.
  enough (∀ done rest s, (∀ x, x ∈ rest → x ∈ l) → I done s →
            for_each body rest s = Some s' → I (done ++ rest) s') as Hgen.
  { intros Hrun. by apply (Hgen [] l s0). }
  intros done rest. revert done.
  induction rest as [|x rest IH]; intros done s Hsub HI Hrun; simpl in *.
  - rewrite app_nil_r. congruence.
  - destruct (body s x) as [s1|] eqn:Hx; [|done]. simpl in Hrun.
    replace (done ++ x :: rest) with ((done ++ [x]) ++ rest) by (by rewrite <- app_assoc).
    apply (IH _ s1); [|eapply Hstep; eauto|done].
    + intros y Hy. apply Hsub. by right.
    + apply Hsub. left.
Qed.

(** Enough for a loop to finish: every turn finishes on the states that
    satisfy an invariant of the loop. *)
Lemma for_each_is_Some {S B : Type} (body : S → B → option S) (I : S → Prop)
    (l : list B) (s0 : S) :
  I s0 →
  (∀ x s, I s → x ∈ l → ∃ s1, body s x = Some s1 ∧ I s1) →
  ∃ s', for_each body l s0 = Some s' ∧ I s'.
Proof.
  revert s0. induction l as [|x l IH]; intros s0 H0 Hstep; simpl; [eauto|].
  destruct (Hstep x s0 H0) as (s1 & -> & H1); [left|]. simpl.
  apply IH; [done|]. intros y s Hs Hy. apply Hstep; [done|by right].
Qed.

(** ** Section names and their category *)

Lemma split_head (c : ascii) (s : string) : split c s !! 0%nat = Some (prefix_before c s).
Proof.
  destruct s as [|a s]; simpl; [done|].
  destruct (decide (a = c)); [done|].
  revert a n. induction s as [|b s IH]; intros a Hne; simpl; [done|].
  destruct (decide (b = c)); [done|].
  specialize (IH b n). destruct (split c s) as [|p ps] eqn:Hs.
  - simpl in *. by injection IH as <-.
  - simpl in *. by injection IH as <-.
Qed.

Lemma prefix_before_absent (c : ascii) (s : string) :
  contains_char c s = false → prefix_before c s = s.
Proof.
  induction s as [|a s IH]; simpl; [done|].
  destruct (decide (a = c)); [done|]. intros H. by rewrite IH.
Qed.

(** Both branches of the lookup list of [reset] name the category as Load
    derives it. *)
Lemma reset_lookup_spec (sect : string) :
  reset_lookup sect = Some (prefix_before "." sect, sect).
Proof.
  unfold reset_lookup. destruct (contains_char "." sect) eqn:Hdot.
  - by rewrite split_head.
  - by rewrite prefix_before_absent.
Qed.

(** ** The grouping built by Load *)

Lemma partitioned_nil : partitioned [] [].
Proof.
  split_and!; [apply NoDup_nil_2|apply Forall_nil_2|].
  by intros s ?%elem_of_nil.
Qed.

Lemma partitioned_step (done : list string) (conf : dict (dict optref)) (sect : string) :
  partitioned done conf → partitioned (done ++ [sect]) (group_section conf sect).
Proof.
  intros (Hnd & Hall & Hfind). unfold group_section.
  set (category := prefix_before "." sect).
  set (conf1 := dict_setdefault conf category []).
  assert (Hall' : Forall (λ ci : string * dict optref,
            NoDup (dict_keys ci.2) ∧
            Forall (λ sr : string * optref,
                      sr.1 ∈ done ++ [sect] ∧ prefix_before "." sr.1 = ci.1 ∧
                      sr.2 = DefaultsOf sr.1) ci.2) conf).
  { eapply Forall_impl; [exact Hall|]. intros [c bs] [? Hbs]. split; [done|].
    eapply Forall_impl; [exact Hbs|]. intros [s r] (? & ? & ?).
    split_and!; [|done..]. apply elem_of_app. by left. }
  assert (Hconf1 : NoDup (dict_keys conf1) ∧
            Forall (λ ci : string * dict optref,
              NoDup (dict_keys ci.2) ∧
              Forall (λ sr : string * optref,
                        sr.1 ∈ done ++ [sect] ∧ prefix_before "." sr.1 = ci.1 ∧
                        sr.2 = DefaultsOf sr.1) ci.2) conf1 ∧
            (∀ c, c ≠ category → dict_get conf1 c = dict_get conf c) ∧
            dict_get conf1 category = Some (default [] (dict_get conf category))).
  { unfold conf1, dict_setdefault. destruct (dict_get conf category) as [bs|] eqn:Hc.
    - by rewrite Hc.
    - split_and!.
      + by apply dict_keys_set_NoDup.
      + apply dict_set_Forall; [done|]. split; [apply NoDup_nil_2|apply Forall_nil_2].
      + intros c Hc'. by apply dict_get_set_ne.
      + apply dict_get_set_eq. }
  destruct Hconf1 as (Hnd1 & Hall1 & Hother & Hcat). rewrite Hcat. simpl.
  set (bs := default [] (dict_get conf category)) in *.
  assert (Hbs : NoDup (dict_keys bs) ∧
            Forall (λ sr : string * optref,
                      sr.1 ∈ done ++ [sect] ∧ prefix_before "." sr.1 = category ∧
                      sr.2 = DefaultsOf sr.1) bs).
  { apply dict_get_Some_elem in Hcat.
    eapply Forall_forall in Hall1; [|exact Hcat]. exact Hall1. }
  destruct Hbs as [Hbs1 Hbs2].
  split_and!.
  - by apply dict_keys_set_NoDup.
  - apply dict_set_Forall; [done|]. simpl. split.
    + by apply dict_keys_set_NoDup.
    + apply dict_set_Forall; [done|]. simpl. split_and!; [|done..].
      apply elem_of_app. right. left.
  - intros s [Hs| ->%list_elem_of_singleton]%elem_of_app.
    + destruct (Hfind s Hs) as (bs' & Hbs' & Hs').
      destruct (decide (category = prefix_before "." s)) as [Heq|Hne].
      * rewrite <- Heq, dict_get_set_eq. eexists. split; [done|].
        rewrite dict_get_set. destruct (decide (sect = s)) as [->|?]; [done|].
        unfold bs. rewrite Heq, Hbs'. done.
      * rewrite dict_get_set_ne by done. rewrite Hother by done. eauto.
    + fold category. rewrite dict_get_set_eq. eexists. split; [done|].
      apply dict_get_set_eq.
Qed.

Lemma partitioned_foldl (l : list string) :
  partitioned l (foldl group_section [] l).
Proof.
  induction l as [|x l IH] using rev_ind; [apply partitioned_nil|].
  rewrite foldl_app. simpl. by apply partitioned_step.
Qed.

(** No section is bound under two categories, or twice under one: the
    concatenated bindings of the categories have distinct keys. *)
Lemma partitioned_NoDup (done : list string) (conf : dict (dict optref)) :
  partitioned done conf → NoDup (dict_keys (mjoin (dict_values conf))).
Proof.
  intros (Hnd & Hall & _). unfold dict_keys, dict_values in *.
  induction conf as [|[c bs] conf IH]; csimpl; [apply NoDup_nil_2|].
  apply NoDup_cons in Hnd as [Hc Hnd]. apply Forall_cons in Hall as [[Hbs Hpre] Hall].
  rewrite fmap_app. apply NoDup_app. split_and!; [done| |by apply IH].
  intros s Hs Hs'. simpl in *.
  assert (prefix_before "." s = c) as Hsc.
  { apply list_elem_of_fmap in Hs as ([s0 r] & -> & Hin).
    eapply Forall_forall in Hpre; [|exact Hin]. by destruct Hpre as (_ & ? & _). }
  apply list_elem_of_fmap in Hs' as ([s0 r] & -> & Hin).
  apply list_elem_of_join in Hin as (bs' & Hin & Hbs').
  apply list_elem_of_fmap in Hbs' as ([c' bs0] & -> & Hin').
  eapply Forall_forall in Hall; [|exact Hin']. destruct Hall as [_ Hall].
  eapply Forall_forall in Hall; [|exact Hin]. destruct Hall as (_ & Hc' & _).
  simpl in *. apply Hc. apply list_elem_of_fmap. exists (c', bs0). split; [|done].
  simpl. congruence.
Qed.

Lemma partitioned_elem (done : list string) (conf : dict (dict optref)) (s : string) (r : optref) :
  partitioned done conf →
  (s, r) ∈ mjoin (dict_values conf) ↔ s ∈ done ∧ r = DefaultsOf s.
Proof.
  intros (Hnd & Hall & Hfind). split.
  - intros (bs & Hin & Hbs)%list_elem_of_join.
    apply list_elem_of_fmap in Hbs as ([c bs0] & -> & Hin').
    eapply Forall_forall in Hall; [|exact Hin']. destruct Hall as [_ Hall].
    eapply Forall_forall in Hall; [|exact Hin]. by destruct Hall as (? & _ & ?).
  - intros [Hs ->]. destruct (Hfind s Hs) as (bs & Hc & Hbs).
    apply list_elem_of_join. exists bs. split; [by apply dict_get_Some_elem|].
    apply list_elem_of_fmap. exists (prefix_before "." s, bs).
    split; [done|]. by apply dict_get_Some_elem.
Qed.

(** ** Dictionaries related binding by binding *)

Section dict_rel_facts.
Context {A : Type} (R : A → A → Prop).

Lemma dict_rel_refl `{!Reflexive R} (d : dict A) : dict_rel R d d.
Proof. apply Forall_Forall2_diag, Forall_forall. intros [k v] _. done. Qed.

Lemma dict_rel_trans `{!Transitive R} (d1 d2 d3 : dict A) :
  dict_rel R d1 d2 → dict_rel R d2 d3 → dict_rel R d1 d3.
Proof.
  unfold dict_rel. intros H12. revert d3.
  induction H12 as [|[k1 v1] [k2 v2] d1 d2 [Hk Hv] _ IH]; intros d3 H23.
  - by apply Forall2_nil_inv_l in H23 as ->.
  - apply Forall2_cons_inv_l in H23 as ([k3 v3] & d3' & [Hk' Hv'] & H23 & ->).
    constructor; [|by apply IH]. simpl in *. split; [congruence|by etrans].
Qed.

Lemma dict_rel_keys (d d' : dict A) : dict_rel R d d' → dict_keys d = dict_keys d'.
Proof.
  unfold dict_keys. induction 1 as [|[k v] [k' v'] d d' [Hk _] _ IH]; csimpl; [done|].
  simpl in Hk. by rewrite Hk, IH.
Qed.

Lemma dict_rel_get (d d' : dict A) (k : string) :
  dict_rel R d d' → option_Forall2 R (dict_get d k) (dict_get d' k).
Proof.
  induction 1 as [|[k0 v] [k0' v'] d d' [Hk Hv] _ IH]; simpl; [constructor|].
  simpl in Hk. subst k0'. destruct (decide (k0 = k)); [by constructor|done].
Qed.

Lemma dict_rel_get_Some (d d' : dict A) (k : string) (v : A) :
  dict_rel R d d' → dict_get d k = Some v → ∃ v', dict_get d' k = Some v' ∧ R v v'.
Proof.
  intros Hrel Hk. pose proof (dict_rel_get d d' k Hrel) as H. rewrite Hk in H.
  inversion H; subst. eauto.
Qed.

Lemma dict_rel_get_Some_r (d d' : dict A) (k : string) (v' : A) :
  dict_rel R d d' → dict_get d' k = Some v' → ∃ v, dict_get d k = Some v ∧ R v v'.
Proof.
  intros Hrel Hk. pose proof (dict_rel_get d d' k Hrel) as H. rewrite Hk in H.
  inversion H; subst. eauto.
Qed.

Lemma dict_rel_set `{!Reflexive R} (d : dict A) (k : string) (v v' : A) :
  dict_get d k = Some v → R v v' → dict_rel R d (dict_set d k v').
Proof.
  induction d as [|[k0 v0] d IH]; simpl; [done|].
  destruct (decide (k0 = k)) as [->|Hne].
  - intros [= ->] Hv. constructor; [done|]. by apply dict_rel_refl.
  - intros Hk Hv. constructor; [done|]. by apply IH.
Qed.

Lemma dict_rel_elem_r (d d' : dict A) (k : string) (v' : A) :
  dict_rel R d d' → (k, v') ∈ d' → ∃ v, (k, v) ∈ d ∧ R v v'.
Proof.
  induction 1 as [|[k0 v0] [k0' v0'] d d' [Hk Hv] _ IH]; [by intros ?%elem_of_nil|].
  simpl in *. subst k0'. intros [[= -> ->]|Hin]%elem_of_cons.
  - exists v0. split; [left|done].
  - destruct (IH Hin) as (v & ? & ?). exists v. split; [by right|done].
Qed.

Lemma dict_rel_elem_l (d d' : dict A) (k : string) (v : A) :
  dict_rel R d d' → (k, v) ∈ d → ∃ v', (k, v') ∈ d' ∧ R v v'.
Proof.
  induction 1 as [|[k0 v0] [k0' v0'] d d' [Hk Hv] _ IH]; [by intros ?%elem_of_nil|].
  simpl in *. subst k0'. intros [[= -> ->]|Hin]%elem_of_cons.
  - exists v0'. split; [left|done].
  - destruct (IH Hin) as (v' & ? & ?). exists v'. split; [by right|done].
Qed.
End dict_rel_facts.

Section schema.
Context {V : Type}.
Implicit Types (o : @Option V) (e : @Entry V) (c : @FaceswapConfig V).

#[global] Instance same_meta_refl : Reflexive (@same_meta V).
Proof. intros [t|o]; by constructor. Qed.

#[global] Instance same_meta_trans : Transitive (@same_meta V).
Proof.
  intros e1 e2 e3 H12 H23. destruct H12; inversion H23; subst; constructor; congruence.
Qed.

#[global] Instance same_options_refl : Reflexive (@same_options V).
Proof. intros d. apply dict_rel_refl. apply _. Qed.
#[global] Instance same_options_trans : Transitive (@same_options V).
Proof. intros d1 d2 d3. apply dict_rel_trans. apply _. Qed.
#[global] Instance same_schema_refl : Reflexive (@same_schema V).
Proof. intros d. apply dict_rel_refl. apply _. Qed.
#[global] Instance same_schema_trans : Transitive (@same_schema V).
Proof. intros d1 d2 d3. apply dict_rel_trans. apply _. Qed.

Lemma same_schema_entry_at D D' sect key e :
  same_schema D D' → entry_at D sect key = Some e →
  ∃ e', entry_at D' sect key = Some e' ∧ same_meta e e'.
Proof.
  unfold entry_at. intros Hs He.
  destruct (dict_get D sect) as [opts|] eqn:Hopts; [|done]. simpl in He.
  destruct (dict_rel_get_Some _ _ _ _ _ Hs Hopts) as (opts' & -> & Ho). simpl.
  by eapply dict_rel_get_Some.
Qed.

Lemma same_schema_entry_at_r D D' sect key e' :
  same_schema D D' → entry_at D' sect key = Some e' →
  ∃ e, entry_at D sect key = Some e ∧ same_meta e e'.
Proof.
  unfold entry_at. intros Hs He.
  destruct (dict_get D' sect) as [opts'|] eqn:Hopts; [|done]. simpl in He.
  destruct (dict_rel_get_Some_r _ _ _ _ _ Hs Hopts) as (opts & -> & Ho). simpl.
  by eapply dict_rel_get_Some_r.
Qed.

(** A write through a reference: the entry written is read back, every other
    entry is as before, and the schema is kept when the new entry has the
    metadata of the old one. *)
Lemma store_spec c sect key e e' c' :
  store c (DefaultsOf sect) key e' = Some c' →
  entry_at (defaults c) sect key = Some e →
  same_meta e e' →
  config c' = config c ∧ section c' = section c ∧ configfile c' = configfile c ∧
  same_schema (defaults c) (defaults c') ∧
  ∀ s k, entry_at (defaults c') s k =
         if decide (sect = s ∧ key = k) then Some e' else entry_at (defaults c) s k.
Proof.
  unfold store, entry_at. intros Hst He Hmeta.
  destruct (dict_get (defaults c) sect) as [opts|] eqn:Hopts; [|done].
  simpl in *. injection Hst as <-. simpl. split_and!; [done..| |].
  - eapply dict_rel_set; [apply _|done|]. eapply dict_rel_set; [apply _|done..].
  - intros s k. rewrite dict_get_set. destruct (decide (sect = s)) as [->|Hne]; simpl.
    + rewrite dict_get_set, Hopts. simpl.
      destruct (decide (key = k)) as [->|Hk].
      * by rewrite decide_True.
      * rewrite decide_False; [done|]. by intros [_ ?].
    + rewrite decide_False; [done|]. by intros [? _].
Qed.
End schema.

(** ** Load *)

Section load_facts.
Context {V : Type} (config_dict : ConfigParser → string → option (dict V)).
Implicit Types (o : @Option V) (e : @Entry V) (c : @FaceswapConfig V)
  (d : @ConfigurePlugins V) (conf : dict (dict optref)).

Lemma dict_get_setdefault {A : Type} (m : dict A) (k : string) (v : A) :
  dict_get (dict_setdefault m k v) k = Some (default v (dict_get m k)).
Proof.
  unfold dict_setdefault. destruct (dict_get m k) eqn:Hk; simpl; [done|].
  apply dict_get_set_eq.
Qed.

Lemma get_config_section_conf c info conf sect c' info' conf' :
  get_config_section config_dict (c, info, conf) sect = Some (c', info', conf') →
  conf' = group_section conf sect.
Proof.
  unfold get_config_section. rewrite split_head. simpl.
  destruct (dict_get (defaults c) sect) as [options|]; [|done]. simpl.
  rewrite dict_get_setdefault. simpl.
  destruct (for_each _ _ _) as [[c1 info1]|]; [|done]. simpl.
  intros [= _ _ <-]. unfold group_section. by rewrite dict_get_setdefault.
Qed.

Lemma get_config_grouping d conf d' :
  get_config config_dict d = Some (conf, d') →
  conf = foldl group_section [] (sections (config (self_config d))).
Proof.
  unfold get_config.
  destruct (for_each _ _ _) as [[[c info] conf0]|] eqn:Hrun; [|done]. simpl.
  intros [= <- _].
  apply (for_each_ind _
           (λ done (st : FaceswapConfig * dict Entry * dict (dict optref)),
              st.2 = foldl group_section [] done)) in Hrun; [done|done|].
  intros done x [[c1 i1] conf1] [[c2 i2] conf2] Hst _ Hstep. simpl in *.
  apply get_config_section_conf in Hstep. rewrite foldl_app. simpl. congruence.
Qed.

Lemma get_config_partitioned d conf d' :
  get_config config_dict d = Some (conf, d') →
  partitioned (sections (config (self_config d))) conf.
Proof. intros ->%get_config_grouping. apply partitioned_foldl. Qed.

Lemma get_config_option_spec G sect c info key c' info' :
  get_config_option config_dict sect (c, info) key = Some (c', info') →
  section c = sect →
  loaded_on config_dict (config c) G (defaults c) →
  config c' = config c ∧ section c' = sect ∧ configfile c' = configfile c ∧
  same_schema (defaults c) (defaults c') ∧
  loaded_on config_dict (config c) (λ s k, G s k ∨ (s = sect ∧ k = key)) (defaults c').
Proof.
  unfold get_config_option. intros Hrun Hsect HG.
  destruct (dict_get (defaults c) sect) as [options|] eqn:Hopts; [|done]. simpl in Hrun.
  destruct (dict_get options key) as [e|] eqn:He; [|done]. simpl in Hrun.
  destruct (decide (key = "helptext")) as [->|Hkey].
  { injection Hrun as <- _. split_and!; [done..|reflexivity|].
    intros s k [HGsk|[-> ->]] Hk; [by apply HG|done]. }
  destruct e as [t|o]; [done|].
  destruct (config_dict (config c) (section c)) as [stored|] eqn:Hstored; [|done].
  simpl in Hrun. destruct (opt_default o) as [dflt|] eqn:Hdflt; [|done]. simpl in Hrun.
  destruct (store c _ _ _) as [c1|] eqn:Hstore; [|done]. simpl in Hrun.
  injection Hrun as <- _.
  eapply store_spec in Hstore as (Hc & Hs & Hf & Hschema & Hat).
  2:{ unfold entry_at. rewrite Hopts. simpl. exact He. }
  2:{ by constructor. }
  split_and!; [done|congruence|done|done|].
  intros s k HGsk Hk. rewrite Hat. destruct (decide (sect = s ∧ key = k)) as [[<- <-]|Hne].
  - eexists. split; [done|]. exists stored, dflt. rewrite <- Hsect. done.
  - destruct HGsk as [HGsk|[-> ->]]; [by apply HG|]. by destruct Hne.
Qed.

Lemma get_config_options_spec G sect keys c info c' info' :
  for_each (get_config_option config_dict sect) keys (c, info) = Some (c', info') →
  section c = sect →
  loaded_on config_dict (config c) G (defaults c) →
  config c' = config c ∧ section c' = sect ∧ configfile c' = configfile c ∧
  same_schema (defaults c) (defaults c') ∧
  loaded_on config_dict (config c) (λ s k, G s k ∨ (s = sect ∧ k ∈ keys)) (defaults c').
Proof.
  intros Hrun Hsect HG.
  apply (for_each_ind _
    (λ done (st : FaceswapConfig * dict Entry),
       config st.1 = config c ∧ section st.1 = sect ∧ configfile st.1 = configfile c ∧
       same_schema (defaults c) (defaults st.1) ∧
       loaded_on config_dict (config c) (λ s k, G s k ∨ (s = sect ∧ k ∈ done)) (defaults st.1)))
    in Hrun; [exact Hrun| |].
  - simpl. split_and!; [done..|reflexivity|].
    intros s k [HGsk|[_ ?%elem_of_nil]] Hk; [by apply HG|done].
  - intros done key [c1 i1] [c2 i2] (Hc & Hs & Hf & Hsch & Hl) _ Hstep. simpl in *.
    eapply get_config_option_spec in Hstep as (Hc' & Hs' & Hf' & Hsch' & Hl');
      [|done|rewrite Hc; exact Hl].
    split_and!; [congruence|done|congruence|by etrans|].
    intros s k HGsk Hk. rewrite Hc in Hl'. apply Hl'; [|done].
    destruct HGsk as [?|[-> Hin]]; [eauto|].
    apply elem_of_app in Hin as [?| ->%list_elem_of_singleton]; eauto.
Qed.

Lemma get_config_section_spec D0 done c info conf sect c' info' conf' :
  get_config_section config_dict (c, info, conf) sect = Some (c', info', conf') →
  same_schema D0 (defaults c) →
  loaded_on config_dict (config c) (options_of D0 done) (defaults c) →
  config c' = config c ∧ configfile c' = configfile c ∧
  same_schema D0 (defaults c') ∧
  loaded_on config_dict (config c) (options_of D0 (done ++ [sect])) (defaults c').
Proof.
  unfold get_config_section. rewrite split_head. simpl. intros Hrun Hsch HG.
  destruct (dict_get (defaults c) sect) as [options|] eqn:Hopts; [|done]. simpl in Hrun.
  rewrite dict_get_setdefault in Hrun. simpl in Hrun.
  destruct (for_each _ _ _) as [[c1 info1]|] eqn:Hloop; [|done]. simpl in Hrun.
  injection Hrun as <- _ _.
  eapply get_config_options_spec in Hloop as (Hc & _ & Hf & Hsch' & Hl);
    [|done|exact HG].
  simpl in *. split_and!; [done..|by etrans|].
  intros s k [Hs (opts0 & Hopts0 & Hk)] Hne. apply Hl; [|done].
  apply elem_of_app in Hs as [Hs| ->%list_elem_of_singleton].
  - left. split; [done|]. eauto.
  - right. split; [done|].
    destruct (dict_rel_get_Some _ _ _ _ _ Hsch Hopts0) as (opts1 & Hopts1 & Hrel).
    rewrite Hopts in Hopts1. injection Hopts1 as <-.
    by rewrite <- (dict_rel_keys _ _ _ Hrel).
Qed.

Lemma get_config_spec d conf d' :
  get_config config_dict d = Some (conf, d') →
  config (self_config d') = config (self_config d) ∧
  configfile (self_config d') = configfile (self_config d) ∧
  config_dict_gui d' = config_dict_gui d ∧ container d' = container d ∧
  tk_vars d' = tk_vars d ∧ tk_varnum d' = tk_varnum d ∧
  winfo_exists d' = winfo_exists d ∧
  same_schema (defaults (self_config d)) (defaults (self_config d')) ∧
  loaded_on config_dict (config (self_config d))
    (options_of (defaults (self_config d)) (sections (config (self_config d))))
    (defaults (self_config d')).
Proof.
  unfold get_config.
  destruct (for_each _ _ _) as [[[c info] conf0]|] eqn:Hrun; [|done]. simpl.
  intros [= _ <-]. simpl.
  apply (for_each_ind _
    (λ done (st : FaceswapConfig * dict Entry * dict (dict optref)),
       config st.1.1 = config (self_config d) ∧
       configfile st.1.1 = configfile (self_config d) ∧
       same_schema (defaults (self_config d)) (defaults st.1.1) ∧
       loaded_on config_dict (config (self_config d))
         (options_of (defaults (self_config d)) done) (defaults st.1.1)))
    in Hrun.
  - simpl in Hrun. destruct Hrun as (? & ? & ? & ?). by split_and!.
  - simpl. split_and!; [done..|reflexivity|].
    by intros s k [?%elem_of_nil _] _.
  - intros done sect [[c1 i1] conf1] [[c2 i2] conf2] (Hc & Hf & Hsch & Hl) _ Hstep.
    simpl in *.
    eapply get_config_section_spec in Hstep as (Hc' & Hf' & Hsch' & Hl');
      [|exact Hsch|rewrite Hc; exact Hl].
    rewrite Hc in Hl'. split_and!; [congruence|congruence|done|done].
Qed.
End load_facts.

(** ** The grouping of sections by category *)

Lemma prefix_before_spec (c : ascii) (s : string) :
  contains_char c (prefix_before c s) = false ∧
  if contains_char c s then ∃ rest, s = prefix_before c s +:+ String c rest
  else prefix_before c s = s.
Proof.
  induction s as [|a s [IH1 IH2]]; simpl; [done|].
  destruct (decide (a = c)) as [->|Hne]; simpl.
  - split; [done|]. by exists s.
  - rewrite decide_False by done. split; [done|].
    destruct (contains_char c s).
    + destruct IH2 as [rest Hrest]. exists rest. by rewrite Hrest at 1.
    + by rewrite IH2.
Qed.

Section grouping_facts.
Context {V : Type} (config_dict : ConfigParser → string → option (dict V)).
Implicit Types (d : @ConfigurePlugins V) (conf : dict (dict optref)).

(** C6. Category partition invariant: in the grouping Load builds, categories
    are bound once, no section is bound twice (under one category or under
    two), and a section is bound under a category exactly when it is a section
    of the configuration and the category is the text of its name before the
    first "." (all of the name when it has none). *)
Theorem load_partitions_sections d conf d' :
  get_config config_dict d = Some (conf, d') →
  NoDup (dict_keys conf) ∧
  NoDup (dict_keys (mjoin (dict_values conf))) ∧
  ∀ category sect,
    (∃ by_section, dict_get conf category = Some by_section ∧
                   sect ∈ dict_keys by_section)
    ↔ sect ∈ sections (config (self_config d)) ∧ category = prefix_before "." sect.
Proof.
  intros Hload. pose proof (get_config_partitioned _ _ _ _ Hload) as Hpart.
  split_and!; [apply Hpart|by eapply partitioned_NoDup|].
  destruct Hpart as (Hnd & Hall & Hfind). intros category sect. split.
  - intros (by_section & Hc & Hs).
    apply dict_get_Some_elem in Hc. apply list_elem_of_fmap in Hs as ([s r] & -> & Hin).
    eapply Forall_forall in Hall; [|exact Hc]. destruct Hall as [_ Hall].
    eapply Forall_forall in Hall; [|exact Hin]. by destruct Hall as (? & ? & _).
  - intros [Hs ->]. destruct (Hfind sect Hs) as (by_section & Hc & Hget).
    exists by_section. split; [done|]. apply dict_get_is_Some. eauto.
Qed.
End grouping_facts.

Lemma load_partitions_sections_witness :
  get_config ref_config_dict ex_new = Some (ex_loaded.1, ex_loaded.2) ∧
  (NoDup (dict_keys ex_loaded.1) ∧
   NoDup (dict_keys (mjoin (dict_values ex_loaded.1))) ∧
   ∀ category sect,
     (∃ by_section, dict_get ex_loaded.1 category = Some by_section ∧
                    sect ∈ dict_keys by_section)
     ↔ sect ∈ sections (config (self_config ex_new)) ∧
       category = prefix_before "." sect).
Proof.
  assert (Hload : get_config ref_config_dict ex_new = Some (ex_loaded.1, ex_loaded.2))
    by (vm_compute; reflexivity).
  split; [exact Hload|].
  exact (load_partitions_sections ref_config_dict ex_new ex_loaded.1 ex_loaded.2 Hload).
Defined.

(** ** The values Load shows *)

Section load_values.
Context {V : Type} (config_dict : ConfigParser → string → option (dict V)).
Implicit Types (d : @ConfigurePlugins V) (conf : dict (dict optref)).

(** When Load returns, every section it read has defaults. *)
Lemma get_config_sections_defined d conf d' sect :
  get_config config_dict d = Some (conf, d') →
  sect ∈ sections (config (self_config d)) →
  is_Some (dict_get (defaults (self_config d)) sect).
Proof.
  unfold get_config.
  destruct (for_each _ _ _) as [[[c info] conf0]|] eqn:Hrun; [|done]. simpl.
  intros _ Hin. revert sect Hin.
  apply (for_each_ind _
    (λ done (st : FaceswapConfig * dict Entry * dict (dict optref)),
       same_schema (defaults (self_config d)) (defaults st.1.1) ∧
       ∀ s, s ∈ done → is_Some (dict_get (defaults (self_config d)) s)))
    in Hrun; [by destruct Hrun| |].
  - split; [reflexivity|]. by intros s ?%elem_of_nil.
  - intros done sect [[c1 i1] conf1] [[c2 i2] conf2] [Hsch Hdone] _ Hstep. simpl in *.
    assert (is_Some (dict_get (defaults c1) sect)) as [opts Hopts].
    { unfold get_config_section in Hstep. rewrite split_head in Hstep. simpl in Hstep.
      destruct (dict_get (defaults c1) sect); [eauto|done]. }
    eapply (get_config_section_spec _ (defaults (self_config d)) []) in Hstep
      as (_ & _ & Hsch' & _); [|done|by intros s k [?%elem_of_nil _]].
    split; [done|]. intros s [Hs| ->%list_elem_of_singleton]%elem_of_app; [by apply Hdone|].
    destruct (dict_rel_get_Some_r _ _ _ _ _ Hsch Hopts) as (opts0 & -> & _). eauto.
Qed.

(** C3. Load default fallback: every section Load reads is in the snapshot,
    under its category, bound to its options in the defaults; and for every
    key of those options other than "helptext", the option's "value" is the
    value the collaborator reports as stored for that key in that section
    when there is one, and the option's recorded default otherwise. *)
Theorem load_value_is_stored_or_default d conf d' sect :
  get_config config_dict d = Some (conf, d') →
  sect ∈ sections (config (self_config d)) →
  ∃ by_section options,
    dict_get conf (prefix_before "." sect) = Some by_section ∧
    dict_get by_section sect = Some (DefaultsOf sect) ∧
    deref (self_config d') (DefaultsOf sect) = Some options ∧
    ∀ key, key ∈ dict_keys options → key ≠ "helptext" →
      ∃ o o0 stored dflt,
        dict_get options key = Some (EOption o) ∧
        entry_at (defaults (self_config d)) sect key = Some (EOption o0) ∧
        opt_default o0 = Some dflt ∧
        config_dict (config (self_config d)) sect = Some stored ∧
        opt_value o = Some (match dict_get stored key with
                            | Some v => v
                            | None => dflt
                            end).
Proof.
  intros Hload Hsect.
  pose proof (get_config_partitioned _ _ _ _ Hload) as (_ & _ & Hfind).
  destruct (Hfind sect Hsect) as (by_section & Hc & Hs).
  destruct (get_config_spec _ _ _ _ Hload) as (_ & _ & _ & _ & _ & _ & _ & Hsch & Hl).
  destruct (get_config_sections_defined _ _ _ _ Hload Hsect) as [opts0 Hopts0].
  destruct (dict_rel_get_Some _ _ _ _ _ Hsch Hopts0) as (options & Hopts & Hrel).
  exists by_section, options. split_and!; [done..|].
  intros key Hkey Hne.
  destruct (Hl sect key) as (o & Hat & stored & dflt & Hst & Hd & Hv); [|done|].
  { split; [done|]. exists opts0. split; [done|].
    by rewrite (dict_rel_keys _ _ _ Hrel). }
  destruct (same_schema_entry_at_r _ _ _ _ _ Hsch Hat) as (e0 & Hat0 & Hmeta).
  inversion Hmeta as [|o0 o1 Hd0 _]; subst.
  exists o, o0, stored, dflt. split_and!; [|done|congruence|done|].
  - unfold entry_at in Hat. by rewrite Hopts in Hat.
  - rewrite Hv. by destruct (dict_get stored key).
Qed.
End load_values.

Lemma load_value_is_stored_or_default_witness :
  (get_config ref_config_dict ex_new = Some (ex_loaded.1, ex_loaded.2) ∧
   "model.dfl_h128" ∈ sections (config (self_config ex_new))) ∧
  ∃ by_section options,
    dict_get ex_loaded.1 (prefix_before "." "model.dfl_h128") = Some by_section ∧
    dict_get by_section "model.dfl_h128" = Some (DefaultsOf "model.dfl_h128") ∧
    deref (self_config ex_loaded.2) (DefaultsOf "model.dfl_h128") = Some options ∧
    ∀ key, key ∈ dict_keys options → key ≠ "helptext" →
      ∃ o o0 stored dflt,
        dict_get options key = Some (EOption o) ∧
        entry_at (defaults (self_config ex_new)) "model.dfl_h128" key = Some (EOption o0) ∧
        opt_default o0 = Some dflt ∧
        ref_config_dict (config (self_config ex_new)) "model.dfl_h128" = Some stored ∧
        opt_value o = Some (match dict_get stored key with
                            | Some v => v
                            | None => dflt
                            end).
Proof.
  assert (Hload : get_config ref_config_dict ex_new = Some (ex_loaded.1, ex_loaded.2))
    by (vm_compute; reflexivity).
  assert (Hsect : "model.dfl_h128" ∈ sections (config (self_config ex_new)))
    by (apply (bool_decide_unpack _); vm_compute; exact I).
  split; [by split|].
  exact (load_value_is_stored_or_default ref_config_dict ex_new ex_loaded.1 ex_loaded.2
           "model.dfl_h128" Hload Hsect).
Defined.

(** Load on the example: the stored size is shown, the option that is not
    stored shows its default. *)
Example load_example :
  entry_at (defaults (self_config ex_loaded.2)) "model.dfl_h128" "size" =
    Some (EOption {| opt_default := Some "128"; opt_helptext := Some "Resolution";
                     opt_value := Some "256"; opt_selected := None |}) ∧
  entry_at (defaults (self_config ex_loaded.2)) "model.dfl_h128" "lowmem" =
    Some (EOption {| opt_default := Some "False"; opt_helptext := Some "Lower memory use";
                     opt_value := Some "False"; opt_selected := None |}).
Proof. split; vm_compute; reflexivity. Qed.

(** ** Flattening the grouping *)

Section dict_of_pairs_facts.
Context {A : Type}.
Implicit Types (d acc : dict A) (l : list (string * A)).

Lemma dict_set_fresh d k (v : A) : k ∉ dict_keys d → dict_set d k v = d ++ [(k, v)].
Proof.
  unfold dict_keys. induction d as [|[k' v'] d IH]; csimpl; [done|].
  intros [Hne Hk]%not_elem_of_cons. rewrite decide_False by done. by rewrite IH.
Qed.

(** A comprehension over pairs with distinct keys overwrites nothing. *)
Lemma foldl_dict_set_fresh acc l :
  NoDup (dict_keys (acc ++ l)) →
  foldl (λ d kv, dict_set d kv.1 kv.2) acc l = acc ++ l.
Proof.
  revert acc. induction l as [|[k v] l IH]; intros acc Hnd; simpl.
  - by rewrite app_nil_r.
  - rewrite dict_set_fresh.
    + rewrite IH; rewrite <- app_assoc; done.
    + unfold dict_keys in *. rewrite fmap_app in Hnd.
      apply NoDup_app in Hnd as (_ & Hdisj & _). intros Hk.
      apply (Hdisj k Hk). csimpl. left.
Qed.

Lemma dict_of_pairs_fresh l : NoDup (dict_keys l) → dict_of_pairs l = l.
Proof. intros Hnd. unfold dict_of_pairs. by rewrite foldl_dict_set_fresh. Qed.

Lemma foldl_dict_set_NoDup acc l :
  NoDup (dict_keys acc) → NoDup (dict_keys (foldl (λ d kv, dict_set d kv.1 kv.2) acc l)).
Proof.
  revert acc. induction l as [|[k v] l IH]; intros acc Hnd; simpl; [done|].
  apply IH. by apply dict_keys_set_NoDup.
Qed.

Lemma dict_of_pairs_NoDup l : NoDup (dict_keys (dict_of_pairs l)).
Proof. apply foldl_dict_set_NoDup, NoDup_nil_2. Qed.

(** Two dictionaries with the same lookups hold the same bindings. *)
Lemma dict_ext_Permutation d d' :
  NoDup (dict_keys d) → NoDup (dict_keys d') →
  (∀ k, dict_get d k = dict_get d' k) → d ≡ₚ d'.
Proof.
  intros Hnd Hnd' Hget. apply NoDup_Permutation.
  - by eapply NoDup_fmap_1.
  - by eapply NoDup_fmap_1.
  - intros [k v]. split; intros Hin.
    + apply dict_get_Some_elem. rewrite <- Hget. by apply dict_elem_get.
    + apply dict_get_Some_elem. rewrite Hget. by apply dict_elem_get.
Qed.
End dict_of_pairs_facts.

Lemma loaded_sections_get (sects : list string) (s : string) :
  dict_get (loaded_sections sects) s =
  if decide (s ∈ sects) then Some (DefaultsOf s) else None.
Proof.
  unfold loaded_sections, dict_of_pairs.
  induction sects as [|x sects IH] using rev_ind.
  - destruct (decide (s ∈ [])) as [Hin|_]; [by apply elem_of_nil in Hin|done].
  - rewrite fmap_app, foldl_app. cbn [foldl fmap list_fmap fst snd].
    rewrite dict_get_set. cbn [fst snd].
    destruct (decide (x = s)) as [->|Hne].
    + destruct (decide (s ∈ sects ++ [s])) as [_|Hnin]; [done|].
      destruct Hnin. apply elem_of_app. right. left.
    + rewrite IH. destruct (decide (s ∈ sects)) as [Hin|Hnin];
        destruct (decide (s ∈ sects ++ [x])) as [Hin'|Hnin']; try done.
      * destruct Hnin'. apply elem_of_app. by left.
      * apply elem_of_app in Hin' as [?|?%list_elem_of_singleton]; done.
Qed.

Section flatten_facts.
Context {V : Type} (config_dict : ConfigParser → string → option (dict V)).
Implicit Types (d : @ConfigurePlugins V) (conf : dict (dict optref)).

Lemma partitioned_flatten (done : list string) conf :
  partitioned done conf →
  flatten conf = mjoin (dict_values conf) ∧
  ∀ s, dict_get (flatten conf) s = if decide (s ∈ done) then Some (DefaultsOf s) else None.
Proof.
  intros Hpart. pose proof (partitioned_NoDup _ _ Hpart) as Hnd.
  assert (flatten conf = mjoin (dict_values conf)) as Hflat
    by (by apply dict_of_pairs_fresh).
  split; [done|]. intros s. rewrite Hflat. destruct (decide (s ∈ done)) as [Hin|Hnin].
  - apply dict_elem_get; [done|]. by apply (partitioned_elem done).
  - apply dict_get_None. intros ([s' r] & -> & Hin)%list_elem_of_fmap.
    apply (partitioned_elem done) in Hin; [|done]. by destruct Hin.
Qed.

(** C9. Grouping/flattening round-trip: the dictionary comprehension of Save
    over the two-level grouping that Load built is the plain concatenation of
    the categories' bindings (it overwrites none), its keys are distinct, and
    it is the section → options mapping of Load: the same lookup for every
    name, hence the same bindings. *)
Theorem flatten_restores_loaded_sections d conf d' :
  get_config config_dict d = Some (conf, d') →
  flatten conf = mjoin (dict_values conf) ∧
  NoDup (dict_keys (flatten conf)) ∧
  (∀ s, dict_get (flatten conf) s =
        dict_get (loaded_sections (sections (config (self_config d)))) s) ∧
  flatten conf ≡ₚ loaded_sections (sections (config (self_config d))).
Proof.
  intros Hload. pose proof (get_config_partitioned _ _ _ _ Hload) as Hpart.
  destruct (partitioned_flatten _ _ Hpart) as [Hflat Hget].
  assert (∀ s, dict_get (flatten conf) s =
               dict_get (loaded_sections (sections (config (self_config d)))) s) as Hsame.
  { intros s. by rewrite Hget, loaded_sections_get. }
  split_and!; [done|apply dict_of_pairs_NoDup|done|].
  apply dict_ext_Permutation; [apply dict_of_pairs_NoDup..|done].
Qed.
End flatten_facts.

Lemma flatten_restores_loaded_sections_witness :
  get_config ref_config_dict ex_new = Some (ex_loaded.1, ex_loaded.2) ∧
  (flatten ex_loaded.1 = mjoin (dict_values ex_loaded.1) ∧
   NoDup (dict_keys (flatten ex_loaded.1)) ∧
   (∀ s, dict_get (flatten ex_loaded.1) s =
         dict_get (loaded_sections (sections (config (self_config ex_new)))) s) ∧
   flatten ex_loaded.1 ≡ₚ loaded_sections (sections (config (self_config ex_new)))).
Proof.
  assert (Hload : get_config ref_config_dict ex_new = Some (ex_loaded.1, ex_loaded.2))
    by (vm_compute; reflexivity).
  split; [exact Hload|].
  exact (flatten_restores_loaded_sections ref_config_dict ex_new ex_loaded.1 ex_loaded.2 Hload).
Defined.

(** ** Render *)

Section render_facts.
Context {V : Type}.
Implicit Types (d : @ConfigurePlugins V) (c : @FaceswapConfig V).

Lemma render_frame_refl d : render_frame d d.
Proof. unfold render_frame. split_and!; [done..|reflexivity]. Qed.

Lemma render_frame_trans d1 d2 d3 :
  render_frame d1 d2 → render_frame d2 d3 → render_frame d1 d3.
Proof.
  intros (? & ? & ? & ? & ? & ?) (? & ? & ? & ? & ? & ?).
  unfold render_frame. split_and!; [congruence..|by etrans].
Qed.

Lemma for_each_frame {B : Type} (body : ConfigurePlugins → B → option ConfigurePlugins)
    (l : list B) d d' :
  (∀ x d1 d2, body d1 x = Some d2 → render_frame d1 d2) →
  for_each body l d = Some d' → render_frame d d'.
Proof.
  intros Hbody Hrun.
  apply (for_each_ind _ (λ _ d1, render_frame d d1)) in Hrun;
    [done|apply render_frame_refl|].
  intros _ x d1 d2 H1 _ Hx. eapply render_frame_trans; [done|by eapply Hbody].
Qed.

Lemma ControlPanel_option_frame r d key d' :
  ControlPanel_option r d key = Some d' →
  render_frame d d' ∧ container d' = container d.
Proof.
  unfold ControlPanel_option. destruct (decide (key = "helptext")).
  { intros [= <-]. split; [apply render_frame_refl|done]. }
  destruct r as [sect]. unfold deref.
  destruct (dict_get (defaults (self_config d)) sect) as [options|] eqn:Hopts; [|done].
  simpl. destruct (dict_get options key) as [[t|o]|] eqn:He; [done| |done]. simpl.
  destruct (opt_value o) as [v|]; [|done]. simpl.
  destruct (store _ _ _ _) as [c|] eqn:Hstore; [|done]. simpl. intros [= <-].
  eapply store_spec in Hstore as (Hc & _ & Hf & Hsch & _).
  2:{ unfold entry_at. rewrite Hopts. simpl. exact He. }
  2:{ by constructor. }
  unfold render_frame. simpl. done.
Qed.

Lemma ControlPanel_frame r info d frame d' :
  ControlPanel r info d = Some (frame, d') →
  render_frame d d' ∧ container d' = container d ∧
  frame = {| panel_options := r; panel_info := info |}.
Proof.
  unfold ControlPanel. destruct (deref (self_config d) r) as [opts|]; [|done]. simpl.
  destruct (for_each _ _ _) as [d1|] eqn:Hrun; [|done]. simpl. intros [= <- <-].
  apply (for_each_ind _ (λ _ d1, render_frame d d1 ∧ container d1 = container d))
    in Hrun; [by destruct Hrun|split; [apply render_frame_refl|done]|].
  intros _ key d2 d3 [H2 Hc2] _ Hstep.
  apply ControlPanel_option_frame in Hstep as [H3 Hc3].
  split; [by eapply render_frame_trans|congruence].
Qed.

Lemma build_page_plugins_spec category by_section plugins tabs0 d tabs d' :
  dict_get (config_dict_gui d) category = Some by_section →
  for_each (build_page_plugin category) plugins (tabs0, d) = Some (tabs, d') →
  render_frame d d' ∧ container d' = container d ∧
  ∃ new, tabs = tabs0 ++ new ∧ Forall2 (tab_of by_section) plugins new.
Proof.
  intros Hcat Hrun.
  apply (for_each_ind _
    (λ done (st : list (string * panel) * ConfigurePlugins),
       render_frame d st.2 ∧ container st.2 = container d ∧
       ∃ new, st.1 = tabs0 ++ new ∧ Forall2 (tab_of by_section) done new))
    in Hrun; [exact Hrun| |].
  - simpl. split_and!; [apply render_frame_refl|done|].
    exists []. split; [by rewrite app_nil_r|constructor].
  - intros done plugin [tabs1 d1] [tabs2 d2] Hinv _ Hstep. simpl in Hinv.
    destruct Hinv as (Hf & Hc & new & -> & Hnew).
    simpl in *. unfold build_page_plugin in Hstep.
    destruct Hf as (Hgui & Hrest). rewrite Hgui, Hcat in Hstep. simpl in Hstep.
    destruct (dict_get by_section plugin) as [r|] eqn:Hr; [|done]. simpl in Hstep.
    destruct (dict_get (plugin_info d1) plugin) as [info|]; [|done]. simpl in Hstep.
    destruct (ControlPanel r info d1) as [[frame d3]|] eqn:Hcp; [|done].
    simpl in Hstep. injection Hstep as <- <-.
    apply ControlPanel_frame in Hcp as (Hf3 & Hc3 & ->).
    split_and!.
    + eapply render_frame_trans; [|exact Hf3]. by split.
    + congruence.
    + exists (new ++ [(plugin_title plugin, {| panel_options := r; panel_info := info |})]).
      split; [by rewrite app_assoc|].
      apply Forall2_app; [done|]. constructor; [|constructor]. by split.
Qed.

Lemma existsb_differs (category : string) (plugins : list string) :
  existsb (λ plugin, bool_decide (plugin ≠ category)) plugins = true
  ↔ ∃ plugin, plugin ∈ plugins ∧ plugin ≠ category.
Proof.
  rewrite existsb_exists. split.
  - intros (p & Hin & Hp). exists p. split; [by apply list_elem_of_In|].
    by apply bool_decide_eq_true in Hp.
  - intros (p & Hin & Hp). exists p. split; [by apply list_elem_of_In|].
    by apply bool_decide_eq_true.
Qed.

Lemma sorted_elem (l : list string) (x : string) : x ∈ sorted l ↔ x ∈ l.
Proof. unfold sorted. by rewrite merge_sort_Permutation. Qed.

Lemma sorted_length (l : list string) : List.length (sorted l) = List.length l.
Proof. unfold sorted. by rewrite merge_sort_Permutation. Qed.

Lemma build_page_frame d category pg d' :
  build_page d category = Some (pg, d') →
  render_frame d d' ∧ container d' = container d.
Proof.
  unfold build_page.
  destruct (dict_get (config_dict_gui d) category) as [by_section|] eqn:Hcat; [|done].
  simpl. destruct (existsb _ _).
  - destruct (for_each _ _ _) as [[tabs d1]|] eqn:Hrun; [|done]. simpl.
    intros [= _ <-].
    by eapply build_page_plugins_spec in Hrun as (? & ? & _).
  - destruct (sorted (dict_keys by_section) !! 0%nat) as [plugin|]; [|done]. simpl.
    destruct (dict_get by_section plugin) as [r|]; [|done]. simpl.
    destruct (dict_get (plugin_info d) plugin) as [info|]; [|done]. simpl.
    destruct (ControlPanel r info d) as [[frame d1]|] eqn:Hcp; [|done]. simpl.
    intros [= _ <-]. by apply ControlPanel_frame in Hcp as (? & ? & _).
Qed.
End render_facts.

(** ** The nesting of plugin tabs *)

Section nesting.
Context {V : Type}.
Implicit Types (d : @ConfigurePlugins V).

Lemma all_equal_singleton (l : list string) (x : string) :
  NoDup l → (∀ y, y ∈ l → y = x) → l ≠ [] → l = [x].
Proof.
  destruct l as [|a [|b l]]; intros Hnd Hall Hne; [done| |].
  - rewrite (Hall a); [done|left].
  - apply NoDup_cons in Hnd as [Ha _]. destruct Ha.
    rewrite (Hall a), (Hall b); [left|right; left|left].
Qed.

(** C4, amended. Render nesting condition: a category of the grouping gets a
    nested notebook with one tab per plugin, in sorted order, when one of its
    sections is named differently from the category, which is the case
    whenever it holds several plugins; it gets the panel of its section
    directly, with no nested notebook, when its only section is named as the
    category itself. *)
Theorem build_page_nesting d category by_section pg d' :
  dict_get (config_dict_gui d) category = Some by_section →
  NoDup (dict_keys by_section) →
  build_page d category = Some (pg, d') →
  ((∃ plugin, plugin ∈ dict_keys by_section ∧ plugin ≠ category) →
     ∃ tabs, pg = Notebook tabs ∧
             Forall2 (tab_of by_section) (sorted (dict_keys by_section)) tabs) ∧
  ((∀ plugin, plugin ∈ dict_keys by_section → plugin = category) →
     dict_keys by_section = [category] ∧
     ∃ frame, pg = PanelPage frame ∧
              dict_get by_section category = Some (panel_options frame)) ∧
  (1 < List.length (dict_keys by_section) →
     ∃ tabs, pg = Notebook tabs ∧
             List.length tabs = List.length (dict_keys by_section)).
Proof.
  intros Hcat Hnd. unfold build_page. rewrite Hcat. simpl.
  destruct (existsb _ _) eqn:Hany.
  - destruct (for_each _ _ _) as [[tabs d1]|] eqn:Hrun; [|done]. simpl.
    intros [= <- <-].
    eapply build_page_plugins_spec in Hrun as (_ & _ & new & -> & Hnew); [|done].
    simpl. split_and!.
    + intros _. eauto.
    + intros Hall. apply existsb_differs in Hany as (p & Hp & Hne).
      destruct Hne. apply Hall. by apply sorted_elem.
    + intros _. eexists. split; [done|].
      by rewrite <- (Forall2_length _ _ _ Hnew), sorted_length.
  - assert (∀ p, p ∈ dict_keys by_section → p = category) as Hall.
    { intros p Hp. destruct (decide (p = category)) as [|Hne]; [done|].
      assert (existsb (λ plugin, bool_decide (plugin ≠ category))
                (sorted (dict_keys by_section)) = true) as Htrue; [|congruence].
      apply existsb_differs. exists p. split; [by apply sorted_elem|done]. }
    destruct (sorted (dict_keys by_section) !! 0%nat) as [plugin|] eqn:H0; [|done].
    simpl. assert (plugin = category) as ->.
    { apply Hall, sorted_elem. by eapply list_elem_of_lookup_2. }
    assert (dict_keys by_section = [category]) as Hkeys.
    { apply all_equal_singleton; [done..|]. intros Hnil.
      rewrite Hnil in H0. by vm_compute in H0. }
    destruct (dict_get by_section category) as [r|] eqn:Hr; [|done]. simpl.
    destruct (dict_get (plugin_info d) category) as [info|]; [|done]. simpl.
    destruct (ControlPanel r info d) as [[frame d1]|] eqn:Hcp; [|done]. simpl.
    intros [= <- <-]. apply ControlPanel_frame in Hcp as (_ & _ & ->).
    split_and!.
    + intros (p & Hp & Hne). destruct Hne. by apply Hall.
    + intros _. split; [done|]. eauto.
    + rewrite Hkeys. simpl. lia.
Qed.
End nesting.

(** C4, as stated, fails: the category "trainer" holds the single plugin
    "trainer.original", whose name is not the category's, and is rendered as a
    nested notebook with one tab. *)
Lemma single_plugin_category_is_nested : ¬ nests_by_plugin_count cx_loaded "trainer".
Proof.
  intros Hclaim.
  destruct (build_page cx_loaded "trainer") as [[pg d']|] eqn:Hpage;
    [|by vm_compute in Hpage].
  specialize (Hclaim [("trainer.original", DefaultsOf "trainer.original")] pg d').
  assert (pg = Notebook [("Original",
            {| panel_options := DefaultsOf "trainer.original";
               panel_info := EText "Original trainer" |})]) as ->.
  { vm_compute in Hpage. by injection Hpage as <- _. }
  destruct Hclaim as [frame Hframe]; [by vm_compute|done|done].
Qed.

Lemma build_page_nesting_witness :
  (dict_get (config_dict_gui cx_loaded) "trainer" =
     Some [("trainer.original", DefaultsOf "trainer.original")] ∧
   NoDup (dict_keys [("trainer.original", DefaultsOf "trainer.original")]) ∧
   build_page cx_loaded "trainer" = Some cx_page) ∧
  ((∃ plugin, plugin ∈ ["trainer.original"] ∧ plugin ≠ "trainer") →
     ∃ tabs, cx_page.1 = Notebook tabs ∧
             Forall2 (tab_of [("trainer.original", DefaultsOf "trainer.original")])
               (sorted ["trainer.original"]) tabs) ∧
  ((∀ plugin, plugin ∈ ["trainer.original"] → plugin = "trainer") →
     ["trainer.original"] = ["trainer"] ∧
     ∃ frame, cx_page.1 = PanelPage frame ∧
              dict_get [("trainer.original", DefaultsOf "trainer.original")] "trainer" =
              Some (panel_options frame)) ∧
  (1 < 1 → ∃ tabs, cx_page.1 = Notebook tabs ∧ List.length tabs = 1).
Proof.
  assert (Hcat : dict_get (config_dict_gui cx_loaded) "trainer" =
                 Some [("trainer.original", DefaultsOf "trainer.original")])
    by (vm_compute; reflexivity).
  assert (Hnd : NoDup (dict_keys [("trainer.original", DefaultsOf "trainer.original")]))
    by apply NoDup_singleton.
  assert (Hpage : build_page cx_loaded "trainer" = Some (cx_page.1, cx_page.2))
    by (vm_compute; reflexivity).
  split; [split_and!; [exact Hcat|exact Hnd|by rewrite Hpage; destruct cx_page]|].
  exact (build_page_nesting cx_loaded "trainer" _ cx_page.1 cx_page.2 Hcat Hnd Hpage).
Defined.

(** ** The order of the category tabs *)

Lemma list_index_pop (x : string) (l : list string) (i : nat) :
  list_index x l = Some i →
  ∃ l1 l2, l = l1 ++ x :: l2 ∧ (x ∉ l1) ∧ list_pop i l = Some (x, l1 ++ l2).
Proof.
  revert i. induction l as [|y l IH]; intros i; simpl; [done|].
  destruct (decide (y = x)) as [->|Hne].
  - intros [= <-]. exists [], l. split_and!; [done|apply not_elem_of_nil|done].
  - destruct (list_index x l) as [j|]; [|done]. simpl. intros [= <-].
    destruct (IH j eq_refl) as (l1 & l2 & -> & Hx & Hpop).
    exists (y :: l1), l2. split_and!; [done| |].
    + apply not_elem_of_cons. split; [congruence|done].
    + simpl. by rewrite Hpop.
Qed.

Lemma list_index_is_Some (x : string) (l : list string) :
  x ∈ l → is_Some (list_index x l).
Proof.
  induction l as [|y l IH]; [by intros ?%elem_of_nil|]. simpl.
  destruct (decide (y = x)); [eauto|].
  intros [?|Hin]%elem_of_cons; [congruence|].
  destruct (IH Hin) as [i ->]. eauto.
Qed.

Lemma sorted_StronglySorted (l : list string) : StronglySorted String.le (sorted l).
Proof. apply StronglySorted_merge_sort; apply _. Qed.

(** The category order is always defined: "global" first when it is a
    category, the others ascending. *)
Lemma category_order_spec (keys : list string) :
  ∃ categories,
    category_order keys = Some categories ∧ categories ≡ₚ keys ∧
    if decide ("global" ∈ keys)
    then ∃ rest, categories = "global" :: rest ∧ StronglySorted String.le rest
    else StronglySorted String.le categories.
Proof.
  unfold category_order.
  destruct (decide ("global" ∈ keys)) as [Hin|Hnin].
  - rewrite bool_decide_eq_true_2 by (by apply sorted_elem).
    destruct (list_index_is_Some "global" (sorted keys)) as [i Hi]; [by apply sorted_elem|].
    rewrite Hi. simpl.
    destruct (list_index_pop _ _ _ Hi) as (l1 & l2 & Hl & _ & ->). simpl.
    exists ("global" :: l1 ++ l2). split_and!; [done| |].
    + rewrite <- (merge_sort_Permutation String.le keys). fold (sorted keys).
      rewrite Hl. by rewrite Permutation_middle.
    + exists (l1 ++ l2). split; [done|].
      pose proof (sorted_StronglySorted keys) as Hs. rewrite Hl in Hs.
      apply StronglySorted_app in Hs as (Hle & Hs1 & Hs2).
      apply StronglySorted_cons in Hs2 as [_ Hs2].
      apply StronglySorted_app. split_and!; [|done..].
      intros x1 x2 H1 H2. apply Hle; [done|by right].
  - rewrite bool_decide_eq_false_2 by (by rewrite sorted_elem).
    exists (sorted keys). split_and!; [done|apply merge_sort_Permutation|].
    apply sorted_StronglySorted.
Qed.

Section build_facts.
Context {V : Type}.
Implicit Types (d : @ConfigurePlugins V).

Lemma build_category_spec d category d' :
  build_category d category = Some d' →
  render_frame d d' ∧
  ∃ pg, container d' = container d ++ [(title category, pg)].
Proof.
  unfold build_category.
  destruct (build_page d category) as [[pg d1]|] eqn:Hpage; [|done]. simpl.
  intros [= <-]. apply build_page_frame in Hpage as [Hf Hc].
  split; [exact Hf|]. exists pg. simpl. by rewrite Hc.
Qed.

Lemma build_categories_spec (categories : list string) d d' :
  for_each build_category categories d = Some d' →
  render_frame d d' ∧
  (container d').*1 = (container d).*1 ++ (title <$> categories).
Proof.
  intros Hrun.
  apply (for_each_ind _
    (λ done d1, render_frame d d1 ∧
                (container d1).*1 = (container d).*1 ++ (title <$> done)))
    in Hrun; [exact Hrun| |].
  - split; [apply render_frame_refl|]. by rewrite app_nil_r.
  - intros done category d1 d2 [Hf Hc] _ Hstep.
    apply build_category_spec in Hstep as [Hf' [pg Hc']].
    split; [by eapply render_frame_trans|].
    rewrite Hc', !fmap_app, Hc, <- app_assoc. done.
Qed.

Lemma build_frame d d' : build d = Some d' → render_frame d d'.
Proof.
  unfold build. destruct (category_order _) as [categories|]; [|done]. simpl.
  by intros [? _]%build_categories_spec.
Qed.

(** C5. Category tab ordering: the tabs Render adds to the category notebook
    are titled by the categories of the snapshot, each once, with "global"
    first when it is a category and the remaining categories in ascending
    order of their names. *)
Theorem build_orders_category_tabs d d' :
  build d = Some d' →
  ∃ categories,
    (container d').*1 = (container d).*1 ++ (title <$> categories) ∧
    categories ≡ₚ dict_keys (config_dict_gui d) ∧
    if decide ("global" ∈ dict_keys (config_dict_gui d))
    then ∃ rest, categories = "global" :: rest ∧ StronglySorted String.le rest
    else StronglySorted String.le categories.
Proof.
  unfold build.
  destruct (category_order_spec (dict_keys (config_dict_gui d)))
    as (categories & -> & Hperm & Horder). simpl.
  intros [_ Htabs]%build_categories_spec. eauto.
Qed.
End build_facts.

Lemma build_orders_category_tabs_witness :
  build (set_config_dict_gui ex_loaded.2 ex_loaded.1) = Some ex_popup ∧
  ∃ categories,
    (container ex_popup).*1 =
      (container (set_config_dict_gui ex_loaded.2 ex_loaded.1)).*1 ++ (title <$> categories) ∧
    categories ≡ₚ dict_keys ex_loaded.1 ∧
    if decide ("global" ∈ dict_keys ex_loaded.1)
    then ∃ rest, categories = "global" :: rest ∧ StronglySorted String.le rest
    else StronglySorted String.le categories.
Proof.
  assert (Hbuild : build (set_config_dict_gui ex_loaded.2 ex_loaded.1) = Some ex_popup)
    by (vm_compute; reflexivity).
  split; [exact Hbuild|].
  exact (build_orders_category_tabs _ _ Hbuild).
Defined.

(** ** Reset and Cancel leave the collaborator alone *)

Section cancel_facts.
Context {V : Type} (str : V → string).
Context (format_help : string → bool → string).
Context (insert_config_section : string → @Entry V → ConfigParser → option ConfigParser).
Context (write_config : ConfigParser → string).
Context (valid_interpolation : string → bool).
Implicit Types (d : @ConfigurePlugins V).

Lemma set_tk_vars_id d : set_tk_vars d (tk_vars d) = d.
Proof. by destruct d. Qed.

(** Reset writes Tk variables and nothing else. *)
Lemma reset_frame d d' : reset d = Some d' → d' = set_tk_vars d (tk_vars d').
Proof.
  intros Hrun. unfold reset in Hrun.
  apply (for_each_ind _ (λ _ d1, d1 = set_tk_vars d (tk_vars d1))) in Hrun;
    [done|by rewrite set_tk_vars_id|].
  intros _ [sect items] d1 d2 H1 _ Hstep. unfold reset_section in Hstep.
  destruct (reset_lookup sect) as [lookup|]; [|done]. simpl in Hstep.
  apply (for_each_ind _ (λ _ d3, d3 = set_tk_vars d (tk_vars d3))) in Hstep;
    [done|done|].
  intros _ [item def_opt] d3 d4 H3 _ Hitem. unfold reset_item in Hitem.
  destruct (decide (item = "helptext")); [congruence|].
  destruct def_opt as [t|o]; [done|].
  destruct (opt_default o) as [dflt|]; [|done]. simpl in Hitem.
  destruct (dict_get (config_dict_gui d3) lookup.1) as [by_section|]; [|done].
  simpl in Hitem. destruct (dict_get by_section lookup.2) as [r|]; [|done].
  simpl in Hitem. destruct (deref (self_config d3) r) as [options|]; [|done].
  simpl in Hitem. destruct (dict_get options item) as [[t|o']|]; [done| |done].
  simpl in Hitem. destruct (opt_selected o') as [tk_var|]; [|done].
  simpl in Hitem. injection Hitem as <-. rewrite H3. done.
Qed.

Local Abbreviation run_action :=
  (act str format_help insert_config_section write_config valid_interpolation).
Local Abbreviation press_button :=
  (press str format_help insert_config_section write_config valid_interpolation).

(** C8. Cancel frame property: whatever the user edited or reset in the
    dialog before, as long as OK was not pressed, pressing Cancel closes the
    window and leaves the collaborator as it was when the dialog was shown:
    its parser, its file and its defaults. *)
Theorem cancel_leaves_configuration d (actions : list (@user_action V)) d1 :
  Forall (λ a, a ≠ Press OK) actions →
  for_each run_action actions d = Some d1 →
  press_button Cancel d1 = Some (destroy d1) ∧
  winfo_exists (destroy d1) = false ∧
  self_config (destroy d1) = self_config d ∧
  config (self_config (destroy d1)) = config (self_config d) ∧
  configfile (self_config (destroy d1)) = configfile (self_config d).
Proof.
  intros Hno Hrun.
  assert (self_config d1 = self_config d) as Hsame.
  { apply (for_each_ind _ (λ _ d2, self_config d2 = self_config d)) in Hrun;
      [done|done|].
    intros _ a d2 d3 H2 Ha Hstep. eapply Forall_forall in Hno; [|exact Ha].
    destruct a as [x v|[| |]]; simpl in Hstep.
    - injection Hstep as <-. done.
    - injection Hstep as <-. done.
    - done.
    - apply reset_frame in Hstep. rewrite Hstep. done. }
  split_and!; [done|done|done|simpl; by rewrite Hsame..].
Qed.
End cancel_facts.

Lemma cancel_leaves_configuration_witness :
  (Forall (λ a, a ≠ Press OK) ex_actions ∧
   for_each ex_act ex_actions ex_popup = Some ex_edited) ∧
  press id ref_format_help ref_insert_config_section ref_write_config
    ref_valid_interpolation Cancel ex_edited = Some (destroy ex_edited) ∧
  winfo_exists (destroy ex_edited) = false ∧
  self_config (destroy ex_edited) = self_config ex_popup ∧
  config (self_config (destroy ex_edited)) = config (self_config ex_popup) ∧
  configfile (self_config (destroy ex_edited)) = configfile (self_config ex_popup).
Proof.
  assert (Hno : Forall (λ a : @user_action string, a ≠ Press OK) ex_actions)
    by (repeat constructor; discriminate).
  assert (Hrun : for_each ex_act ex_actions ex_popup = Some ex_edited)
    by (vm_compute; reflexivity).
  split; [by split|].
  exact (cancel_leaves_configuration id ref_format_help ref_insert_config_section
           ref_write_config ref_valid_interpolation ex_popup ex_actions ex_edited
           Hno Hrun).
Defined.

(** ** The registry holds one popup *)

Section registry_facts.
Context {V : Type} (config_dict : ConfigParser → string → option (dict V)).
Implicit Types (d : @ConfigurePlugins V) (w : @World V) (cfg : string * @FaceswapConfig V).

Lemma init_exists cfg varnum d :
  ConfigurePlugins_init config_dict cfg varnum = Some d → winfo_exists d = true.
Proof.
  unfold ConfigurePlugins_init.
  destruct (get_config _ _) as [[conf d1]|] eqn:Hload; [|done]. simpl.
  intros (_ & _ & Hw & _)%build_frame.
  apply get_config_spec in Hload as (_ & _ & _ & _ & _ & _ & Hw1 & _).
  simpl in *. congruence.
Qed.

Lemma close_open_popup_spec w w1 :
  numbered w → none_open w ∨ (∃ name obj, one_open w name obj) →
  close_open_popup w = Some w1 →
  numbered w1 ∧ none_open w1 ∧ next_window w1 = next_window w ∧
  ∀ name obj, dict_get (POPUP w) name = Some obj →
              ∃ d, windows w1 !! obj = Some d ∧ winfo_exists d = false.
Proof.
  intros Hnum Hinv. unfold close_open_popup.
  destruct Hinv as [[Hpop Hclosed]|(name & obj & Hpop & (d & Hd & Hlive) & Huniq)].
  - rewrite Hpop. intros [= <-]. split_and!; [done|by split|done|].
    by intros name obj.
  - rewrite Hpop. simpl. destruct (decide (name = name)) as [_|?]; [|done].
    simpl. rewrite Hd. simpl.
    intros [= <-]. split_and!; simpl.
    + intros i [d' Hi]. simpl in *. apply Hnum.
      destruct (decide (i = obj)) as [->|Hne]; [eauto|].
      rewrite lookup_insert_ne in Hi by done. eauto.
    + split; [done|]. simpl. intros i d' Hi.
      destruct (decide (i = obj)) as [->|Hne].
      * rewrite lookup_insert_eq in Hi. by injection Hi as <-.
      * rewrite lookup_insert_ne in Hi by done.
        destruct (winfo_exists d') eqn:Hd'; [|done]. destruct Hne. by eapply Huniq.
    + done.
    + intros name' obj'. simpl. destruct (decide (name = name')); [|done].
      intros [= <-]. exists (destroy d). by rewrite lookup_insert_eq.
Qed.

Lemma popup_config_spec w cfg w' :
  numbered w → none_open w ∨ (∃ name obj, one_open w name obj) →
  popup_config config_dict w cfg = Some w' →
  numbered w' ∧ one_open w' cfg.1 (next_window w) ∧
  ∀ name obj, dict_get (POPUP w) name = Some obj →
              obj ≠ next_window w ∧
              ∃ d, windows w' !! obj = Some d ∧ winfo_exists d = false.
Proof.
  intros Hnum Hinv. unfold popup_config.
  destruct (close_open_popup w) as [w1|] eqn:Hclose; [|done]. simpl.
  destruct (ConfigurePlugins_init _ _ _) as [window|] eqn:Hinit; [|done]. simpl.
  intros [= <-].
  destruct (close_open_popup_spec _ _ Hnum Hinv Hclose)
    as (Hnum1 & [Hpop1 Hclosed1] & Hnext & Hold).
  apply init_exists in Hinit.
  assert (windows w1 !! next_window w1 = None) as Hfresh.
  { destruct (windows w1 !! next_window w1) eqn:Hw; [|done].
    assert (next_window w1 < next_window w1) by (apply Hnum1; eauto). lia. }
  rewrite <- Hnext. split_and!.
  - intros i [d Hi]. simpl in *.
    destruct (decide (i = next_window w1)) as [->|Hne]; [lia|].
    rewrite lookup_insert_ne in Hi by done.
    assert (i < next_window w1) by (apply Hnum1; eauto). lia.
  - unfold one_open. simpl. rewrite Hpop1. split_and!; [done| |].
    + exists window. by rewrite lookup_insert_eq.
    + intros i d Hi Hlive. destruct (decide (i = next_window w1)) as [|Hne]; [done|].
      rewrite lookup_insert_ne in Hi by done.
      rewrite (Hclosed1 _ _ Hi) in Hlive. done.
  - intros name obj Hreg. destruct (Hold name obj Hreg) as (d & Hd & Hdead).
    assert (obj ≠ next_window w1) as Hne by (intros ->; congruence).
    split; [done|]. exists d. simpl. by rewrite lookup_insert_ne.
Qed.

Lemma popup_config_runs_spec (calls : list (string * @FaceswapConfig V)) w :
  for_each (popup_config config_dict) calls initial_world = Some w →
  numbered w ∧
  match last calls with
  | None => none_open w
  | Some cfg => ∃ obj, one_open w cfg.1 obj
  end.
Proof.
  revert w. induction calls as [|cfg calls IH] using rev_ind; intros w.
  - simpl. intros [= <-]. split; [by intros i [d ?]|]. by split.
  - rewrite for_each_app. destruct (for_each _ calls _) as [w0|]; [|done]. simpl.
    destruct (popup_config config_dict w0 cfg) as [w1|] eqn:Hopen; [|done]. simpl.
    intros [= <-]. rewrite last_snoc. destruct (IH w0 eq_refl) as [Hnum Hlast].
    eapply popup_config_spec in Hopen as (Hnum1 & Hone & _); [eauto|done|].
    destruct (last calls); [right|by left].
    destruct Hlast as [obj Hobj]. eauto.
Qed.

(** C7. Single-instance invariant of Open: after every sequence of Open calls
    that ends with the Open of [cfg], the registry binds the identifier of
    [cfg], and nothing else, to a popup that is shown, and no other popup is
    shown; the popup that the registry held before that last Open, whatever
    its identifier, is another object and has been destroyed. *)
Theorem popup_config_single_instance
    (calls : list (string * @FaceswapConfig V)) cfg w0 w :
  for_each (popup_config config_dict) calls initial_world = Some w0 →
  popup_config config_dict w0 cfg = Some w →
  (∃ obj, POPUP w = [(cfg.1, obj)] ∧
          (∃ d, windows w !! obj = Some d ∧ winfo_exists d = true) ∧
          (∀ i d, windows w !! i = Some d → winfo_exists d = true → i = obj) ∧
          ∀ name old, dict_get (POPUP w0) name = Some old →
                      old ≠ obj ∧
                      ∃ d, windows w !! old = Some d ∧ winfo_exists d = false).
Proof.
  intros Hruns Hopen. destruct (popup_config_runs_spec _ _ Hruns) as [Hnum Hlast].
  eapply popup_config_spec in Hopen as (_ & (Hpop & Hlive & Huniq) & Hold); [|done|].
  - exists (next_window w0). split_and!; done.
  - destruct (last calls); [right|left]; [|done].
    destruct Hlast as [obj Hobj]. eauto.
Qed.
End registry_facts.

Lemma popup_config_single_instance_witness :
  (for_each (popup_config ref_config_dict) [("train", ex_config)] initial_world =
     Some ex_world1 ∧
   popup_config ref_config_dict ex_world1 ("train", self_config ex_popup) =
     Some ex_world2) ∧
  ∃ obj, POPUP ex_world2 = [("train", obj)] ∧
         (∃ d, windows ex_world2 !! obj = Some d ∧ winfo_exists d = true) ∧
         (∀ i d, windows ex_world2 !! i = Some d → winfo_exists d = true → i = obj) ∧
         ∀ name old, dict_get (POPUP ex_world1) name = Some old →
                     old ≠ obj ∧
                     ∃ d, windows ex_world2 !! old = Some d ∧ winfo_exists d = false.
Proof.
  assert (Hfirst : for_each (popup_config ref_config_dict) [("train", ex_config)]
                     initial_world = Some ex_world1) by (vm_compute; reflexivity).
  assert (Hsecond : popup_config ref_config_dict ex_world1 ("train", self_config ex_popup)
                    = Some ex_world2) by (vm_compute; reflexivity).
  split; [by split|].
  exact (popup_config_single_instance ref_config_dict _ _ _ _ Hfirst Hsecond).
Defined.

(** ** Reset *)

Section reset_facts.
Context {V : Type}.
Implicit Types (d : @ConfigurePlugins V) (D : dict (dict (@Entry V)))
  (m : gmap nat V) (o : @Option V) (e : @Entry V).

Lemma well_keyed_entry_at D sect items key e :
  well_keyed D → (sect, items) ∈ D → (key, e) ∈ items →
  dict_get D sect = Some items ∧ entry_at D sect key = Some e.
Proof.
  intros [Hnd Hall] Hs Hk.
  assert (dict_get D sect = Some items) as Hget.
  { apply dict_elem_get; done. }
  split; [done|]. unfold entry_at. rewrite Hget. simpl.
  apply dict_elem_get; [|done]. eapply Forall_forall in Hall; [|exact Hs]. exact Hall.
Qed.

Lemma write_all_lookup m (ws : list (nat * V)) (x : nat) (v : V) :
  (x, v) ∈ ws → (∀ v', (x, v') ∈ ws → v' = v) → write_all m ws !! x = Some v.
Proof.
  unfold write_all. induction ws as [|[y u] ws IH] using rev_ind;
    [by intros ?%elem_of_nil|].
  intros Hin Huniq. rewrite foldl_app. simpl.
  destruct (decide (y = x)) as [->|Hne].
  - rewrite lookup_insert_eq. f_equal. apply Huniq, elem_of_app. right. left.
  - rewrite lookup_insert_ne by done. apply IH.
    + apply elem_of_app in Hin as [?|[= <- <-]%list_elem_of_singleton]; done.
    + intros v' Hv'. apply Huniq, elem_of_app. by left.
Qed.

Lemma reset_item_run d m sect items kv :
  rendered d → (sect, items) ∈ defaults (self_config d) → kv ∈ items →
  reset_item (prefix_before "." sect, sect) (set_tk_vars d m) kv =
  Some (set_tk_vars d (write_all m (option_list (item_write kv)))).
Proof.
  intros (Hwk & Hgui & Hopt & _) Hs Hkv. destruct kv as [key e].
  unfold reset_item, item_write. cbn [fst snd].
  destruct (decide (key = "helptext")) as [->|Hkey]; [done|].
  destruct (well_keyed_entry_at _ sect items key e Hwk Hs Hkv) as [Hitems Hat].
  destruct (Hopt sect key e Hat Hkey) as (o & dflt & x & -> & Hd & Hx).
  destruct (Hgui sect) as (by_section & Hcat & Hsect).
  { apply list_elem_of_fmap. by exists (sect, items). }
  unfold entry_at in Hat. rewrite Hitems in Hat. simpl in Hat.
  rewrite Hd, Hx. simpl. rewrite Hcat. simpl. rewrite Hsect. simpl.
  unfold deref. simpl. rewrite Hitems. simpl. rewrite Hat. simpl.
  by rewrite Hx.
Qed.

Lemma write_all_app m (ws1 ws2 : list (nat * V)) :
  write_all m (ws1 ++ ws2) = write_all (write_all m ws1) ws2.
Proof. apply foldl_app. Qed.

Lemma reset_items_run d m sect items items' :
  rendered d → (sect, items) ∈ defaults (self_config d) →
  (∀ kv, kv ∈ items' → kv ∈ items) →
  for_each (reset_item (prefix_before "." sect, sect)) items' (set_tk_vars d m) =
  Some (set_tk_vars d (write_all m (omap item_write items'))).
Proof.
  intros Hr Hs. revert m. induction items' as [|kv items' IH]; intros m Hsub; [done|].
  cbn [for_each]. rewrite (reset_item_run d m sect items kv Hr Hs); [|apply Hsub; left].
  simpl. rewrite IH; [|intros kv' Hkv'; apply Hsub; by right].
  destruct (item_write kv) as [w|]; done.
Qed.

Lemma reset_section_run d m si :
  rendered d → si ∈ defaults (self_config d) →
  reset_section (set_tk_vars d m) si =
  Some (set_tk_vars d (write_all m (omap item_write si.2))).
Proof.
  intros Hr Hs. destruct si as [sect items]. unfold reset_section.
  rewrite reset_lookup_spec. simpl. by apply (reset_items_run d m sect items items).
Qed.

Lemma reset_sections_run d m (sects : dict (dict (@Entry V))) :
  rendered d → (∀ si, si ∈ sects → si ∈ defaults (self_config d)) →
  for_each reset_section sects (set_tk_vars d m) =
  Some (set_tk_vars d (write_all m (reset_writes sects))).
Proof.
  intros Hr. revert m. induction sects as [|si sects IH]; intros m Hsub; [done|].
  cbn [for_each]. rewrite (reset_section_run d m si Hr); [|apply Hsub; left].
  simpl. rewrite IH; [|intros si' Hsi; apply Hsub; by right].
  unfold reset_writes. cbn [mbind list_bind]. by rewrite write_all_app.
Qed.

(** Reset returns on a rendered popup, and what it does is to write the
    defaults into the variables. *)
Lemma reset_run d :
  rendered d →
  reset d = Some (set_tk_vars d (write_all (tk_vars d)
                                   (reset_writes (defaults (self_config d))))).
Proof.
  intros Hr. unfold reset. rewrite <- (set_tk_vars_id d) at 2.
  by apply reset_sections_run.
Qed.

(** C2. Reset postcondition: on a popup that has been loaded and rendered
    (whatever the user has edited since), Reset returns, leaves the
    collaborator as it is, and afterwards the Tk variable bound to every
    option of every section of the defaults, "helptext" apart, holds that
    option's recorded default. *)
Theorem reset_restores_defaults d :
  rendered d →
  ∃ d', reset d = Some d' ∧ self_config d' = self_config d ∧
        ∀ sect items item o,
          (sect, items) ∈ defaults (self_config d) → (item, EOption o) ∈ items →
          item ≠ "helptext" →
          ∃ x dflt, opt_selected o = Some x ∧ opt_default o = Some dflt ∧
                    tk_vars d' !! x = Some dflt.
Proof.
  intros Hr. eexists. split; [by apply reset_run|]. split; [done|].
  intros sect items item o Hs Hi Hne. destruct Hr as (Hwk & Hgui & Hopt & Hinj).
  destruct (well_keyed_entry_at _ _ _ _ _ Hwk Hs Hi) as [_ Hat].
  destruct (Hopt _ _ _ Hat Hne) as (o1 & dflt & x & [= <-] & Hd & Hx).
  exists x, dflt. split_and!; [done..|]. simpl. apply write_all_lookup.
  - unfold reset_writes. apply list_elem_of_bind. exists (sect, items). split; [|done].
    apply list_elem_of_omap. exists (item, EOption o). split; [done|].
    unfold item_write. simpl. rewrite decide_False by done. by rewrite Hx, Hd.
  - intros v' Hv'. unfold reset_writes in Hv'.
    apply list_elem_of_bind in Hv' as ([s' items'] & Hv' & Hs').
    apply list_elem_of_omap in Hv' as ([k' e'] & Hk' & Hw).
    unfold item_write in Hw. simpl in Hw.
    destruct (decide (k' = "helptext")) as [|Hne']; [done|].
    destruct e' as [t|o']; [done|].
    destruct (opt_selected o') as [x'|] eqn:Hx'; [|done]. simpl in Hw.
    destruct (opt_default o') as [dflt'|] eqn:Hd'; [|done]. simpl in Hw.
    injection Hw as -> ->.
    destruct (well_keyed_entry_at _ _ _ _ _ Hwk Hs' Hk') as [_ Hat'].
    destruct (Hinj _ _ _ _ _ _ _ Hat Hat' Hne Hne' Hx Hx') as [<- <-].
    rewrite Hat in Hat'. injection Hat' as <-. congruence.
Qed.
End reset_facts.

(** ** Render binds every option to a variable of its own *)

Section binding_facts.
Context {V : Type}.
Implicit Types (d : @ConfigurePlugins V) (D : dict (dict (@Entry V)))
  (G : string → string → Prop).

Lemma bound_on_weaken G G' d :
  (∀ s k, G' s k → G s k) → bound_on G d → bound_on G' d.
Proof.
  intros Hsub [Hb Hinj]. split.
  - intros s k HG. by apply Hb, Hsub.
  - intros s k s' k' x HG HG'. apply Hinj; by apply Hsub.
Qed.

Lemma options_of_snoc D (done : list string) (sect s k : string) :
  options_of D (done ++ [sect]) s k ↔ options_of D done s k ∨ options_of D [sect] s k.
Proof.
  unfold options_of. rewrite elem_of_app. tauto.
Qed.

Lemma ControlPanel_option_bound G sect d key d' :
  ControlPanel_option (DefaultsOf sect) d key = Some d' →
  bound_on G d →
  bound_on (λ s k, G s k ∨ (s = sect ∧ k = key)) d'.
Proof.
  unfold ControlPanel_option. intros Hrun [Hb Hinj].
  destruct (decide (key = "helptext")) as [->|Hkey].
  { injection Hrun as <-. split.
    - intros s k [HG|[-> ->]] Hk; [by apply Hb|done].
    - intros s k s' k' x [HG|[-> ->]] [HG'|[-> ->]] Hk Hk'; try done. by apply Hinj. }
  unfold deref in Hrun.
  destruct (dict_get (defaults (self_config d)) sect) as [options|] eqn:Hopts; [|done].
  simpl in Hrun. destruct (dict_get options key) as [[t|o]|] eqn:He; [done| |done].
  simpl in Hrun. destruct (opt_value o) as [v|]; [|done]. simpl in Hrun.
  destruct (store _ _ _ _) as [c|] eqn:Hstore; [|done]. simpl in Hrun.
  injection Hrun as <-.
  eapply store_spec in Hstore as (_ & _ & _ & _ & Hat).
  2:{ unfold entry_at. rewrite Hopts. simpl. exact He. }
  2:{ by constructor. }
  assert (∀ s k, selected_at (defaults c) s k =
                 if decide (sect = s ∧ key = k) then Some (tk_varnum d)
                 else selected_at (defaults (self_config d)) s k) as Hsel.
  { intros s k. unfold selected_at. rewrite Hat. by destruct (decide _). }
  unfold bound_on. simpl. split.
  - intros s k HG Hk. rewrite Hsel. destruct (decide (sect = s ∧ key = k)) as [_|Hne].
    + exists (tk_varnum d). split_and!; [done|lia|]. by rewrite lookup_insert_eq.
    + destruct HG as [HG|[-> ->]]; [|by destruct Hne].
      destruct (Hb s k HG Hk) as (x & Hx & Hlt & Hval). exists x.
      split_and!; [done|lia|]. rewrite lookup_insert_ne by lia. done.
  - intros s k s' k' x HG HG' Hk Hk'. rewrite !Hsel.
    destruct (decide (sect = s ∧ key = k)) as [[<- <-]|Hne];
      destruct (decide (sect = s' ∧ key = k')) as [[<- <-]|Hne']; [done| | |].
    + intros [= <-] Hx'. destruct HG' as [HG'|[-> ->]]; [|by destruct Hne'].
      destruct (Hb s' k' HG' Hk') as (x' & Hx'' & Hlt & _). rewrite Hx' in Hx''.
      injection Hx'' as <-. lia.
    + intros Hx [= <-]. destruct HG as [HG|[-> ->]]; [|by destruct Hne].
      destruct (Hb s k HG Hk) as (x' & Hx'' & Hlt & _). rewrite Hx in Hx''.
      injection Hx'' as <-. lia.
    + destruct HG as [HG|[-> ->]]; [|by destruct Hne].
      destruct HG' as [HG'|[-> ->]]; [|by destruct Hne'].
      by apply Hinj.
Qed.

Lemma ControlPanel_bound G D0 sect info d frame d' :
  ControlPanel (DefaultsOf sect) info d = Some (frame, d') →
  same_schema D0 (defaults (self_config d)) →
  bound_on G d →
  bound_on (λ s k, G s k ∨ options_of D0 [sect] s k) d'.
Proof.
  unfold ControlPanel, deref. intros Hrun Hsch Hb.
  destruct (dict_get (defaults (self_config d)) sect) as [opts|] eqn:Hopts; [|done].
  simpl in Hrun. destruct (for_each _ _ _) as [d1|] eqn:Hloop; [|done].
  simpl in Hrun. injection Hrun as _ <-.
  apply (for_each_ind _
    (λ done d2, bound_on (λ s k, G s k ∨ (s = sect ∧ k ∈ done)) d2)) in Hloop.
  - eapply bound_on_weaken; [|exact Hloop].
    intros s k [HG|[Hs (opts0 & Hopts0 & Hk)]]; [by left|right].
    apply list_elem_of_singleton in Hs as ->. split; [done|].
    destruct (dict_rel_get_Some _ _ _ _ _ Hsch Hopts0) as (opts1 & Hopts1 & Hrel).
    rewrite Hopts in Hopts1. injection Hopts1 as <-.
    by rewrite <- (dict_rel_keys _ _ _ Hrel).
  - eapply bound_on_weaken; [|exact Hb]. intros s k [?|[_ ?%elem_of_nil]]; done.
  - intros done key d2 d3 Hb2 _ Hstep.
    apply (ControlPanel_option_bound _ _ _ _ _ Hstep) in Hb2.
    eapply bound_on_weaken; [|exact Hb2].
    intros s k [HG|[-> Hk]]; [by left; left|].
    apply elem_of_app in Hk as [?| ->%list_elem_of_singleton]; [left; right|right]; done.
Qed.
End binding_facts.

Section rendering_facts.
Context {V : Type}.
Implicit Types (d : @ConfigurePlugins V) (D : dict (dict (@Entry V)))
  (G : string → string → Prop).

Lemma partitioned_ref (sects : list string) (conf : dict (dict optref))
    (category : string) (by_section : dict optref) (plugin : string) (r : optref) :
  partitioned sects conf → dict_get conf category = Some by_section →
  dict_get by_section plugin = Some r →
  r = DefaultsOf plugin ∧ NoDup (dict_keys by_section).
Proof.
  intros (_ & Hall & _) Hc Hp. apply dict_get_Some_elem in Hc, Hp.
  eapply Forall_forall in Hall; [|exact Hc]. destruct Hall as [Hnd Hall].
  eapply Forall_forall in Hall; [|exact Hp]. simpl in *. by destruct Hall as (_ & _ & ->).
Qed.

Lemma build_page_bound G D0 (sects : list string) d category pg d' :
  partitioned sects (config_dict_gui d) →
  build_page d category = Some (pg, d') →
  same_schema D0 (defaults (self_config d)) →
  bound_on G d →
  ∃ by_section,
    dict_get (config_dict_gui d) category = Some by_section ∧
    bound_on (λ s k, G s k ∨ options_of D0 (dict_keys by_section) s k) d'.
Proof.
  intros Hpart Hrun Hsch Hb. unfold build_page in Hrun.
  destruct (dict_get (config_dict_gui d) category) as [by_section|] eqn:Hcat; [|done].
  exists by_section. split; [done|]. simpl in Hrun.
  destruct (existsb _ _) eqn:Hany.
  - destruct (for_each _ _ _) as [[tabs d1]|] eqn:Hloop; [|done]. simpl in Hrun.
    injection Hrun as _ <-.
    apply (for_each_ind _
      (λ done (st : list (string * panel) * ConfigurePlugins),
         render_frame d st.2 ∧
         bound_on (λ s k, G s k ∨ options_of D0 done s k) st.2)) in Hloop.
    + destruct Hloop as [_ Hloop]. eapply bound_on_weaken; [|exact Hloop].
      intros s k [HG|[Hs Hk]]; [by left|right]. split; [|done]. by apply sorted_elem.
    + split; [apply render_frame_refl|]. eapply bound_on_weaken; [|exact Hb].
      intros s k [?|[?%elem_of_nil _]]; done.
    + intros done plugin [tabs1 d2] [tabs2 d3] [Hf Hb2] _ Hstep. simpl in *.
      unfold build_page_plugin in Hstep. pose proof Hf as (Hgui & _ & _ & _ & _ & Hsch2).
      rewrite Hgui, Hcat in Hstep. simpl in Hstep.
      destruct (dict_get by_section plugin) as [r|] eqn:Hr; [|done]. simpl in Hstep.
      destruct (dict_get (plugin_info d2) plugin) as [info|]; [|done]. simpl in Hstep.
      destruct (ControlPanel r info d2) as [[frame d4]|] eqn:Hcp; [|done].
      simpl in Hstep. injection Hstep as _ <-.
      destruct (partitioned_ref _ _ _ _ _ _ Hpart Hcat Hr) as [-> _].
      split.
      * eapply render_frame_trans; [exact Hf|].
        by apply ControlPanel_frame in Hcp as (? & _).
      * eapply (ControlPanel_bound _ D0) in Hcp; [|by etrans|exact Hb2].
        eapply bound_on_weaken; [|exact Hcp].
        intros s k [HG|Hin]; [by left; left|]. apply options_of_snoc in Hin. tauto.
  - assert (∀ p, p ∈ dict_keys by_section → p = category) as Hall.
    { intros p Hp. destruct (decide (p = category)) as [|Hne]; [done|].
      assert (existsb (λ plugin, bool_decide (plugin ≠ category))
                (sorted (dict_keys by_section)) = true) as Htrue; [|congruence].
      apply existsb_differs. exists p. split; [by apply sorted_elem|done]. }
    destruct (sorted (dict_keys by_section) !! 0%nat) as [plugin|] eqn:H0; [|done].
    simpl in Hrun. assert (plugin = category) as ->.
    { apply Hall, sorted_elem. by eapply list_elem_of_lookup_2. }
    destruct (dict_get by_section category) as [r|] eqn:Hr; [|done]. simpl in Hrun.
    destruct (dict_get (plugin_info d) category) as [info|]; [|done]. simpl in Hrun.
    destruct (ControlPanel r info d) as [[frame d1]|] eqn:Hcp; [|done]. simpl in Hrun.
    injection Hrun as _ <-.
    destruct (partitioned_ref _ _ _ _ _ _ Hpart Hcat Hr) as [-> Hnd].
    eapply (ControlPanel_bound _ D0) in Hcp; [|done|exact Hb].
    eapply bound_on_weaken; [|exact Hcp].
    intros s k [HG|[Hs Hk]]; [by left|right]. split; [|done].
    apply Hall in Hs as ->. left.
Qed.

Lemma build_bound G D0 (sects : list string) d d' :
  partitioned sects (config_dict_gui d) →
  build d = Some d' →
  same_schema D0 (defaults (self_config d)) →
  bound_on G d →
  bound_on (λ s k, G s k ∨ options_of D0 sects s k) d'.
Proof.
  intros Hpart Hrun Hsch Hb. unfold build in Hrun.
  destruct (category_order_spec (dict_keys (config_dict_gui d)))
    as (categories & Hord & Hperm & _).
  rewrite Hord in Hrun. simpl in Hrun.
  apply (for_each_ind _
    (λ done d1,
       render_frame d d1 ∧
       bound_on (λ s k, G s k ∨
                   ∃ c by_section, c ∈ done ∧
                     dict_get (config_dict_gui d) c = Some by_section ∧
                     options_of D0 (dict_keys by_section) s k) d1)) in Hrun.
  - destruct Hrun as [_ Hrun]. eapply bound_on_weaken; [|exact Hrun].
    intros s k [HG|[Hs Hk]]; [by left|right].
    destruct Hpart as (_ & _ & Hfind). destruct (Hfind s Hs) as (by_section & Hc & Hget).
    exists (prefix_before "." s), by_section. split_and!; [|done|].
    + rewrite Hperm. apply dict_get_is_Some. eauto.
    + split; [|done]. apply dict_get_is_Some. eauto.
  - split; [apply render_frame_refl|]. eapply bound_on_weaken; [|exact Hb].
    intros s k [?|(c & ? & ?%elem_of_nil & _)]; done.
  - intros done category d1 d2 [Hf Hb1] _ Hstep. unfold build_category in Hstep.
    destruct (build_page d1 category) as [[pg d3]|] eqn:Hpage; [|done].
    simpl in Hstep. injection Hstep as <-.
    pose proof Hf as (Hgui & _ & _ & _ & _ & Hsch1).
    pose proof (build_page_frame _ _ _ _ Hpage) as [Hf3 _].
    eapply (build_page_bound _ D0 sects) in Hpage as (by_section & Hcat & Hb3);
      [|by rewrite Hgui|by etrans|exact Hb1].
    split.
    + eapply render_frame_trans; [exact Hf|]. exact Hf3.
    + eapply bound_on_weaken; [|exact Hb3].
      intros s k [HG|(c & bs & Hc & Hbs & Hopt)]; [by left; left|].
      apply elem_of_app in Hc as [Hc| ->%list_elem_of_singleton].
      * left. right. eauto.
      * right. rewrite Hgui in Hcat. congruence.
Qed.

Lemma same_schema_well_keyed D D' : same_schema D D' → well_keyed D → well_keyed D'.
Proof.
  intros Hsch [Hnd Hall]. split.
  - by rewrite <- (dict_rel_keys _ _ _ Hsch).
  - apply Forall_forall. intros [s opts'] Hin.
    destruct (dict_rel_elem_r _ _ _ _ _ Hsch Hin) as (opts & Hin0 & Hrel).
    eapply Forall_forall in Hall; [|exact Hin0]. simpl in *.
    by rewrite <- (dict_rel_keys _ _ _ Hrel).
Qed.

Lemma entry_at_options_of D D' (sects : list string) (s k : string) (e : @Entry V) :
  same_schema D' D → entry_at D s k = Some e → s ∈ sects → options_of D' sects s k.
Proof.
  intros Hsch Hat Hs. split; [done|]. unfold entry_at in Hat.
  destruct (dict_get D s) as [opts|] eqn:Hopts; [|done]. simpl in Hat.
  destruct (dict_rel_get_Some_r _ _ _ _ _ Hsch Hopts) as (opts' & Hopts' & Hrel).
  exists opts'. split; [done|]. rewrite (dict_rel_keys _ _ _ Hrel).
  apply dict_get_is_Some. eauto.
Qed.
End rendering_facts.

Section init_facts.
Context {V : Type} (config_dict : ConfigParser → string → option (dict V)).
Implicit Types (d : @ConfigurePlugins V) (cfg : string * @FaceswapConfig V).

(** A popup that has been constructed is a rendered one, provided the
    defaults are a dictionary of dictionaries and the configuration has a
    section for each of them. *)
Lemma init_rendered cfg varnum d :
  ConfigurePlugins_init config_dict cfg varnum = Some d →
  well_keyed (defaults cfg.2) →
  (∀ s, s ∈ dict_keys (defaults cfg.2) → s ∈ sections (config cfg.2)) →
  rendered d.
Proof.
  unfold ConfigurePlugins_init. intros Hinit Hwk Hsects.
  destruct (get_config _ _) as [[conf d1]|] eqn:Hload; [|done]. simpl in Hinit.
  pose proof (get_config_partitioned _ _ _ _ Hload) as Hpart.
  destruct (get_config_spec _ _ _ _ Hload)
    as (Hcfg & _ & _ & _ & _ & _ & _ & Hsch1 & Hloaded).
  simpl in *.
  pose proof (build_frame _ _ Hinit) as (Hgui & _ & _ & _ & _ & Hsch2). simpl in *.
  eapply (build_bound (λ _ _, False) (defaults (self_config d1))) in Hinit;
    [|exact Hpart|reflexivity|split; [by intros s k []|by intros s k s' k' x []]].
  assert (same_schema (defaults cfg.2) (defaults (self_config d))) as Hsch by by etrans.
  assert (∀ s k e, entry_at (defaults (self_config d)) s k = Some e →
                   s ∈ sections (config cfg.2)) as Hin.
  { intros s k e Hat. apply Hsects. rewrite (dict_rel_keys _ _ _ Hsch).
    apply dict_get_is_Some. unfold entry_at in Hat.
    destruct (dict_get (defaults (self_config d)) s); [eauto|done]. }
  destruct Hinit as [Hb Hinj]. split_and!.
  - by eapply same_schema_well_keyed.
  - intros sect Hsect. rewrite Hgui. apply Hpart, Hsects.
    by rewrite (dict_rel_keys _ _ _ Hsch).
  - intros sect key e Hat Hkey.
    destruct (Hb sect key) as (x & Hx & _ & _); [right|done|].
    { eapply entry_at_options_of; eauto. }
    unfold selected_at in Hx. rewrite Hat in Hx. simpl in Hx.
    destruct e as [t|o]; [done|].
    destruct (same_schema_entry_at_r _ _ _ _ _ Hsch2 Hat) as (e1 & Hat1 & Hmeta).
    destruct (Hloaded sect key) as (o1 & Hat1' & stored & dflt & _ & Hd & _); [|done|].
    { eapply entry_at_options_of; eauto. }
    rewrite Hat1 in Hat1'. injection Hat1' as ->.
    inversion Hmeta as [|? ? Hd' _]; subst. exists o, dflt, x.
    split_and!; [done|congruence|done].
  - intros s k o s' k' o' x Hat Hat' Hk Hk' Hx Hx'.
    apply (Hinj s k s' k' x); try done.
    + right. eapply entry_at_options_of; eauto.
    + right. eapply entry_at_options_of; eauto.
    + unfold selected_at. by rewrite Hat.
    + unfold selected_at. by rewrite Hat'.
Qed.
End init_facts.

Lemma rendered_edit {V : Type} (d : @ConfigurePlugins V) (x : nat) (v : V) :
  rendered d → rendered (edit x v d).
Proof. intros Hr. exact Hr. Qed.

Lemma ex_popup_init :
  ConfigurePlugins_init ref_config_dict ("train", ex_config) 0 = Some ex_popup.
Proof. vm_compute. reflexivity. Qed.

(** Closed decidable facts about the examples hold by evaluation. *)
Ltac by_evaluation := apply (bool_decide_unpack _); vm_compute; exact I.

Lemma ex_popup_rendered : rendered ex_popup.
Proof.
  apply (init_rendered ref_config_dict ("train", ex_config) 0 ex_popup ex_popup_init).
  - split; [by_evaluation|]. repeat constructor; by_evaluation.
  - intros s Hs. apply list_elem_of_In in Hs. simpl in Hs.
    destruct Hs as [<-|[<-|[<-|[]]]]; by_evaluation.
Qed.

Lemma reset_restores_defaults_witness :
  rendered (edit 2 "512" ex_popup) ∧
  ∃ d', reset (edit 2 "512" ex_popup) = Some d' ∧
        self_config d' = self_config (edit 2 "512" ex_popup) ∧
        ∀ sect items item o,
          (sect, items) ∈ defaults (self_config (edit 2 "512" ex_popup)) →
          (item, EOption o) ∈ items → item ≠ "helptext" →
          ∃ x dflt, opt_selected o = Some x ∧ opt_default o = Some dflt ∧
                    tk_vars d' !! x = Some dflt.
Proof.
  assert (Hr : rendered (edit 2 "512" ex_popup))
    by exact (rendered_edit ex_popup 2 "512" ex_popup_rendered).
  split; [exact Hr|].
  exact (reset_restores_defaults (edit 2 "512" ex_popup) Hr).
Defined.

(** ** The lookup of Reset *)

Section reset_lookup_facts.
Context {V : Type} (config_dict : ConfigParser → string → option (dict V)).
Implicit Types (d : @ConfigurePlugins V) (cfg : string * @FaceswapConfig V).

(** C10. Safety of Reset's lookup: in a popup that has been constructed, for
    every section of the defaults that Load read from the configuration, the
    lookup list of Reset is defined, its first element is bound in the
    snapshot, its second element is bound under the first, and the reference
    found there is to the options of that section in the defaults. *)
Theorem reset_lookup_finds_loaded_section cfg varnum d sect items :
  ConfigurePlugins_init config_dict cfg varnum = Some d →
  (sect, items) ∈ defaults (self_config d) →
  sect ∈ sections (config cfg.2) →
  ∃ lookup by_section r options,
    reset_lookup sect = Some lookup ∧
    dict_get (config_dict_gui d) lookup.1 = Some by_section ∧
    dict_get by_section lookup.2 = Some r ∧
    deref (self_config d) r = Some options ∧
    dict_get (defaults (self_config d)) sect = Some options.
Proof.
  unfold ConfigurePlugins_init. intros Hinit Hdef Hsect.
  destruct (get_config _ _) as [[conf d1]|] eqn:Hload; [|done]. simpl in Hinit.
  pose proof (get_config_partitioned _ _ _ _ Hload) as (_ & _ & Hfind).
  pose proof (build_frame _ _ Hinit) as (Hgui & _). simpl in *.
  destruct (Hfind sect Hsect) as (by_section & Hc & Hs).
  destruct (dict_get (defaults (self_config d)) sect) as [options|] eqn:Hopts.
  - exists (prefix_before "." sect, sect), by_section, (DefaultsOf sect), options.
    rewrite reset_lookup_spec, Hgui. by split_and!.
  - apply dict_get_None in Hopts. destruct Hopts.
    apply list_elem_of_fmap. by exists (sect, items).
Qed.
End reset_lookup_facts.

Lemma reset_lookup_finds_loaded_section_witness :
  (ConfigurePlugins_init ref_config_dict ("train", ex_config) 0 = Some ex_popup ∧
   ("model.dfl_h128",
    default [] (dict_get (defaults (self_config ex_popup)) "model.dfl_h128"))
     ∈ defaults (self_config ex_popup) ∧
   "model.dfl_h128" ∈ sections (config ex_config)) ∧
  ∃ lookup by_section r options,
    reset_lookup "model.dfl_h128" = Some lookup ∧
    dict_get (config_dict_gui ex_popup) lookup.1 = Some by_section ∧
    dict_get by_section lookup.2 = Some r ∧
    deref (self_config ex_popup) r = Some options ∧
    dict_get (defaults (self_config ex_popup)) "model.dfl_h128" = Some options.
Proof.
  assert (Hdef : ("model.dfl_h128",
                  default [] (dict_get (defaults (self_config ex_popup)) "model.dfl_h128"))
                 ∈ defaults (self_config ex_popup)).
  { apply dict_get_Some_elem. vm_compute. reflexivity. }
  assert (Hsect : "model.dfl_h128" ∈ sections (config ex_config)).
  { by_evaluation. }
  split; [split_and!; [exact ex_popup_init|exact Hdef|exact Hsect]|].
  exact (reset_lookup_finds_loaded_section ref_config_dict ("train", ex_config) 0
           ex_popup "model.dfl_h128" _ ex_popup_init Hdef Hsect).
Defined.


(** ** What a constructed popup looks like *)

Section popup_facts.
Context {V : Type} (config_dict : ConfigParser → string → option (dict V)).
Implicit Types (d : @ConfigurePlugins V) (cfg : string * @FaceswapConfig V).

Lemma init_frame cfg varnum d :
  ConfigurePlugins_init config_dict cfg varnum = Some d →
  partitioned (sections (config cfg.2)) (config_dict_gui d) ∧
  same_schema (defaults cfg.2) (defaults (self_config d)) ∧
  config (self_config d) = config cfg.2 ∧
  configfile (self_config d) = configfile cfg.2.
Proof.
  unfold ConfigurePlugins_init. intros Hinit.
  destruct (get_config _ _) as [[conf d1]|] eqn:Hload; [|done]. simpl in Hinit.
  pose proof (get_config_partitioned _ _ _ _ Hload) as Hpart.
  destruct (get_config_spec _ _ _ _ Hload) as (Hc & Hf & _ & _ & _ & _ & _ & Hsch1 & _).
  pose proof (build_frame _ _ Hinit) as (Hgui & _ & _ & Hc2 & Hf2 & Hsch2).
  simpl in *. split_and!; [by rewrite Hgui|by etrans|congruence..].
Qed.


Lemma edits_frame d (l : list (nat * V)) :
  self_config (edits d l) = self_config d ∧
  config_dict_gui (edits d l) = config_dict_gui d ∧
  plugin_info (edits d l) = plugin_info d ∧
  (live d → live (edits d l)).
Proof.
  unfold edits. induction l as [|[x v] l IH] using rev_ind; [done|].
  rewrite foldl_app. simpl. destruct IH as (Hc & Hg & Hi & Hl).
  split_and!; [done..|]. intros Hlive s k e Hat Hk. simpl in Hat. rewrite Hc in Hat.
  specialize (Hl Hlive s k e). rewrite Hc in Hl. specialize (Hl Hat Hk).
  unfold edit_value in *. simpl. rewrite Hc in *. rewrite Hat in *. simpl in *.
  destruct e as [t|o]; [done|]. destruct (opt_selected o) as [y|]; [|done]. simpl in *.
  destruct (decide (x = y)) as [->|Hne].
  - rewrite lookup_insert_eq. eauto.
  - by rewrite lookup_insert_ne.
Qed.
End popup_facts.

(** ** Load returns on a well-formed configuration *)

Section load_total.
Context {V : Type} (config_dict : ConfigParser → string → option (dict V)).
Implicit Types (d : @ConfigurePlugins V) (c : @FaceswapConfig V)
  (D : dict (dict (@Entry V))).

Lemma loadable_schema p D D' (sects : list string) :
  same_schema D D' → loadable config_dict p D sects → loadable config_dict p D' sects.
Proof.
  intros Hsch Hl s Hs. destruct (Hl s Hs) as (Hcd & opts & Hopts & Hk).
  split; [done|].
  destruct (dict_rel_get_Some _ _ _ _ _ Hsch Hopts) as (opts' & Hopts' & Hrel).
  exists opts'. split; [done|]. intros k Hin Hne.
  rewrite <- (dict_rel_keys _ _ _ Hrel) in Hin.
  destruct (Hk k Hin Hne) as (o & Ho & Hd).
  destruct (dict_rel_get_Some _ _ _ _ _ Hrel Ho) as (e' & He' & Hmeta).
  inversion Hmeta as [|? o' Hd' _]; subst. exists o'. split; [done|]. by rewrite <- Hd'.
Qed.

Lemma get_config_option_returns sect c info key (sects : list string) :
  section c = sect → sect ∈ sects → loadable config_dict (config c) (defaults c) sects →
  (∃ opts, dict_get (defaults c) sect = Some opts ∧ key ∈ dict_keys opts) →
  is_Some (get_config_option config_dict sect (c, info) key).
Proof.
  intros Hsect Hin Hl (opts & Hopts & Hkey). unfold get_config_option.
  destruct (Hl sect Hin) as ([stored Hcd] & opts' & Hopts' & Hk).
  rewrite Hopts in Hopts'. injection Hopts' as <-. rewrite Hopts. simpl.
  apply dict_get_is_Some in Hkey as [e He]. rewrite He. simpl.
  destruct (decide (key = "helptext")) as [|Hne]; [eauto|].
  destruct (Hk key) as (o & Ho & [dflt Hd]); [by apply dict_get_is_Some; eauto|done|].
  rewrite He in Ho. injection Ho as ->. rewrite Hsect, Hcd. simpl. rewrite Hd. simpl.
  unfold store. rewrite Hopts. simpl. eauto.
Qed.

Lemma get_config_section_returns c info conf sect (sects : list string) :
  sect ∈ sects → loadable config_dict (config c) (defaults c) sects →
  is_Some (get_config_section config_dict (c, info, conf) sect).
Proof.
  intros Hin Hl. unfold get_config_section. rewrite split_head. simpl.
  destruct (Hl sect Hin) as (_ & opts & Hopts & _). rewrite Hopts. simpl.
  rewrite dict_get_setdefault. simpl.
  destruct (for_each_is_Some (get_config_option config_dict sect)
              (λ st : FaceswapConfig * dict Entry,
                 config st.1 = config c ∧ section st.1 = sect ∧
                 same_schema (defaults c) (defaults st.1))
              (dict_keys opts) (with_section c sect, info))
    as ([c1 info1] & -> & _); [| |by eauto].
  - simpl. split_and!; [done..|reflexivity].
  - intros key [c2 info2] (Hc & Hs & Hsch) Hkey. simpl in *.
    destruct (get_config_option_returns sect c2 info2 key sects) as [[c3 info3] Hrun];
      [done|done| | |].
    + rewrite Hc. by eapply loadable_schema.
    + destruct (dict_rel_get_Some _ _ _ _ _ Hsch Hopts) as (opts2 & Hopts2 & Hrel).
      exists opts2. split; [done|]. by rewrite <- (dict_rel_keys _ _ _ Hrel).
    + exists (c3, info3). split; [done|].
      eapply (get_config_option_spec _ (λ _ _, False)) in Hrun
        as (Hc' & Hs' & _ & Hsch' & _); [|done|by intros s k []].
      simpl. split_and!; [congruence|done|by etrans].
Qed.

Lemma get_config_returns d :
  loadable config_dict (config (self_config d)) (defaults (self_config d))
    (sections (config (self_config d))) →
  is_Some (get_config config_dict d).
Proof.
  intros Hl. unfold get_config.
  destruct (for_each_is_Some (get_config_section config_dict)
              (λ st : FaceswapConfig * dict Entry * dict (dict optref),
                 config st.1.1 = config (self_config d) ∧
                 same_schema (defaults (self_config d)) (defaults st.1.1))
              (sections (config (self_config d)))
              (self_config d, plugin_info d, []))
    as ([[c info] conf] & -> & _); [| |by eauto].
  - simpl. split; [done|reflexivity].
  - intros sect [[c1 info1] conf1] [Hc Hsch] Hin. simpl in *.
    destruct (get_config_section_returns c1 info1 conf1 sect
                (sections (config (self_config d)))) as [[[c2 info2] conf2] Hrun];
      [done| |].
    + rewrite Hc. by eapply loadable_schema.
    + exists (c2, info2, conf2). split; [done|].
      eapply (get_config_section_spec _ (defaults (self_config d)) []) in Hrun
        as (Hc' & _ & Hsch' & _); [|done|by intros s k [?%elem_of_nil _]].
      simpl. split; [congruence|done].
Qed.
End load_total.

(** ** Save *)

Lemma dict_get_snoc_ne {A : Type} (l : dict A) (k k' : string) (v : A) :
  k ≠ k' → dict_get (l ++ [(k, v)]) k' = dict_get l k'.
Proof.
  intros Hne. induction l as [|[k0 v0] l IH]; simpl.
  - by rewrite decide_False.
  - by destruct (decide (k0 = k')).
Qed.

Lemma dict_get_snoc_eq {A : Type} (l : dict A) (k : string) (v : A) :
  k ∉ dict_keys l → dict_get (l ++ [(k, v)]) k = Some v.
Proof.
  unfold dict_keys. induction l as [|[k0 v0] l IH]; csimpl.
  - intros _. by rewrite decide_True.
  - intros [Hne Hk]%not_elem_of_cons. rewrite decide_False by done. by apply IH.
Qed.

Section parser_facts.
Context (valid_interpolation : string → bool).
Implicit Types (p : ConfigParser).


Lemma cp_stored_set p sect name value opts s k :
  dict_get (cp_sections p) sect = Some opts →
  cp_stored (cp_with_sections p (dict_set (cp_sections p) sect (dict_set opts name value))) s k =
  if decide (sect = s ∧ name = k) then Some value else cp_stored p s k.
Proof.
  intros Hopts. unfold cp_stored. simpl. rewrite dict_get_set.
  destruct (decide (sect = s)) as [<-|Hne]; simpl.
  - rewrite dict_get_set, Hopts. simpl. destruct (decide (name = k)) as [<-|Hk].
    + by rewrite decide_True.
    + rewrite decide_False; [done|]. by intros [_ ?].
  - rewrite decide_False; [done|]. by intros [? _].
Qed.

Lemma sections_set p sect opts opts' :
  dict_get (cp_sections p) sect = Some opts →
  sections (cp_with_sections p (dict_set (cp_sections p) sect opts')) = sections p.
Proof. intros Hopts. unfold sections. simpl. by rewrite dict_keys_set, Hopts. Qed.
End parser_facts.

Section save_facts.
Context {V : Type} (str : V → string).
Context (config_dict : ConfigParser → string → option (dict V)).
Context (format_help : string → bool → string).
Context (insert_config_section : string → @Entry V → ConfigParser → option ConfigParser).
Context (write_config : ConfigParser → string).
Context (valid_interpolation : string → bool).
Implicit Types (d : @ConfigurePlugins V) (p : ConfigParser)
  (D : dict (dict (@Entry V))) (cfg : string * @FaceswapConfig V).

Lemma describes_sections_schema D D' :
  same_schema D D' → describes_sections D → describes_sections D'.
Proof.
  intros Hsch Hd sect Hsect. rewrite <- (dict_rel_keys _ _ _ Hsch) in Hsect.
  destruct (Hd sect Hsect) as (? & ? & [text Ht] & Hopt). split_and!; [done..| |].
  - destruct (same_schema_entry_at _ _ _ _ _ Hsch Ht) as (e' & He' & Hmeta).
    inversion Hmeta; subst. eauto.
  - intros key e' He' Hkey.
    destruct (same_schema_entry_at_r _ _ _ _ _ Hsch He') as (e & He & Hmeta).
    destruct (Hopt key e He Hkey) as (o & -> & Hh).
    inversion Hmeta as [|? o' _ Hh']; subst. exists o'. split; [done|]. by rewrite <- Hh'.
Qed.

Local Abbreviation save_item := (save_config_item str format_help valid_interpolation).
Local Abbreviation save_section :=
  (save_config_section str format_help insert_config_section valid_interpolation).
Local Abbreviation save :=
  (save_config str format_help insert_config_section write_config valid_interpolation).




End save_facts.

(** ** Save, then Load *)

Section roundtrip.
Context {V : Type} (str : V → string).
Context (config_dict : ConfigParser → string → option (dict V)).
Context (format_help : string → bool → string).
Context (insert_config_section : string → @Entry V → ConfigParser → option ConfigParser).
Context (write_config : ConfigParser → string).
Context (valid_interpolation : string → bool).
Implicit Types (d : @ConfigurePlugins V) (D : dict (dict (@Entry V)))
  (cfg : string * @FaceswapConfig V).

(** How the collaborator types a stored string: [parse sect key text] is the
    value its [config_dict] reports for the option [key] of section [sect]
    when the parser stores [text] for it. *)
Context (parse : string → string → string → V).

Local Abbreviation save :=
  (save_config str format_help insert_config_section write_config valid_interpolation).

End roundtrip.

(** ** The reference collaborator keeps the contract *)

Lemma ref_writes_section_headers :
  writes_section_headers (V := string) ref_insert_config_section.
Proof.
  intros sect text p Hnew Hne Hne'. unfold ref_insert_config_section.
  rewrite bool_decide_eq_false_2 by (by intros [?|[?|?]]).
  eexists _, _. split; [done|]. split; [done|]. simpl.
  by apply dict_set_fresh.
Qed.


(** Every entry of the defaults is one of a list. *)
Lemma entry_at_elem {V : Type} (D : dict (dict (@Entry V))) (s k : string) (e : @Entry V) :
  entry_at D s k = Some e →
  (s, k, e) ∈ (D ≫= λ si, (λ ke : string * Entry, (si.1, ke.1, ke.2)) <$> si.2).
Proof.
  unfold entry_at. intros Hat.
  destruct (dict_get D s) as [items|] eqn:Hitems; [|done]. simpl in Hat.
  apply dict_get_Some_elem in Hitems, Hat.
  apply list_elem_of_bind. exists (s, items). split; [|done].
  apply list_elem_of_fmap. by exists (k, e).
Qed.

(** Case analysis on an entry of the example defaults. *)
Ltac ex_entry H :=
  apply entry_at_elem in H; apply list_elem_of_In in H; vm_compute in H;
  repeat (destruct H as [H|H]); [..|destruct H]; simplify_eq.

Lemma ex_help_is_no_option : help_is_no_option ref_format_help ex_defaults.
Proof.
  intros sect key e text b Hat Hkey.
  ex_entry Hat; try done; destruct b; intros Heq; vm_compute in Heq; discriminate.
Qed.


Lemma ex_well_keyed : well_keyed ex_defaults.
Proof. split; [by_evaluation|]. repeat constructor; by_evaluation. Qed.

Lemma ex_describes_sections : describes_sections ex_defaults.
Proof.
  intros sect Hsect. apply list_elem_of_In in Hsect. simpl in Hsect.
  assert (∀ key e, entry_at ex_defaults sect key = Some e → key ≠ "helptext" →
                   ∃ o, e = EOption o ∧ is_Some (opt_helptext o)) as Hopts.
  { intros key e Hat Hkey. ex_entry Hat; try done; eexists; split; eauto. }
  destruct Hsect as [<-|[<-|[<-|[]]]]; split_and!; try done; eexists; reflexivity.
Qed.







Example spec_example_tabs :
  container spec_popup =
  [("Global", PanelPage {| panel_options := DefaultsOf "global"; panel_info := EText "" |})] ∧
  edit_value spec_popup "global" "opt1" = Some "5".
Proof. split; vm_compute; reflexivity. Qed.

Example spec_example_reset :
  (λ d, edit_value d "global" "opt1") <$> reset spec_popup = Some (Some "5").
Proof. vm_compute. reflexivity. Qed.

Example spec_example_save :
  (λ d, (cp_stored (config (self_config d)) "global" "opt1", configfile (self_config d)))
    <$> save_config id ref_format_help ref_insert_config_section ref_write_config
          ref_valid_interpolation (edit 0 "7" spec_popup) =
  Some (Some (Some "7"),
        "[global]" +:+ newline +:+ "# " +:+ newline +:+ newline +:+ "# An option"
          +:+ newline +:+ "opt1 = 7" +:+ newline +:+ newline).
Proof. vm_compute. reflexivity. Qed.

(** * Further properties of the dialog

    Faults, frames and compositions of Load, Render, Reset, Save and the
    registry, read off the code. *)

(** A loop faults when some turn faults on every state the loop can be in. *)
Lemma for_each_fault {S B : Type} (body : S → B → option S) (I : S → Prop)
    (l : list B) (x : B) (s0 : S) :
  x ∈ l → I s0 →
  (∀ y s s1, I s → body s y = Some s1 → I s1) →
  (∀ s, I s → body s x = None) →
  for_each body l s0 = None.
Proof.
  revert s0. induction l as [|y l IH]; intros s0 Hin H0 Hpres Hx.
  - by apply elem_of_nil in Hin.
  - simpl. destruct (body s0 y) as [s1|] eqn:Hy; [|done]. simpl.
    apply elem_of_cons in Hin as [->|Hin].
    + by rewrite Hx in Hy.
    + apply IH; eauto.
Qed.

(** ** Load: when it faults and when it returns *)

Section load_faults.
Context {V : Type} (config_dict : ConfigParser → string → option (dict V)).
Implicit Types (o : @Option V) (e : @Entry V) (c : @FaceswapConfig V)
  (d : @ConfigurePlugins V) (conf : dict (dict optref)).

Lemma lacks_default_meta e e' : same_meta e e' → lacks_default e → lacks_default e'.
Proof.
  intros Hm Hl o ->. inversion Hm as [|o0 ? Hd _]; subst. rewrite <- Hd. by apply Hl.
Qed.

Lemma get_config_option_faults sect c info key e :
  key ≠ "helptext" → entry_at (defaults c) sect key = Some e → lacks_default e →
  get_config_option config_dict sect (c, info) key = None.
Proof.
  unfold get_config_option, entry_at. intros Hk He Hl.
  destruct (dict_get (defaults c) sect) as [opts|]; [|done]. simpl in *.
  rewrite He. simpl. rewrite decide_False by done. destruct e as [t|o]; [done|].
  destruct (config_dict _ _); [|done]. simpl. by rewrite (Hl o eq_refl).
Qed.

Lemma get_config_section_faults c info conf sect :
  (dict_get (defaults c) sect = None ∨
   ∃ key e, key ≠ "helptext" ∧ entry_at (defaults c) sect key = Some e ∧
            lacks_default e) →
  get_config_section config_dict (c, info, conf) sect = None.
Proof.
  unfold get_config_section. rewrite split_head. simpl.
  intros [Hnone|(key & e & Hk & He & Hl)]; [by rewrite Hnone|].
  destruct (dict_get (defaults c) sect) as [opts|] eqn:Hopts; [|done]. simpl.
  rewrite dict_get_setdefault. simpl.
  rewrite (for_each_fault _
             (λ st : FaceswapConfig * dict Entry,
                section st.1 = sect ∧
                ∃ e', entry_at (defaults st.1) sect key = Some e' ∧ lacks_default e')
             _ key); [done|..].
  - apply dict_get_is_Some. unfold entry_at in He. rewrite Hopts in He. eauto.
  - simpl. eauto.
  - intros y [c1 i1] [c2 i2] [Hs (e1 & He1 & Hl1)] Hstep. simpl in *.
    eapply (get_config_option_spec _ (λ _ _, False)) in Hstep
      as (_ & Hs' & _ & Hsch & _); [|done|by intros ? ? []].
    split; [done|].
    destruct (same_schema_entry_at _ _ _ _ _ Hsch He1) as (e2 & He2 & Hm).
    exists e2. split; [done|]. by eapply lacks_default_meta.
  - intros [c1 i1] [_ (e1 & He1 & Hl1)]. simpl in *.
    by eapply get_config_option_faults.
Qed.

(** X1. Load faults (KeyError) when the parser has a section the defaults do
    not describe, or when a section it reads has a key other than "helptext"
    that is bound to an option without "default". *)
Theorem load_faults_on_undescribed_section d sect :
  sect ∈ sections (config (self_config d)) →
  (dict_get (defaults (self_config d)) sect = None ∨
   ∃ key e, key ≠ "helptext" ∧
            entry_at (defaults (self_config d)) sect key = Some e ∧ lacks_default e) →
  get_config config_dict d = None.
Proof.
  intros Hin Hbad. unfold get_config.
  rewrite (for_each_fault _
             (λ st : FaceswapConfig * dict Entry * dict (dict optref),
                same_schema (defaults (self_config d)) (defaults st.1.1))
             _ sect); [done|done|simpl; reflexivity|..].
  - intros y [[c1 i1] conf1] [[c2 i2] conf2] Hsch Hstep. simpl in *.
    by eapply (get_config_section_spec _ (defaults (self_config d)) []) in Hstep
      as (_ & _ & Hsch' & _); [|done|by intros s k [?%elem_of_nil _]].
  - intros [[c1 i1] conf1] Hsch. simpl in *. apply get_config_section_faults.
    destruct Hbad as [Hnone|(key & e & Hk & He & Hl)].
    + left. pose proof (dict_rel_get _ _ _ sect Hsch) as Hrel.
      rewrite Hnone in Hrel. by inversion Hrel.
    + right. destruct (same_schema_entry_at _ _ _ _ _ Hsch He) as (e' & He' & Hm).
      exists key, e'. split_and!; [done..|]. by eapply lacks_default_meta.
Qed.

(** X2. Load returns on every configuration in which the collaborator reads
    the stored values of each section of the parser, and each such section has
    defaults whose keys other than "helptext" are options with a default. *)
Theorem load_returns_on_described_sections d :
  loadable config_dict (config (self_config d)) (defaults (self_config d))
    (sections (config (self_config d))) →
  ∃ conf d', get_config config_dict d = Some (conf, d').
Proof.
  intros Hl. destruct (get_config_returns _ _ Hl) as [[conf d'] Hrun]. eauto.
Qed.
End load_faults.

Lemma load_faults_on_undescribed_section_witness :
  ("convert.mask" ∈ sections (config (self_config (new_toplevel stray_config 0))) ∧
   (dict_get (defaults (self_config (new_toplevel stray_config 0))) "convert.mask" = None ∨
    ∃ key e, key ≠ "helptext" ∧
             entry_at (defaults (self_config (new_toplevel stray_config 0)))
               "convert.mask" key = Some e ∧ lacks_default e)) ∧
  get_config ref_config_dict (new_toplevel stray_config 0) = None.
Proof.
  assert (Hin : "convert.mask" ∈
                sections (config (self_config (new_toplevel stray_config 0))))
    by by_evaluation.
  assert (Hbad : dict_get (defaults (self_config (new_toplevel stray_config 0)))
                   "convert.mask" = None ∨
                 ∃ key e, key ≠ "helptext" ∧
                   entry_at (defaults (self_config (new_toplevel stray_config 0)))
                     "convert.mask" key = Some e ∧ lacks_default e)
    by (left; reflexivity).
  split; [by split|].
  exact (load_faults_on_undescribed_section ref_config_dict
           (new_toplevel stray_config 0) "convert.mask" Hin Hbad).
Defined.

Lemma ex_loadable :
  loadable ref_config_dict (config ex_config) (defaults ex_config)
    (sections (config ex_config)).
Proof.
  intros s Hs. split; [by eexists|].
  apply list_elem_of_In in Hs. simpl in Hs.
  destruct Hs as [<-|[<-|[<-|[]]]]; (eexists; split; [reflexivity|]);
    intros k Hk Hne; apply list_elem_of_In in Hk; simpl in Hk;
    repeat (destruct Hk as [<-|Hk]); try done;
    (eexists; split; [reflexivity|by eexists]).
Qed.

Lemma load_returns_on_described_sections_witness :
  loadable ref_config_dict (config (self_config ex_new)) (defaults (self_config ex_new))
    (sections (config (self_config ex_new))) ∧
  ∃ conf d', get_config ref_config_dict ex_new = Some (conf, d').
Proof.
  split; [exact ex_loadable|].
  exact (load_returns_on_described_sections ref_config_dict ex_new ex_loadable).
Defined.

Example load_example_no_default :
  get_config ref_config_dict (new_toplevel undefaulted_config 0) = None.
Proof. vm_compute. reflexivity. Qed.

(** ** Load: what it writes *)

Section load_changes.
Context {V : Type} (config_dict : ConfigParser → string → option (dict V)).
Implicit Types (o : @Option V) (e : @Entry V) (c : @FaceswapConfig V)
  (d : @ConfigurePlugins V) (conf : dict (dict optref)).

Lemma value_set_refl e : value_set e e.
Proof. by left. Qed.

Lemma value_set_trans e1 e2 e3 : value_set e1 e2 → value_set e2 e3 → value_set e1 e3.
Proof.
  intros [->|(o & v & -> & ->)] [->|(o' & v' & Heq & ->)];
    [by left|right; eauto|right; eauto|].
  injection Heq as <-. right. by exists o, v'.
Qed.

Lemma value_set_lookup_refl (x : option (@Entry V)) : option_Forall2 value_set x x.
Proof. destruct x; constructor. apply value_set_refl. Qed.

Lemma value_set_lookup_trans (x y z : option (@Entry V)) :
  option_Forall2 value_set x y → option_Forall2 value_set y z →
  option_Forall2 value_set x z.
Proof.
  intros Hxy Hyz. destruct Hxy; inversion Hyz; subst; constructor.
  by eapply value_set_trans.
Qed.

Lemma get_config_option_changes sect c info key c' info' :
  get_config_option config_dict sect (c, info) key = Some (c', info') →
  (∀ s k, option_Forall2 value_set (entry_at (defaults c) s k)
                                   (entry_at (defaults c') s k)) ∧
  (∀ s k, s ≠ sect ∨ k = "helptext" →
          entry_at (defaults c') s k = entry_at (defaults c) s k) ∧
  (∀ s, s ≠ sect → dict_get info' s = dict_get info s) ∧
  dict_get info' sect =
    if decide (key = "helptext") then entry_at (defaults c) sect "helptext"
    else dict_get info sect.
Proof.
  unfold get_config_option. intros Hrun.
  destruct (dict_get (defaults c) sect) as [options|] eqn:Hopts; [|done]. simpl in Hrun.
  destruct (dict_get options key) as [e|] eqn:He; [|done]. simpl in Hrun.
  destruct (decide (key = "helptext")) as [->|Hkey].
  { injection Hrun as <- <-. split_and!.
    - intros s k. apply value_set_lookup_refl.
    - done.
    - intros s Hs. by rewrite dict_get_set_ne.
    - rewrite dict_get_set_eq. unfold entry_at. by rewrite Hopts. }
  destruct e as [t|o]; [done|].
  destruct (config_dict (config c) (section c)) as [stored|]; [|done].
  simpl in Hrun. destruct (opt_default o) as [dflt|]; [|done]. simpl in Hrun.
  destruct (store c _ _ _) as [c1|] eqn:Hstore; [|done]. simpl in Hrun.
  injection Hrun as <- <-.
  eapply store_spec in Hstore as (_ & _ & _ & _ & Hat).
  2:{ unfold entry_at. rewrite Hopts. simpl. exact He. }
  2:{ by constructor. }
  split_and!; [| |done..].
  - intros s k. rewrite Hat. destruct (decide (sect = s ∧ key = k)) as [[<- <-]|Hne].
    + unfold entry_at. rewrite Hopts. simpl. rewrite He. constructor. right. eauto.
    + apply value_set_lookup_refl.
  - intros s k Hsk. rewrite Hat. rewrite decide_False; [done|].
    intros [<- <-]. by destruct Hsk.
Qed.

Lemma get_config_options_changes sect keys c info c' info' :
  for_each (get_config_option config_dict sect) keys (c, info) = Some (c', info') →
  (∀ s k, option_Forall2 value_set (entry_at (defaults c) s k)
                                   (entry_at (defaults c') s k)) ∧
  (∀ s k, s ≠ sect ∨ k = "helptext" →
          entry_at (defaults c') s k = entry_at (defaults c) s k) ∧
  (∀ s, s ≠ sect → dict_get info' s = dict_get info s) ∧
  dict_get info' sect =
    if decide ("helptext" ∈ keys) then entry_at (defaults c) sect "helptext"
    else dict_get info sect.
Proof.
  intros Hrun.
  apply (for_each_ind _
    (λ done (st : FaceswapConfig * dict Entry),
       (∀ s k, option_Forall2 value_set (entry_at (defaults c) s k)
                                        (entry_at (defaults st.1) s k)) ∧
       (∀ s k, s ≠ sect ∨ k = "helptext" →
               entry_at (defaults st.1) s k = entry_at (defaults c) s k) ∧
       (∀ s, s ≠ sect → dict_get st.2 s = dict_get info s) ∧
       dict_get st.2 sect =
         if decide ("helptext" ∈ done) then entry_at (defaults c) sect "helptext"
         else dict_get info sect)) in Hrun; [exact Hrun| |].
  - simpl. split_and!; [|done..|].
    + intros s k. apply value_set_lookup_refl.
    + done.
  - intros done key [c1 i1] [c2 i2] (Hv & Hsame & Hinfo & Hhelp) _ Hstep. simpl in *.
    apply get_config_option_changes in Hstep as (Hv' & Hsame' & Hinfo' & Hhelp').
    split_and!.
    + intros s k. eapply value_set_lookup_trans; [apply Hv|apply Hv'].
    + intros s k Hsk. by rewrite Hsame', Hsame.
    + intros s Hs. by rewrite Hinfo', Hinfo.
    + rewrite Hhelp'. destruct (decide (key = "helptext")) as [->|Hne].
      * rewrite decide_True by (apply elem_of_app; right; by left).
        apply Hsame. by right.
      * rewrite Hhelp. destruct (decide ("helptext" ∈ done)) as [Hin|Hnin].
        -- rewrite decide_True; [done|]. apply elem_of_app. by left.
        -- rewrite decide_False; [done|].
           intros [?|?%list_elem_of_singleton]%elem_of_app; done.
Qed.

Lemma get_config_section_changes c info conf sect c' info' conf' :
  get_config_section config_dict (c, info, conf) sect = Some (c', info', conf') →
  (∀ s k, option_Forall2 value_set (entry_at (defaults c) s k)
                                   (entry_at (defaults c') s k)) ∧
  (∀ s k, s ≠ sect ∨ k = "helptext" →
          entry_at (defaults c') s k = entry_at (defaults c) s k) ∧
  (∀ s, s ≠ sect → dict_get info' s = dict_get info s) ∧
  dict_get info' sect =
    match entry_at (defaults c) sect "helptext" with
    | Some e => Some e
    | None => dict_get info sect
    end.
Proof.
  unfold get_config_section. rewrite split_head. simpl. intros Hrun.
  destruct (dict_get (defaults c) sect) as [options|] eqn:Hopts; [|done]. simpl in Hrun.
  rewrite dict_get_setdefault in Hrun. simpl in Hrun.
  destruct (for_each _ _ _) as [[c1 info1]|] eqn:Hloop; [|done]. simpl in Hrun.
  injection Hrun as <- <- _.
  apply get_config_options_changes in Hloop as (Hv & Hsame & Hinfo & Hhelp).
  simpl in *. split_and!; [done..|].
  rewrite Hhelp. unfold entry_at. rewrite Hopts. simpl.
  destruct (decide ("helptext" ∈ dict_keys options)) as [Hin|Hnin].
  - apply dict_get_is_Some in Hin as [e He]. by rewrite He.
  - apply dict_get_None in Hnin. by rewrite Hnin.
Qed.

Lemma get_config_changes d conf d' :
  get_config config_dict d = Some (conf, d') →
  (∀ s k, option_Forall2 value_set (entry_at (defaults (self_config d)) s k)
                                   (entry_at (defaults (self_config d')) s k)) ∧
  (∀ s k, s ∉ sections (config (self_config d)) ∨ k = "helptext" →
          entry_at (defaults (self_config d')) s k =
          entry_at (defaults (self_config d)) s k) ∧
  (∀ s, s ∉ sections (config (self_config d)) →
        dict_get (plugin_info d') s = dict_get (plugin_info d) s) ∧
  (∀ s, s ∈ sections (config (self_config d)) →
        dict_get (plugin_info d') s =
          match entry_at (defaults (self_config d)) s "helptext" with
          | Some e => Some e
          | None => dict_get (plugin_info d) s
          end).
Proof.
  unfold get_config.
  destruct (for_each _ _ _) as [[[c info] conf0]|] eqn:Hrun; [|done]. simpl.
  intros [= _ <-]. simpl.
  apply (for_each_ind _
    (λ done (st : FaceswapConfig * dict Entry * dict (dict optref)),
       (∀ s k, option_Forall2 value_set (entry_at (defaults (self_config d)) s k)
                                        (entry_at (defaults st.1.1) s k)) ∧
       (∀ s k, s ∉ done ∨ k = "helptext" →
               entry_at (defaults st.1.1) s k =
               entry_at (defaults (self_config d)) s k) ∧
       (∀ s, s ∉ done → dict_get st.1.2 s = dict_get (plugin_info d) s) ∧
       (∀ s, s ∈ done →
             dict_get st.1.2 s =
               match entry_at (defaults (self_config d)) s "helptext" with
               | Some e => Some e
               | None => dict_get (plugin_info d) s
               end))) in Hrun; [exact Hrun| |].
  - simpl. split_and!; [|done..|].
    + intros s k. apply value_set_lookup_refl.
    + by intros s ?%elem_of_nil.
  - intros done sect [[c1 i1] conf1] [[c2 i2] conf2] (Hv & Hsame & Hinfo & Hhelp) _ Hstep.
    simpl in *.
    apply get_config_section_changes in Hstep as (Hv' & Hsame' & Hinfo' & Hhelp').
    split_and!.
    + intros s k. eapply value_set_lookup_trans; [apply Hv|apply Hv'].
    + intros s k Hsk. rewrite Hsame', Hsame; [done| |].
      * destruct Hsk as [Hs|Hk]; [left|by right]. intros ?. apply Hs, elem_of_app. by left.
      * destruct Hsk as [Hs|Hk]; [left|by right]. intros ->. apply Hs, elem_of_app.
        right. by left.
    + intros s Hs. rewrite Hinfo', Hinfo; [done| |].
      * intros ?. apply Hs, elem_of_app. by left.
      * intros ->. apply Hs, elem_of_app. right. by left.
    + intros s Hs. destruct (decide (s = sect)) as [->|Hne].
      * rewrite Hhelp'. rewrite Hsame by (by right).
        destruct (entry_at (defaults (self_config d)) sect "helptext") as [e|] eqn:He;
          [done|].
        destruct (decide (sect ∈ done)) as [Hin|Hnin].
        -- by rewrite Hhelp, He.
        -- by apply Hinfo.
      * rewrite Hinfo' by done. apply Hhelp.
        apply elem_of_app in Hs as [?|?%list_elem_of_singleton]; done.
Qed.

(** Load leaves the collaborator's current section at the last section it
    read. *)
Lemma get_config_last_section d conf d' :
  get_config config_dict d = Some (conf, d') →
  section (self_config d') =
  default (section (self_config d)) (last (sections (config (self_config d)))).
Proof.
  unfold get_config.
  destruct (for_each _ _ _) as [[[c info] conf0]|] eqn:Hrun; [|done]. simpl.
  intros [= _ <-]. simpl.
  apply (for_each_ind _
    (λ done (st : FaceswapConfig * dict Entry * dict (dict optref)),
       section st.1.1 = default (section (self_config d)) (last done)))
    in Hrun; [done|done|].
  intros done sect [[c1 i1] conf1] [[c2 i2] conf2] _ _ Hstep. simpl in *.
  rewrite last_snoc. simpl.
  unfold get_config_section in Hstep. rewrite split_head in Hstep. simpl in Hstep.
  destruct (dict_get (defaults c1) sect) as [options|]; [|done]. simpl in Hstep.
  rewrite dict_get_setdefault in Hstep. simpl in Hstep.
  destruct (for_each (get_config_option config_dict sect) _ _) as [[c3 info3]|] eqn:Hloop;
    [|done].
  simpl in Hstep. injection Hstep as <- _ _.
  by eapply (get_config_options_spec _ (λ _ _, False)) in Hloop as (_ & Hs & _);
    [|done|by intros ? ? []].
Qed.

(** X3. Load writes the "value" of options, the help texts of
    [plugin_info] and the collaborator's current section, and nothing else:
    the current section is left at the last section of the parser (as it was
    when the parser has none); the parser, the file, the popup's own
    grouping, tabs, variables and window are as before; the defaults keep
    their keys in order; every binding is as before or is an option whose
    "value" has been set; and the bindings of sections the parser does not
    have, and every "helptext", are untouched. *)
Theorem load_sets_only_values d conf d' :
  get_config config_dict d = Some (conf, d') →
  section (self_config d') =
    default (section (self_config d)) (last (sections (config (self_config d)))) ∧
  config (self_config d') = config (self_config d) ∧
  configfile (self_config d') = configfile (self_config d) ∧
  config_dict_gui d' = config_dict_gui d ∧ container d' = container d ∧
  tk_vars d' = tk_vars d ∧ tk_varnum d' = tk_varnum d ∧
  winfo_exists d' = winfo_exists d ∧
  dict_keys (defaults (self_config d')) = dict_keys (defaults (self_config d)) ∧
  (∀ s k, option_Forall2 value_set (entry_at (defaults (self_config d)) s k)
                                   (entry_at (defaults (self_config d')) s k)) ∧
  (∀ s k, s ∉ sections (config (self_config d)) ∨ k = "helptext" →
          entry_at (defaults (self_config d')) s k =
          entry_at (defaults (self_config d)) s k).
Proof.
  intros Hload.
  destruct (get_config_spec _ _ _ _ Hload) as (? & ? & ? & ? & ? & ? & ? & Hsch & _).
  destruct (get_config_changes _ _ _ Hload) as (Hv & Hsame & _).
  split; [exact (get_config_last_section _ _ _ Hload)|].
  split_and!; try done. symmetry. by eapply dict_rel_keys.
Qed.

(** X4. After Load, [plugin_info] binds every section of the parser that has
    a "helptext" to that help text, and binds any other name as it did
    before. *)
Theorem load_records_help_texts d conf d' :
  get_config config_dict d = Some (conf, d') →
  (∀ s e, s ∈ sections (config (self_config d)) →
          entry_at (defaults (self_config d)) s "helptext" = Some e →
          dict_get (plugin_info d') s = Some e) ∧
  (∀ s, s ∉ sections (config (self_config d)) ∨
        entry_at (defaults (self_config d)) s "helptext" = None →
        dict_get (plugin_info d') s = dict_get (plugin_info d) s).
Proof.
  intros Hload. destruct (get_config_changes _ _ _ Hload) as (_ & _ & Hinfo & Hhelp).
  split.
  - intros s e Hs He. by rewrite Hhelp, He.
  - intros s Hs. destruct (decide (s ∈ sections (config (self_config d)))) as [Hin|Hnin].
    + destruct Hs as [Hs|Hs]; [done|]. by rewrite Hhelp, Hs.
    + by apply Hinfo.
Qed.
End load_changes.

Lemma load_sets_only_values_witness :
  get_config ref_config_dict ex_new = Some (ex_loaded.1, ex_loaded.2) ∧
  section (self_config ex_loaded.2) =
    default (section (self_config ex_new)) (last (sections (config (self_config ex_new)))) ∧
  config (self_config ex_loaded.2) = config (self_config ex_new) ∧
  configfile (self_config ex_loaded.2) = configfile (self_config ex_new) ∧
  config_dict_gui ex_loaded.2 = config_dict_gui ex_new ∧
  container ex_loaded.2 = container ex_new ∧
  tk_vars ex_loaded.2 = tk_vars ex_new ∧ tk_varnum ex_loaded.2 = tk_varnum ex_new ∧
  winfo_exists ex_loaded.2 = winfo_exists ex_new ∧
  dict_keys (defaults (self_config ex_loaded.2)) = dict_keys (defaults (self_config ex_new)) ∧
  (∀ s k, option_Forall2 value_set (entry_at (defaults (self_config ex_new)) s k)
                                   (entry_at (defaults (self_config ex_loaded.2)) s k)) ∧
  (∀ s k, s ∉ sections (config (self_config ex_new)) ∨ k = "helptext" →
          entry_at (defaults (self_config ex_loaded.2)) s k =
          entry_at (defaults (self_config ex_new)) s k).
Proof.
  assert (Hload : get_config ref_config_dict ex_new = Some (ex_loaded.1, ex_loaded.2))
    by (vm_compute; reflexivity).
  split; [exact Hload|].
  exact (load_sets_only_values ref_config_dict ex_new ex_loaded.1 ex_loaded.2 Hload).
Defined.

Lemma load_records_help_texts_witness :
  get_config ref_config_dict ex_new = Some (ex_loaded.1, ex_loaded.2) ∧
  (∀ s e, s ∈ sections (config (self_config ex_new)) →
          entry_at (defaults (self_config ex_new)) s "helptext" = Some e →
          dict_get (plugin_info ex_loaded.2) s = Some e) ∧
  (∀ s, s ∉ sections (config (self_config ex_new)) ∨
        entry_at (defaults (self_config ex_new)) s "helptext" = None →
        dict_get (plugin_info ex_loaded.2) s = dict_get (plugin_info ex_new) s).
Proof.
  assert (Hload : get_config ref_config_dict ex_new = Some (ex_loaded.1, ex_loaded.2))
    by (vm_compute; reflexivity).
  split; [exact Hload|].
  exact (load_records_help_texts ref_config_dict ex_new ex_loaded.1 ex_loaded.2 Hload).
Defined.

(** ** Reset: what it writes, and when it faults *)

Section reset_effects.
Context {V : Type}.
Implicit Types (d : @ConfigurePlugins V) (D : dict (dict (@Entry V)))
  (m : gmap nat V) (o : @Option V) (e : @Entry V).

Lemma write_all_lookup_notin m (ws : list (nat * V)) (x : nat) :
  x ∉ ws.*1 → write_all m ws !! x = m !! x.
Proof.
  unfold write_all. induction ws as [|[y u] ws IH] using rev_ind; [done|].
  rewrite fmap_app, foldl_app. simpl. intros Hnin.
  rewrite lookup_insert_ne.
  - apply IH. intros ?. apply Hnin, elem_of_app. by left.
  - intros ->. apply Hnin, elem_of_app. right. left.
Qed.

Lemma write_all_lookup_in m m' (ws : list (nat * V)) (x : nat) :
  x ∈ ws.*1 → write_all m ws !! x = write_all m' ws !! x.
Proof.
  unfold write_all. induction ws as [|[y u] ws IH] using rev_ind;
    [by intros ?%elem_of_nil|].
  rewrite fmap_app, !foldl_app. simpl. intros Hin.
  destruct (decide (y = x)) as [->|Hne].
  - by rewrite !lookup_insert_eq.
  - rewrite !lookup_insert_ne by done. apply IH.
    apply elem_of_app in Hin as [?|?%list_elem_of_singleton]; done.
Qed.

Lemma write_all_idem m (ws : list (nat * V)) :
  write_all (write_all m ws) ws = write_all m ws.
Proof.
  apply map_eq. intros x. destruct (decide (x ∈ ws.*1)) as [Hin|Hnin].
  - by apply write_all_lookup_in.
  - by apply write_all_lookup_notin.
Qed.

(** X5. Reset is idempotent: on a popup that has been loaded and rendered, a
    second Reset returns and changes nothing. *)
Theorem reset_idempotent d :
  rendered d → ∃ d1, reset d = Some d1 ∧ reset d1 = Some d1.
Proof.
  intros Hr. eexists. split; [by apply reset_run|].
  unfold reset. simpl. rewrite reset_sections_run; [|done..].
  by rewrite write_all_idem.
Qed.

Lemma reset_item_effect lookup d kv d' :
  reset_item lookup d kv = Some d' →
  d' = d ∨
  ∃ s o x v, kv.1 ≠ "helptext" ∧
    entry_at (defaults (self_config d)) s kv.1 = Some (EOption o) ∧
    opt_selected o = Some x ∧ d' = set_tk_vars d (<[x := v]> (tk_vars d)).
Proof.
  destruct kv as [item def_opt]. unfold reset_item. intros Hitem.
  destruct (decide (item = "helptext")); [left; congruence|].
  destruct def_opt as [t|o]; [done|].
  destruct (opt_default o) as [dflt|]; [|done]. simpl in Hitem.
  destruct (dict_get (config_dict_gui d) lookup.1) as [by_section|]; [|done].
  simpl in Hitem. destruct (dict_get by_section lookup.2) as [[s]|]; [|done].
  simpl in Hitem. unfold deref in Hitem.
  destruct (dict_get (defaults (self_config d)) s) as [options|] eqn:Hopts; [|done].
  simpl in Hitem. destruct (dict_get options item) as [[t|o']|] eqn:He; [done| |done].
  simpl in Hitem. destruct (opt_selected o') as [tk_var|] eqn:Hx; [|done].
  simpl in Hitem. injection Hitem as <-. right. exists s, o', tk_var, dflt.
  split_and!; [done| |done..]. unfold entry_at. by rewrite Hopts.
Qed.

Lemma reset_item_writes lookup d d1 kv d2 (x : nat) :
  (∀ s k o, entry_at (defaults (self_config d)) s k = Some (EOption o) →
            k ≠ "helptext" → opt_selected o ≠ Some x) →
  d1 = set_tk_vars d (tk_vars d1) ∧ tk_vars d1 !! x = tk_vars d !! x →
  reset_item lookup d1 kv = Some d2 →
  d2 = set_tk_vars d (tk_vars d2) ∧ tk_vars d2 !! x = tk_vars d !! x.
Proof.
  intros Hx [H1 Hv] [->|(s & o & y & v & Hk & Hat & Hy & ->)]%reset_item_effect; [done|].
  simpl. split; [by rewrite H1|]. rewrite H1 in Hat. simpl in Hat.
  rewrite lookup_insert_ne; [done|]. intros ->. by eapply Hx.
Qed.

Lemma reset_section_writes d d1 si d2 (x : nat) :
  (∀ s k o, entry_at (defaults (self_config d)) s k = Some (EOption o) →
            k ≠ "helptext" → opt_selected o ≠ Some x) →
  d1 = set_tk_vars d (tk_vars d1) ∧ tk_vars d1 !! x = tk_vars d !! x →
  reset_section d1 si = Some d2 →
  d2 = set_tk_vars d (tk_vars d2) ∧ tk_vars d2 !! x = tk_vars d !! x.
Proof.
  intros Hx H1 Hstep. destruct si as [sect items]. unfold reset_section in Hstep.
  destruct (reset_lookup sect) as [lookup|]; [|done]. simpl in Hstep.
  apply (for_each_ind _
           (λ _ d3, d3 = set_tk_vars d (tk_vars d3) ∧ tk_vars d3 !! x = tk_vars d !! x))
    in Hstep; [done|done|].
  intros _ kv d3 d4 H3 _ Hitem. by eapply reset_item_writes.
Qed.

(** X6. Reset writes the variables of options and nothing else: the popup's
    configuration, help texts, grouping, tabs, variable counter and window
    are as before, and so is every variable that is not the "selected" of an
    option of the defaults. *)
Theorem reset_writes_option_variables_only d d' :
  reset d = Some d' →
  self_config d' = self_config d ∧ plugin_info d' = plugin_info d ∧
  config_dict_gui d' = config_dict_gui d ∧ container d' = container d ∧
  tk_varnum d' = tk_varnum d ∧ winfo_exists d' = winfo_exists d ∧
  ∀ x, (∀ s k o, entry_at (defaults (self_config d)) s k = Some (EOption o) →
                 k ≠ "helptext" → opt_selected o ≠ Some x) →
       tk_vars d' !! x = tk_vars d !! x.
Proof.
  intros Hrun. pose proof (reset_frame _ _ Hrun) as Hframe.
  split_and!; try (by rewrite Hframe).
  intros x Hx. unfold reset in Hrun.
  apply (for_each_ind _
           (λ _ d1, d1 = set_tk_vars d (tk_vars d1) ∧ tk_vars d1 !! x = tk_vars d !! x))
    in Hrun; [by destruct Hrun|by rewrite set_tk_vars_id|].
  intros _ si d1 d2 H1 _ Hstep. by eapply reset_section_writes.
Qed.

Lemma reset_ungrouped d sect item :
  is_Some (entry_at (defaults (self_config d)) sect item) → item ≠ "helptext" →
  (dict_get (config_dict_gui d) (prefix_before "." sect)
     ≫= λ by_section, dict_get by_section sect) = None →
  reset d = None.
Proof.
  intros [e Hat] Hitem Hgui. unfold entry_at in Hat.
  destruct (dict_get (defaults (self_config d)) sect) as [items|] eqn:Hitems; [|done].
  simpl in Hat. apply dict_get_Some_elem in Hitems, Hat.
  unfold reset.
  apply (for_each_fault _ (λ d1, config_dict_gui d1 = config_dict_gui d) _ (sect, items));
    [done|done|..].
  - intros [s its] d1 d2 H1 Hstep. unfold reset_section in Hstep.
    destruct (reset_lookup s) as [lookup|]; [|done]. simpl in Hstep.
    apply (for_each_ind _ (λ _ d3, config_dict_gui d3 = config_dict_gui d)) in Hstep;
      [done|done|].
    intros _ kv d3 d4 H3 _ [->|(? & ? & ? & ? & _ & _ & _ & ->)]%reset_item_effect; done.
  - intros d1 H1. unfold reset_section. rewrite reset_lookup_spec. simpl.
    apply (for_each_fault _ (λ d3, config_dict_gui d3 = config_dict_gui d) _ (item, e));
      [done|done|..].
    + intros kv d3 d4 H3 [->|(? & ? & ? & ? & _ & _ & _ & ->)]%reset_item_effect; done.
    + intros d3 H3. unfold reset_item. rewrite decide_False by done.
      destruct e as [t|o]; [done|]. destruct (opt_default o); [|done]. simpl.
      rewrite H3. destruct (dict_get (config_dict_gui d) _) as [by_section|]; [|done].
      simpl in *. by rewrite Hgui.
Qed.

(** X7. Reset faults (KeyError) when the defaults have an option, in any
    section, that is not in the popup's grouping under the section's
    category: the lookup [config_dict_gui[category][section]] fails. *)
Theorem reset_faults_on_ungrouped_section d sect item :
  is_Some (entry_at (defaults (self_config d)) sect item) → item ≠ "helptext" →
  (dict_get (config_dict_gui d) (prefix_before "." sect)
     ≫= λ by_section, dict_get by_section sect) = None →
  reset d = None.
Proof. apply reset_ungrouped. Qed.
End reset_effects.

Lemma reset_idempotent_witness :
  rendered ex_popup ∧ ∃ d1, reset ex_popup = Some d1 ∧ reset d1 = Some d1.
Proof.
  split; [exact ex_popup_rendered|].
  exact (reset_idempotent ex_popup ex_popup_rendered).
Defined.

Lemma reset_writes_option_variables_only_witness :
  reset ex_popup = Some ex_reset ∧
  self_config ex_reset = self_config ex_popup ∧
  plugin_info ex_reset = plugin_info ex_popup ∧
  config_dict_gui ex_reset = config_dict_gui ex_popup ∧
  container ex_reset = container ex_popup ∧
  tk_varnum ex_reset = tk_varnum ex_popup ∧
  winfo_exists ex_reset = winfo_exists ex_popup ∧
  ∀ x, (∀ s k o, entry_at (defaults (self_config ex_popup)) s k = Some (EOption o) →
                 k ≠ "helptext" → opt_selected o ≠ Some x) →
       tk_vars ex_reset !! x = tk_vars ex_popup !! x.
Proof.
  assert (Hrun : reset ex_popup = Some ex_reset) by (vm_compute; reflexivity).
  split; [exact Hrun|].
  exact (reset_writes_option_variables_only ex_popup ex_reset Hrun).
Defined.

Lemma partial_popup_init :
  ConfigurePlugins_init ref_config_dict ("train", partial_config) 0 = Some partial_popup.
Proof. vm_compute. reflexivity. Qed.

Lemma reset_faults_on_ungrouped_section_witness :
  (is_Some (entry_at (defaults (self_config partial_popup)) "model.original" "lowmem") ∧
   "lowmem" ≠ "helptext" ∧
   (dict_get (config_dict_gui partial_popup) (prefix_before "." "model.original")
      ≫= λ by_section, dict_get by_section "model.original") = None) ∧
  reset partial_popup = None.
Proof.
  assert (H1 : is_Some (entry_at (defaults (self_config partial_popup))
                          "model.original" "lowmem"))
    by (eexists; vm_compute; reflexivity).
  assert (H2 : "lowmem" ≠ "helptext") by discriminate.
  assert (H3 : (dict_get (config_dict_gui partial_popup)
                  (prefix_before "." "model.original")
                  ≫= λ by_section, dict_get by_section "model.original") = None)
    by (vm_compute; reflexivity).
  split; [by split_and!|].
  exact (reset_faults_on_ungrouped_section partial_popup "model.original" "lowmem"
           H1 H2 H3).
Defined.

(** ** Save: when it faults *)

Section save_faults.
Context {V : Type} (str : V → string).
Context (config_dict : ConfigParser → string → option (dict V)).
Context (format_help : string → bool → string).
Context (insert_config_section : string → @Entry V → ConfigParser → option ConfigParser).
Context (write_config : ConfigParser → string).
Context (valid_interpolation : string → bool).
Implicit Types (d : @ConfigurePlugins V) (cfg : string * @FaceswapConfig V).

Lemma save_undescribed d sect :
  is_Some (dict_get (defaults (self_config d)) sect) →
  (entry_at (defaults (self_config d)) sect "helptext" = None ∨
   (dict_get (flatten (config_dict_gui d)) sect = None ∧
    ∃ item, item ≠ "helptext" ∧
            is_Some (entry_at (defaults (self_config d)) sect item))) →
  save_config str format_help insert_config_section write_config valid_interpolation d
  = None.
Proof.
  intros [items Hitems] Hbad. unfold save_config, entry_at in *.
  rewrite Hitems in Hbad. simpl in Hbad. apply dict_get_Some_elem in Hitems.
  rewrite (for_each_fault _ (λ _, True) _ (sect, items)); [done|done|done|done|].
  intros p _. unfold save_config_section.
  destruct Hbad as [Hhelp|(Hflat & item & Hitem & [e He])]; [by rewrite Hhelp|].
  destruct (dict_get items "helptext") as [helptext|]; [|done]. simpl.
  destruct (insert_config_section sect helptext p) as [p1|]; [|done]. simpl.
  apply dict_get_Some_elem in He.
  apply (for_each_fault _ (λ _, True) _ (item, e)); [done|done|done|].
  intros p2 _. unfold save_config_item. rewrite decide_False by done.
  by rewrite Hflat.
Qed.

(** X8. Save faults (KeyError) when a section of the defaults has no
    "helptext", or has an option while the flattened grouping does not bind
    the section: the lookups [items["helptext"]] and [options[section]]
    fail. *)
Theorem save_faults_on_undescribed_section d sect :
  is_Some (dict_get (defaults (self_config d)) sect) →
  (entry_at (defaults (self_config d)) sect "helptext" = None ∨
   (dict_get (flatten (config_dict_gui d)) sect = None ∧
    ∃ item, item ≠ "helptext" ∧
            is_Some (entry_at (defaults (self_config d)) sect item))) →
  save_config str format_help insert_config_section write_config valid_interpolation d
  = None.
Proof. apply save_undescribed. Qed.

(** X9. A popup built for a configuration whose defaults describe an option
    of a section that the parser does not have cannot be reset or saved:
    Load did not group the section, so both buttons fault. *)
Theorem unloaded_section_breaks_reset_and_save cfg varnum d sect item :
  ConfigurePlugins_init config_dict cfg varnum = Some d →
  sect ∉ sections (config cfg.2) →
  is_Some (entry_at (defaults (self_config d)) sect item) → item ≠ "helptext" →
  press str format_help insert_config_section write_config valid_interpolation Reset d
  = None ∧
  press str format_help insert_config_section write_config valid_interpolation OK d
  = None.
Proof.
  intros Hinit Hsect Hat Hitem.
  destruct (init_frame _ _ _ _ Hinit) as (Hpart & _). simpl. split.
  - eapply reset_ungrouped; [done..|].
    destruct (dict_get (config_dict_gui d) _) as [by_section|] eqn:Hcat; [|done].
    simpl. apply dict_get_None. intros ([s r] & -> & Hin)%list_elem_of_fmap.
    destruct Hpart as (_ & Hall & _). apply dict_get_Some_elem in Hcat.
    eapply Forall_forall in Hall; [|exact Hcat]. destruct Hall as [_ Hall].
    eapply Forall_forall in Hall; [|exact Hin]. by destruct Hall as (? & _).
  - eapply save_undescribed; [|right; split; [|by eauto]].
    + unfold entry_at in Hat. destruct Hat as [e Hat].
      destruct (dict_get (defaults (self_config d)) sect); [eauto|done].
    + destruct (partitioned_flatten _ _ Hpart) as [_ Hget]. rewrite Hget.
      by rewrite decide_False.
Qed.
End save_faults.

Lemma save_faults_on_undescribed_section_witness :
  (is_Some (dict_get (defaults (self_config partial_popup)) "model.original") ∧
   (entry_at (defaults (self_config partial_popup)) "model.original" "helptext" = None ∨
    (dict_get (flatten (config_dict_gui partial_popup)) "model.original" = None ∧
     ∃ item, item ≠ "helptext" ∧
             is_Some (entry_at (defaults (self_config partial_popup))
                        "model.original" item)))) ∧
  save_config id ref_format_help ref_insert_config_section ref_write_config
    ref_valid_interpolation partial_popup = None.
Proof.
  assert (H1 : is_Some (dict_get (defaults (self_config partial_popup)) "model.original"))
    by (eexists; vm_compute; reflexivity).
  assert (H2 : entry_at (defaults (self_config partial_popup)) "model.original" "helptext"
               = None ∨
               (dict_get (flatten (config_dict_gui partial_popup)) "model.original" = None ∧
                ∃ item, item ≠ "helptext" ∧
                        is_Some (entry_at (defaults (self_config partial_popup))
                                   "model.original" item))).
  { right. split; [vm_compute; reflexivity|]. exists "lowmem".
    split; [discriminate|]. eexists. vm_compute. reflexivity. }
  split; [by split|].
  exact (save_faults_on_undescribed_section id ref_format_help ref_insert_config_section
           ref_write_config ref_valid_interpolation partial_popup "model.original" H1 H2).
Defined.

Lemma unloaded_section_breaks_reset_and_save_witness :
  (ConfigurePlugins_init ref_config_dict ("train", partial_config) 0 = Some partial_popup ∧
   ("model.dfl_h128" ∉ sections (config ("train", partial_config).2)) ∧
   is_Some (entry_at (defaults (self_config partial_popup)) "model.dfl_h128" "size") ∧
   "size" ≠ "helptext") ∧
  press id ref_format_help ref_insert_config_section ref_write_config
    ref_valid_interpolation Reset partial_popup = None ∧
  press id ref_format_help ref_insert_config_section ref_write_config
    ref_valid_interpolation OK partial_popup = None.
Proof.
  assert (H1 : "model.dfl_h128" ∉ sections (config ("train", partial_config).2))
    by by_evaluation.
  assert (H2 : is_Some (entry_at (defaults (self_config partial_popup))
                          "model.dfl_h128" "size"))
    by (eexists; vm_compute; reflexivity).
  assert (H3 : "size" ≠ "helptext") by discriminate.
  split; [split_and!; [exact partial_popup_init|done..]|].
  exact (unloaded_section_breaks_reset_and_save id ref_config_dict ref_format_help
           ref_insert_config_section ref_write_config ref_valid_interpolation
           ("train", partial_config) 0 partial_popup "model.dfl_h128" "size"
           partial_popup_init H1 H2 H3).
Defined.

(** ** The registry while popups close themselves *)

Section app_facts.
Context {V : Type} (str : V → string).
Context (config_dict : ConfigParser → string → option (dict V)).
Context (format_help : string → bool → string).
Context (insert_config_section : string → @Entry V → ConfigParser → option ConfigParser).
Context (write_config : ConfigParser → string).
Context (valid_interpolation : string → bool).
Implicit Types (d : @ConfigurePlugins V) (w : @World V) (cfg : string * @FaceswapConfig V).

Local Abbreviation do_act :=
  (act str format_help insert_config_section write_config valid_interpolation).
Local Abbreviation step :=
  (app_step str config_dict format_help insert_config_section write_config
     valid_interpolation).

(** No action brings a destroyed window back. *)
Lemma act_exists d (a : @user_action V) d' :
  do_act d a = Some d' → winfo_exists d' = true → winfo_exists d = true.
Proof.
  destruct a as [x v|[| |]]; simpl.
  - by intros [= <-].
  - by intros [= <-].
  - unfold save_config. destruct (for_each _ _ _); [|done]. simpl. by intros [= <-].
  - intros ->%reset_frame. done.
Qed.

Lemma close_registered w :
  numbered w → registry_covers_shown w →
  ∃ w1, close_open_popup w = Some w1 ∧ numbered w1 ∧ none_open w1 ∧
        next_window w1 = next_window w ∧ tk_count w1 = tk_count w.
Proof.
  intros Hnum (Hlen & Hreg & Hshown). unfold close_open_popup.
  destruct (POPUP w) as [|[name obj] rest] eqn:Hpop.
  - exists w. split_and!; [done..| |done|done]. split; [done|].
    intros i d Hi. destruct (winfo_exists d) eqn:Hd; [|done].
    by destruct (Hshown i d Hi Hd) as [? ?].
  - destruct rest as [|? ?]; [|simpl in Hlen; lia]. simpl.
    destruct (decide (name = name)) as [_|?]; [|done]. simpl.
    destruct (Hreg name obj) as [d Hd]; [simpl; by rewrite decide_True|].
    rewrite Hd. simpl. eexists. split; [done|]. split_and!; simpl; [| |done..].
    + intros i [d' Hi]. simpl in *. apply Hnum.
      destruct (decide (i = obj)) as [->|Hne]; [eauto|].
      rewrite lookup_insert_ne in Hi by done. eauto.
    + split; [done|]. simpl. intros i d' Hi.
      destruct (decide (i = obj)) as [->|Hne].
      * rewrite lookup_insert_eq in Hi. by injection Hi as <-.
      * rewrite lookup_insert_ne in Hi by done.
        destruct (winfo_exists d') eqn:Hd'; [|done].
        destruct (Hshown i d' Hi Hd') as [name' [= _ ->]]. done.
Qed.

Lemma one_open_covers w (name : string) (obj : nat) :
  one_open w name obj → registry_covers_shown w.
Proof.
  intros (Hpop & (d & Hd & _) & Huniq). split_and!.
  - rewrite Hpop. simpl. lia.
  - intros name' obj'. rewrite Hpop. simpl. destruct (decide (name = name')); [|done].
    intros [= <-]. eauto.
  - intros i d' Hi Hlive. exists name. by rewrite (Huniq i d' Hi Hlive).
Qed.

Lemma open_registered w cfg :
  numbered w → registry_covers_shown w →
  (is_Some (ConfigurePlugins_init config_dict cfg (tk_count w)) →
   is_Some (popup_config config_dict w cfg)) ∧
  ∀ w', popup_config config_dict w cfg = Some w' →
        numbered w' ∧ one_open w' cfg.1 (next_window w).
Proof.
  intros Hnum Hcov. unfold popup_config.
  destruct (close_registered w Hnum Hcov)
    as (w1 & -> & Hnum1 & [Hpop1 Hclosed1] & Hnext & Hcount).
  simpl. rewrite Hcount. split.
  - intros [window ->]. simpl. eauto.
  - intros w'.
    destruct (ConfigurePlugins_init _ _ _) as [window|] eqn:Hinit; [|done]. simpl.
    intros [= <-]. apply init_exists in Hinit.
    rewrite <- Hnext. split.
    + intros i [d Hi]. simpl in *.
      destruct (decide (i = next_window w1)) as [->|Hne]; [lia|].
      rewrite lookup_insert_ne in Hi by done.
      assert (i < next_window w1) by (apply Hnum1; eauto). lia.
    + unfold one_open. simpl. rewrite Hpop1. split_and!; [done| |].
      * exists window. by rewrite lookup_insert_eq.
      * intros i d Hi Hlive. destruct (decide (i = next_window w1)) as [|Hne]; [done|].
        rewrite lookup_insert_ne in Hi by done.
        rewrite (Hclosed1 _ _ Hi) in Hlive. done.
Qed.

Lemma app_step_registered w (ev : @app_event V) w' :
  numbered w → registry_covers_shown w → step w ev = Some w' →
  numbered w' ∧ registry_covers_shown w'.
Proof.
  intros Hnum Hcov. destruct ev as [cfg|obj a]; simpl.
  - intros Hopen. destruct (open_registered w cfg Hnum Hcov) as [_ Hspec].
    destruct (Hspec w' Hopen) as [Hnum' Hone]. split; [done|].
    by eapply one_open_covers.
  - destruct (windows w !! obj) as [d|] eqn:Hd; [|done]. simpl.
    destruct (do_act d a) as [d'|] eqn:Hact; [|done]. simpl. intros [= <-].
    destruct Hcov as (Hlen & Hreg & Hshown). split; [|split_and!]; simpl.
    + intros i [d1 Hi]. simpl in *. apply Hnum.
      destruct (decide (i = obj)) as [->|Hne]; [eauto|].
      rewrite lookup_insert_ne in Hi by done. eauto.
    + done.
    + intros name obj' Hget. destruct (decide (obj' = obj)) as [->|Hne].
      * rewrite lookup_insert_eq. eauto.
      * rewrite lookup_insert_ne by done. by eapply Hreg.
    + intros i d1 Hi Hlive. destruct (decide (i = obj)) as [->|Hne].
      * rewrite lookup_insert_eq in Hi. injection Hi as <-.
        apply (Hshown obj d); [done|]. by eapply act_exists.
      * rewrite lookup_insert_ne in Hi by done. by apply (Hshown i d1).
Qed.

Lemma app_run_registered (events : list (@app_event V)) w :
  for_each step events initial_world = Some w →
  numbered w ∧ registry_covers_shown w.
Proof.
  intros Hrun.
  apply (for_each_ind _ (λ _ w1, numbered w1 ∧ registry_covers_shown w1)) in Hrun;
    [done| |].
  - split; [by intros i [d ?]|]. split_and!; [simpl; lia|done|done].
  - intros _ ev w1 w2 [Hnum Hcov] _ Hstep. by eapply app_step_registered.
Qed.

(** X10. The single-popup invariant holds when popups close themselves: after
    any run of Open calls and of edits and button presses in popups, where
    Cancel and OK destroy the window without telling the registry, at most
    one popup is shown, it is the one object the registry binds, and a
    further Open returns whenever the constructor of the new popup does (the
    stale entry of a closed popup is destroyed again and removed). *)
Theorem registry_survives_self_closing_popups (events : list (@app_event V)) w :
  for_each step events initial_world = Some w →
  List.length (POPUP w) ≤ 1 ∧
  (∀ i d, windows w !! i = Some d → winfo_exists d = true →
          ∃ name, POPUP w = [(name, i)]) ∧
  (∀ i j d d', windows w !! i = Some d → windows w !! j = Some d' →
               winfo_exists d = true → winfo_exists d' = true → i = j) ∧
  ∀ cfg, (is_Some (ConfigurePlugins_init config_dict cfg (tk_count w)) →
          is_Some (popup_config config_dict w cfg)) ∧
         ∀ w', popup_config config_dict w cfg = Some w' →
               POPUP w' = [(cfg.1, next_window w)] ∧
               (∃ d, windows w' !! next_window w = Some d ∧ winfo_exists d = true) ∧
               ∀ i d, windows w' !! i = Some d → winfo_exists d = true →
                      i = next_window w.
Proof.
  intros Hrun. destruct (app_run_registered _ _ Hrun) as [Hnum Hcov].
  pose proof Hcov as (Hlen & _ & Hshown). split_and!; [done..| |].
  - intros i j d d' Hi Hj Hd Hd'.
    destruct (Hshown i d Hi Hd) as [name Hpop].
    destruct (Hshown j d' Hj Hd') as [name' Hpop'].
    rewrite Hpop in Hpop'. by injection Hpop'.
  - intros cfg. destruct (open_registered w cfg Hnum Hcov) as [Hret Hspec].
    split; [done|]. intros w' Hopen. by destruct (Hspec w' Hopen) as [_ ?].
Qed.
End app_facts.

Lemma registry_survives_self_closing_popups_witness :
  for_each ex_app_step ex_events initial_world = Some ex_world3 ∧
  List.length (POPUP ex_world3) ≤ 1 ∧
  (∀ i d, windows ex_world3 !! i = Some d → winfo_exists d = true →
          ∃ name, POPUP ex_world3 = [(name, i)]) ∧
  (∀ i j d d', windows ex_world3 !! i = Some d → windows ex_world3 !! j = Some d' →
               winfo_exists d = true → winfo_exists d' = true → i = j) ∧
  ∀ cfg, (is_Some (ConfigurePlugins_init ref_config_dict cfg (tk_count ex_world3)) →
          is_Some (popup_config ref_config_dict ex_world3 cfg)) ∧
         ∀ w', popup_config ref_config_dict ex_world3 cfg = Some w' →
               POPUP w' = [(cfg.1, next_window ex_world3)] ∧
               (∃ d, windows w' !! next_window ex_world3 = Some d ∧
                     winfo_exists d = true) ∧
               ∀ i d, windows w' !! i = Some d → winfo_exists d = true →
                      i = next_window ex_world3.
Proof.
  assert (Hrun : for_each ex_app_step ex_events initial_world = Some ex_world3)
    by (vm_compute; reflexivity).
  split; [exact Hrun|].
  exact (registry_survives_self_closing_popups id ref_config_dict ref_format_help
           ref_insert_config_section ref_write_config ref_valid_interpolation
           ex_events ex_world3 Hrun).
Defined.

Example app_example :
  POPUP ex_world3 = [("train", 1)] ∧
  winfo_exists <$> windows ex_world3 !! 0 = Some false ∧
  winfo_exists <$> windows ex_world3 !! 1 = Some true.
Proof. split_and!; vm_compute; reflexivity. Qed.

(** ** Render: the panels of the popup *)

Lemma keys_bind_join {A : Type} (conf : dict (dict A)) (g : string → option (dict A)) :
  (∀ c bs, (c, bs) ∈ conf → g c = Some bs) →
  dict_keys conf ≫= (λ c, dict_keys (default [] (g c))) =
  dict_keys (mjoin (dict_values conf)).
Proof.
  unfold dict_keys, dict_values. induction conf as [|[c bs] conf IH]; intros Hg; [done|].
  csimpl. rewrite (Hg c bs) by left. simpl. rewrite fmap_app. f_equal.
  apply IH. intros c' bs' Hin. apply Hg. by right.
Qed.

Section panel_facts.
Context {V : Type} (config_dict : ConfigParser → string → option (dict V)).
Implicit Types (d : @ConfigurePlugins V) (cfg : string * @FaceswapConfig V)
  (p : @panel V).

Lemma build_page_plugin_frame category tabs1 d1 plugin tabs2 d2 :
  build_page_plugin category (tabs1, d1) plugin = Some (tabs2, d2) →
  render_frame d1 d2.
Proof.
  unfold build_page_plugin.
  destruct (dict_get (config_dict_gui d1) category) as [by_section|]; [|done]. simpl.
  destruct (dict_get by_section plugin) as [r|]; [|done]. simpl.
  destruct (dict_get (plugin_info d1) plugin) as [info|]; [|done]. simpl.
  destruct (ControlPanel r info d1) as [[frame d3]|] eqn:Hcp; [|done]. simpl.
  intros [= _ <-]. by apply ControlPanel_frame in Hcp as (? & _).
Qed.

Lemma build_page_plugins_panels (sects : list string) category by_section plugins d
    tabs d' :
  partitioned sects (config_dict_gui d) →
  dict_get (config_dict_gui d) category = Some by_section →
  for_each (build_page_plugin category) plugins ([], d) = Some (tabs, d') →
  panel_section <$> tabs.*2 = plugins ∧
  Forall (λ p, dict_get (plugin_info d) (panel_section p) = Some (panel_info p)) tabs.*2.
Proof.
  intros Hpart Hcat Hrun.
  apply (for_each_ind _
    (λ done (st : list (string * panel) * ConfigurePlugins),
       render_frame d st.2 ∧ panel_section <$> st.1.*2 = done ∧
       Forall (λ p, dict_get (plugin_info d) (panel_section p) = Some (panel_info p))
         st.1.*2)) in Hrun; [by destruct Hrun as (_ & ? & ?)| |].
  - simpl. split_and!; [apply render_frame_refl|done|constructor].
  - intros done plugin [tabs1 d1] [tabs2 d2] (Hf & Hdone & Hinfo) _ Hstep. simpl in *.
    pose proof (build_page_plugin_frame _ _ _ _ _ _ Hstep) as Hf2.
    unfold build_page_plugin in Hstep.
    destruct Hf as (Hgui & Hpi & Hrest). rewrite Hgui, Hcat, Hpi in Hstep.
    simpl in Hstep.
    destruct (dict_get by_section plugin) as [r|] eqn:Hr; [|done]. simpl in Hstep.
    destruct (dict_get (plugin_info d) plugin) as [info|] eqn:Hi; [|done].
    simpl in Hstep.
    destruct (ControlPanel r info d1) as [[frame d3]|] eqn:Hcp; [|done].
    simpl in Hstep. injection Hstep as <- <-.
    apply ControlPanel_frame in Hcp as (_ & _ & ->).
    destruct (partitioned_ref _ _ _ _ _ _ Hpart Hcat Hr) as [-> _].
    split_and!.
    + eapply render_frame_trans; [|exact Hf2]. by split.
    + rewrite !fmap_app, Hdone. done.
    + rewrite fmap_app. apply Forall_app. split; [done|]. by repeat constructor.
Qed.

Lemma build_page_panels (sects : list string) d category by_section pg d' :
  partitioned sects (config_dict_gui d) →
  dict_get (config_dict_gui d) category = Some by_section →
  build_page d category = Some (pg, d') →
  panel_section <$> page_panels pg ≡ₚ dict_keys by_section ∧
  Forall (λ p, dict_get (plugin_info d) (panel_section p) = Some (panel_info p))
    (page_panels pg).
Proof.
  intros Hpart Hcat. unfold build_page. rewrite Hcat. simpl.
  destruct (existsb _ _) eqn:Hex.
  - destruct (for_each _ _ _) as [[tabs d1]|] eqn:Hrun; [|done]. simpl.
    intros [= <- _]. simpl.
    eapply build_page_plugins_panels in Hrun as [Hsec Hinfo]; [|done..].
    split; [|done]. rewrite Hsec. apply merge_sort_Permutation.
  - destruct (sorted (dict_keys by_section) !! 0%nat) as [plugin|] eqn:Hp; [|done].
    simpl. destruct (dict_get by_section plugin) as [r|] eqn:Hr; [|done]. simpl.
    destruct (dict_get (plugin_info d) plugin) as [info|] eqn:Hi; [|done]. simpl.
    destruct (ControlPanel r info d) as [[frame d1]|] eqn:Hcp; [|done]. simpl.
    intros [= <- _]. apply ControlPanel_frame in Hcp as (_ & _ & ->).
    destruct (partitioned_ref _ _ _ _ _ _ Hpart Hcat Hr) as [-> Hnd]. simpl.
    split; [|by repeat constructor].
    assert (∀ y, y ∈ sorted (dict_keys by_section) → y = category) as Hall.
    { intros y Hy. destruct (decide (y = category)) as [|Hne]; [done|].
      assert (existsb (λ plugin, bool_decide (plugin ≠ category))
                (sorted (dict_keys by_section)) = true) as Htrue
        by (apply existsb_differs; eauto).
      congruence. }
    assert (plugin = category) as ->.
    { apply Hall. by eapply list_elem_of_lookup_2. }
    rewrite <- (merge_sort_Permutation String.le (dict_keys by_section)).
    fold (sorted (dict_keys by_section)).
    rewrite (all_equal_singleton (sorted (dict_keys by_section)) category); [done| |done|].
    + unfold sorted. by rewrite merge_sort_Permutation.
    + intros Hnil. by rewrite Hnil in Hp.
Qed.

Lemma build_panels (sects : list string) d d' :
  partitioned sects (config_dict_gui d) → container d = [] →
  build d = Some d' →
  panel_section <$> popup_panels d' ≡ₚ dict_keys (mjoin (dict_values (config_dict_gui d))) ∧
  Forall (λ p, dict_get (plugin_info d) (panel_section p) = Some (panel_info p))
    (popup_panels d').
Proof.
  intros Hpart Hempty. unfold build.
  destruct (category_order_spec (dict_keys (config_dict_gui d)))
    as (categories & -> & Hperm & _). simpl. intros Hrun.
  apply (for_each_ind _
    (λ done d1,
       render_frame d d1 ∧
       panel_section <$> popup_panels d1 ≡ₚ
         done ≫= (λ c, dict_keys (default [] (dict_get (config_dict_gui d) c))) ∧
       Forall (λ p, dict_get (plugin_info d) (panel_section p) = Some (panel_info p))
         (popup_panels d1))) in Hrun.
  - destruct Hrun as (_ & Hsec & Hinfo). split; [|done].
    rewrite Hsec, Hperm. rewrite keys_bind_join; [done|].
    intros c bs Hin. apply dict_elem_get; [apply Hpart|done].
  - unfold popup_panels. rewrite Hempty. split_and!; [apply render_frame_refl|done|].
    constructor.
  - intros done category d1 d2 (Hf & Hsec & Hinfo) _ Hstep.
    unfold build_category in Hstep.
    destruct (build_page d1 category) as [[pg d3]|] eqn:Hpage; [|done].
    simpl in Hstep. injection Hstep as <-.
    pose proof (build_page_frame _ _ _ _ Hpage) as [Hf3 Hc3].
    pose proof Hf as (Hgui & Hpi & _).
    assert (is_Some (dict_get (config_dict_gui d1) category)) as [by_section Hcat].
    { unfold build_page in Hpage. destruct (dict_get (config_dict_gui d1) category);
        [eauto|done]. }
    eapply (build_page_panels sects) in Hpage as [Hsec3 Hinfo3];
      [|by rewrite Hgui|done].
    rewrite Hgui in Hcat. rewrite Hpi in Hinfo3.
    assert (popup_panels (set_container d3 (container d3 ++ [(title category, pg)])) =
            popup_panels d1 ++ page_panels pg) as Hpanels.
    { unfold popup_panels. simpl. rewrite Hc3, fmap_app, bind_app. simpl.
      by rewrite app_nil_r. }
    rewrite Hpanels. split_and!.
    + eapply render_frame_trans; [exact Hf|]. destruct Hf3 as (? & ? & ? & ? & ? & ?).
      by split_and!.
    + rewrite fmap_app, bind_app, Hsec, Hsec3. simpl. rewrite Hcat. simpl.
      by rewrite app_nil_r.
    + apply Forall_app. done.
Qed.

(** X11. Render shows every section once: the panels of a constructed popup,
    over all category pages and nested notebooks, are built on the options of
    the sections of the parser, one panel per section, and each panel carries
    the "helptext" of its section as its information text. *)
Theorem render_shows_every_section_once cfg varnum d :
  ConfigurePlugins_init config_dict cfg varnum = Some d →
  NoDup (panel_section <$> popup_panels d) ∧
  (∀ s, s ∈ panel_section <$> popup_panels d ↔ s ∈ sections (config cfg.2)) ∧
  ∀ p, p ∈ popup_panels d →
       panel_options p = DefaultsOf (panel_section p) ∧
       entry_at (defaults cfg.2) (panel_section p) "helptext" = Some (panel_info p).
Proof.
  unfold ConfigurePlugins_init. intros Hinit.
  destruct (get_config _ _) as [[conf d1]|] eqn:Hload; [|done]. simpl in Hinit.
  pose proof (get_config_partitioned _ _ _ _ Hload) as Hpart.
  destruct (get_config_spec _ _ _ _ Hload) as (_ & _ & _ & Hcont & _).
  destruct (get_config_changes _ _ _ _ Hload) as (_ & _ & _ & Hhelp).
  simpl in *.
  eapply (build_panels (sections (config cfg.2))) in Hinit as [Hsec Hinfo];
    [|done|done]. simpl in *.
  assert (∀ s, s ∈ panel_section <$> popup_panels d ↔ s ∈ sections (config cfg.2))
    as Hmem.
  { intros s. rewrite Hsec. split.
    - intros ([s' r] & -> & Hin)%list_elem_of_fmap.
      by apply (partitioned_elem _ _ _ _ Hpart) in Hin as [? _].
    - intros Hs. apply list_elem_of_fmap. exists (s, DefaultsOf s). split; [done|].
      by apply (partitioned_elem _ _ _ _ Hpart). }
  split_and!; [|done|].
  - rewrite Hsec. by eapply partitioned_NoDup.
  - intros p Hp. split; [unfold panel_section; by destruct (panel_options p)|].
    eapply Forall_forall in Hinfo; [|exact Hp].
    assert (panel_section p ∈ sections (config cfg.2)) as Hs.
    { apply Hmem. apply list_elem_of_fmap. eauto. }
    rewrite (Hhelp _ Hs) in Hinfo.
    destruct (entry_at (defaults cfg.2) (panel_section p) "helptext"); done.
Qed.
End panel_facts.

Lemma render_shows_every_section_once_witness :
  ConfigurePlugins_init ref_config_dict ("train", ex_config) 0 = Some ex_popup ∧
  NoDup (panel_section <$> popup_panels ex_popup) ∧
  (∀ s, s ∈ panel_section <$> popup_panels ex_popup ↔
        s ∈ sections (config ("train", ex_config).2)) ∧
  ∀ p, p ∈ popup_panels ex_popup →
       panel_options p = DefaultsOf (panel_section p) ∧
       entry_at (defaults ("train", ex_config).2) (panel_section p) "helptext" =
         Some (panel_info p).
Proof.
  split; [exact ex_popup_init|].
  exact (render_shows_every_section_once ref_config_dict ("train", ex_config) 0 ex_popup
           ex_popup_init).
Defined.

Example panels_example :
  panel_section <$> popup_panels ex_popup = ["global"; "model.dfl_h128"; "model.original"].
Proof. vm_compute. reflexivity. Qed.

(** ** The constructor: when it faults *)

Section init_faults.
Context {V : Type} (config_dict : ConfigParser → string → option (dict V)).
Implicit Types (d : @ConfigurePlugins V) (cfg : string * @FaceswapConfig V).

Lemma build_page_faults d category by_section plugin :
  dict_get (config_dict_gui d) category = Some by_section →
  plugin ∈ dict_keys by_section → dict_get (plugin_info d) plugin = None →
  build_page d category = None.
Proof.
  intros Hcat Hin Hinfo. unfold build_page. rewrite Hcat. simpl.
  destruct (existsb _ _) eqn:Hex.
  - rewrite (for_each_fault _
               (λ st : list (string * panel) * ConfigurePlugins, render_frame d st.2)
               _ plugin); [done|by apply sorted_elem|apply render_frame_refl|..].
    + intros y [t1 d1] [t2 d2] Hf Hstep. simpl in *.
      eapply render_frame_trans; [exact Hf|]. by eapply build_page_plugin_frame.
    + intros [t1 d1] (Hgui & Hpi & _). unfold build_page_plugin. simpl in *.
      rewrite Hgui, Hcat. simpl. destruct (dict_get by_section plugin); [|done].
      simpl. by rewrite Hpi, Hinfo.
  - destruct (sorted (dict_keys by_section) !! 0%nat) as [p0|] eqn:Hp; [|done]. simpl.
    assert (∀ y, y ∈ sorted (dict_keys by_section) → y = category) as Hall.
    { intros y Hy. destruct (decide (y = category)) as [|Hne]; [done|].
      assert (existsb (λ plugin, bool_decide (plugin ≠ category))
                (sorted (dict_keys by_section)) = true) as Htrue
        by (apply existsb_differs; eauto).
      congruence. }
    assert (p0 = plugin) as ->.
    { rewrite (Hall p0), (Hall plugin); [done|by apply sorted_elem|].
      by eapply list_elem_of_lookup_2. }
    destruct (dict_get by_section plugin); [|done]. simpl. by rewrite Hinfo.
Qed.

Lemma build_faults d category by_section plugin :
  dict_get (config_dict_gui d) category = Some by_section →
  plugin ∈ dict_keys by_section → dict_get (plugin_info d) plugin = None →
  build d = None.
Proof.
  intros Hcat Hin Hinfo. unfold build.
  destruct (category_order_spec (dict_keys (config_dict_gui d)))
    as (categories & -> & Hperm & _). simpl.
  apply (for_each_fault _ (λ d1, render_frame d d1) _ category).
  - rewrite Hperm. apply dict_get_is_Some. eauto.
  - apply render_frame_refl.
  - intros y d1 d2 Hf [Hf2 _]%build_category_spec. by eapply render_frame_trans.
  - intros d1 (Hgui & Hpi & _). unfold build_category.
    rewrite (build_page_faults d1 category by_section plugin); [done|congruence..].
Qed.

(** X12. The constructor faults (KeyError) when a section of the parser has
    no "helptext" in the defaults: Load records no help text for it, and
    Render fails to look it up in [plugin_info]. *)
Theorem constructor_faults_without_helptext cfg varnum sect :
  sect ∈ sections (config cfg.2) →
  entry_at (defaults cfg.2) sect "helptext" = None →
  ConfigurePlugins_init config_dict cfg varnum = None.
Proof.
  intros Hsect Hhelp. unfold ConfigurePlugins_init.
  destruct (get_config _ _) as [[conf d1]|] eqn:Hload; [|done]. simpl.
  pose proof (get_config_partitioned _ _ _ _ Hload) as (_ & _ & Hfind).
  destruct (get_config_changes _ _ _ _ Hload) as (_ & _ & _ & Hinfo).
  simpl in *. destruct (Hfind sect Hsect) as (by_section & Hcat & Hs).
  apply (build_faults _ (prefix_before "." sect) by_section sect); simpl; [done| |].
  - apply dict_get_is_Some. eauto.
  - by rewrite (Hinfo sect Hsect), Hhelp.
Qed.
End init_faults.

Lemma constructor_faults_without_helptext_witness :
  ("global" ∈ sections (config ("train", helpless_config).2) ∧
   entry_at (defaults ("train", helpless_config).2) "global" "helptext" = None) ∧
  ConfigurePlugins_init ref_config_dict ("train", helpless_config) 0 = None.
Proof.
  assert (H1 : "global" ∈ sections (config ("train", helpless_config).2))
    by by_evaluation.
  assert (H2 : entry_at (defaults ("train", helpless_config).2) "global" "helptext" = None)
    by reflexivity.
  split; [by split|].
  exact (constructor_faults_without_helptext ref_config_dict ("train", helpless_config) 0
           "global" H1 H2).
Defined.

(** ** The constructor returns on a well-formed configuration *)

Lemma dict_set_set {A : Type} (d : dict A) (k : string) (v v' : A) :
  dict_set (dict_set d k v) k v' = dict_set d k v'.
Proof.
  induction d as [|[k0 v0] d IH]; simpl.
  - by rewrite decide_True.
  - destruct (decide (k0 = k)) as [->|Hne]; simpl.
    + by rewrite decide_True.
    + rewrite decide_False by done. by rewrite IH.
Qed.

Lemma dict_set_nonempty {A : Type} (d : dict A) (k : string) (v : A) :
  dict_set d k v ≠ [].
Proof. destruct d as [|[k0 v0] d]; simpl; [done|]. by destruct (decide (k0 = k)). Qed.

(** Load leaves no category without a section. *)
Lemma group_section_nonempty (conf : dict (dict optref)) (sect : string) :
  Forall (λ ci : string * dict optref, ci.2 ≠ []) conf →
  Forall (λ ci : string * dict optref, ci.2 ≠ []) (group_section conf sect).
Proof.
  intros Hall. unfold group_section, dict_setdefault.
  destruct (dict_get conf (prefix_before "." sect)) as [bs|] eqn:Hc.
  - rewrite Hc. simpl. apply dict_set_Forall; [done|]. apply dict_set_nonempty.
  - rewrite dict_get_set_eq, dict_set_set. simpl. by apply dict_set_Forall.
Qed.

Lemma grouping_nonempty (l : list string) :
  Forall (λ ci : string * dict optref, ci.2 ≠ []) (foldl group_section [] l).
Proof.
  induction l as [|x l IH] using rev_ind; [constructor|].
  rewrite foldl_app. simpl. by apply group_section_nonempty.
Qed.

Section init_total.
Context {V : Type} (config_dict : ConfigParser → string → option (dict V)).
Implicit Types (d : @ConfigurePlugins V) (cfg : string * @FaceswapConfig V).

Lemma ControlPanel_option_returns (sects : list string) sect d key :
  renderable d sects → sect ∈ sects →
  (∃ opts, dict_get (defaults (self_config d)) sect = Some opts ∧ key ∈ dict_keys opts) →
  ∃ d', ControlPanel_option (DefaultsOf sect) d key = Some d' ∧ renderable d' sects.
Proof.
  intros Hr Hsect (opts & Hopts & Hkey). unfold ControlPanel_option.
  destruct (decide (key = "helptext")) as [|Hne]; [eauto|].
  unfold deref. rewrite Hopts. simpl.
  apply dict_get_is_Some in Hkey as [e He]. rewrite He. simpl.
  destruct (Hr sect Hsect) as (_ & _ & Hval).
  destruct (Hval key e) as (o & -> & [v Hv]); [unfold entry_at; by rewrite Hopts|done|].
  rewrite Hv. simpl.
  destruct (store (self_config d) (DefaultsOf sect) key
              (EOption (opt_with_selected o (tk_varnum d)))) as [c|] eqn:Hstore.
  2:{ unfold store in Hstore. by rewrite Hopts in Hstore. }
  simpl. eexists. split; [done|].
  eapply store_spec in Hstore as (_ & _ & _ & Hsch & Hat).
  2:{ unfold entry_at. rewrite Hopts. simpl. exact He. }
  2:{ by constructor. }
  intros s Hs. destruct (Hr s Hs) as (Hinfo & [opts0 Hopts0] & Hval0). simpl.
  split_and!; [done| |].
  - destruct (dict_rel_get_Some _ _ _ _ _ Hsch Hopts0) as (opts1 & -> & _). eauto.
  - intros k e1. rewrite Hat. destruct (decide (sect = s ∧ key = k)) as [[<- <-]|_].
    + intros [= <-] _. eexists. split; [done|]. simpl. eauto.
    + apply Hval0.
Qed.

Lemma ControlPanel_returns (sects : list string) sect info d :
  renderable d sects → sect ∈ sects →
  ∃ frame d', ControlPanel (DefaultsOf sect) info d = Some (frame, d') ∧
              renderable d' sects.
Proof.
  intros Hr Hsect. unfold ControlPanel, deref.
  destruct (Hr sect Hsect) as (_ & [opts Hopts] & _). rewrite Hopts. simpl.
  destruct (for_each_is_Some (ControlPanel_option (DefaultsOf sect))
              (λ d1, render_frame d d1 ∧ renderable d1 sects) (dict_keys opts) d)
    as (d' & -> & _ & Hr'); [split; [apply render_frame_refl|done]| |simpl; eauto].
  intros key d1 [Hf Hr1] Hkey.
  destruct (ControlPanel_option_returns sects sect d1 key Hr1 Hsect) as (d2 & Hrun & Hr2).
  { destruct Hf as (_ & _ & _ & _ & _ & Hsch).
    destruct (dict_rel_get_Some _ _ _ _ _ Hsch Hopts) as (opts1 & Hopts1 & Hrel).
    exists opts1. split; [done|]. by rewrite <- (dict_rel_keys _ _ _ Hrel). }
  exists d2. split; [done|]. split; [|done].
  eapply render_frame_trans; [exact Hf|]. by apply ControlPanel_option_frame in Hrun as [? _].
Qed.

Lemma build_page_plugin_returns (sects : list string) category by_section d tabs plugin :
  partitioned sects (config_dict_gui d) → renderable d sects →
  dict_get (config_dict_gui d) category = Some by_section →
  plugin ∈ dict_keys by_section →
  ∃ tabs' d', build_page_plugin category (tabs, d) plugin = Some (tabs', d') ∧
              renderable d' sects.
Proof.
  intros Hpart Hr Hcat Hin. unfold build_page_plugin. rewrite Hcat. simpl.
  apply dict_get_is_Some in Hin as [r Hget]. rewrite Hget. simpl.
  destruct (partitioned_ref _ _ _ _ _ _ Hpart Hcat Hget) as [-> _].
  assert (plugin ∈ sects) as Hs.
  { destruct Hpart as (_ & Hall & _). apply dict_get_Some_elem in Hcat, Hget.
    eapply Forall_forall in Hall; [|exact Hcat]. destruct Hall as [_ Hall].
    eapply Forall_forall in Hall; [|exact Hget]. by destruct Hall as (? & _). }
  destruct (Hr plugin Hs) as ([info Hinfo] & _). rewrite Hinfo. simpl.
  destruct (ControlPanel_returns sects plugin info d Hr Hs) as (frame & d' & -> & Hr').
  simpl. eauto.
Qed.

Lemma build_page_returns (sects : list string) d category by_section :
  partitioned sects (config_dict_gui d) → renderable d sects →
  dict_get (config_dict_gui d) category = Some by_section → by_section ≠ [] →
  ∃ pg d', build_page d category = Some (pg, d') ∧ renderable d' sects.
Proof.
  intros Hpart Hr Hcat Hne. unfold build_page. rewrite Hcat. simpl.
  destruct (existsb _ _).
  - destruct (for_each_is_Some (build_page_plugin category)
                (λ st : list (string * panel) * ConfigurePlugins,
                   render_frame d st.2 ∧ renderable st.2 sects)
                (sorted (dict_keys by_section)) ([], d))
      as ([tabs d'] & -> & _ & Hr'); [split; [apply render_frame_refl|done]| |simpl; eauto].
    intros plugin [tabs1 d1] [Hf Hr1] Hin. simpl in *.
    pose proof Hf as (Hgui & _).
    destruct (build_page_plugin_returns sects category by_section d1 tabs1 plugin)
      as (tabs2 & d2 & Hrun & Hr2); [by rewrite Hgui|done|by rewrite Hgui|
                                    by apply sorted_elem|].
    exists (tabs2, d2). split; [done|]. split; [|done].
    eapply render_frame_trans; [exact Hf|]. by eapply build_page_plugin_frame.
  - destruct (sorted (dict_keys by_section) !! 0%nat) as [plugin|] eqn:Hp.
    2:{ apply lookup_ge_None in Hp. rewrite sorted_length in Hp.
        destruct by_section; [done|simpl in Hp; lia]. }
    simpl.
    destruct (build_page_plugin_returns sects category by_section d [] plugin)
      as (tabs2 & d2 & Hrun & Hr2); [done..| |].
    { apply sorted_elem. by eapply list_elem_of_lookup_2. }
    unfold build_page_plugin in Hrun. rewrite Hcat in Hrun. simpl in Hrun.
    destruct (dict_get by_section plugin) as [r|]; [|done]. simpl in *.
    destruct (dict_get (plugin_info d) plugin) as [info|]; [|done]. simpl in *.
    destruct (ControlPanel r info d) as [[frame d3]|]; [|done]. simpl in *.
    injection Hrun as _ <-. eauto.
Qed.

Lemma build_returns (sects : list string) d :
  partitioned sects (config_dict_gui d) → renderable d sects →
  Forall (λ ci : string * dict optref, ci.2 ≠ []) (config_dict_gui d) →
  is_Some (build d).
Proof.
  intros Hpart Hr Hne. unfold build.
  destruct (category_order_spec (dict_keys (config_dict_gui d)))
    as (categories & -> & Hperm & _). simpl.
  destruct (for_each_is_Some build_category
              (λ d1, render_frame d d1 ∧ renderable d1 sects) categories d)
    as (d' & -> & _); [split; [apply render_frame_refl|done]| |done].
  intros category d1 [Hf Hr1] Hin. pose proof Hf as (Hgui & _).
  rewrite Hperm in Hin. apply dict_get_is_Some in Hin as [by_section Hcat].
  destruct (build_page_returns sects d1 category by_section) as (pg & d2 & Hrun & Hr2);
    [by rewrite Hgui|done|by rewrite Hgui| |].
  { apply dict_get_Some_elem in Hcat.
    eapply Forall_forall in Hne; [|exact Hcat]. exact Hne. }
  unfold build_category. rewrite Hrun. simpl. eexists. split; [done|].
  apply build_page_frame in Hrun as [Hf2 _]. split; [|done].
  eapply render_frame_trans; [exact Hf|]. destruct Hf2 as (? & ? & ? & ? & ? & ?).
  by split_and!.
Qed.

(** X13. The constructor returns, with the window shown, on every
    configuration in which the collaborator reads the stored values of each
    section of the parser and the defaults give each such section a
    "helptext" and, under every other key, an option with a default. *)
Theorem constructor_returns_on_described_sections cfg varnum :
  loadable config_dict (config cfg.2) (defaults cfg.2) (sections (config cfg.2)) →
  (∀ s, s ∈ sections (config cfg.2) → is_Some (entry_at (defaults cfg.2) s "helptext")) →
  ∃ d, ConfigurePlugins_init config_dict cfg varnum = Some d ∧ winfo_exists d = true.
Proof.
  intros Hl Hhelp.
  enough (is_Some (ConfigurePlugins_init config_dict cfg varnum)) as [d Hd].
  { exists d. split; [done|]. by eapply init_exists. }
  unfold ConfigurePlugins_init.
  destruct (get_config_returns config_dict (new_toplevel cfg.2 varnum) Hl)
    as [[conf d1] Hload]. rewrite Hload. simpl.
  pose proof (get_config_partitioned _ _ _ _ Hload) as Hpart.
  pose proof (get_config_grouping _ _ _ _ Hload) as Hgroup.
  destruct (get_config_spec _ _ _ _ Hload) as (_ & _ & _ & _ & _ & _ & _ & Hsch & Hloaded).
  destruct (get_config_changes _ _ _ _ Hload) as (_ & _ & _ & Hinfo).
  simpl in *.
  apply (build_returns (sections (config cfg.2))); simpl; [done| |].
  - intros s Hs. destruct (Hl s Hs) as (_ & opts & Hopts & _).
    destruct (dict_rel_get_Some _ _ _ _ _ Hsch Hopts) as (opts1 & Hopts1 & Hrel).
    split_and!; simpl; [|by eauto|].
    + rewrite (Hinfo s Hs). destruct (Hhelp s Hs) as [e ->]. eauto.
    + intros k e Hat Hk.
      destruct (Hloaded s k) as (o & Hat' & stored & dflt & _ & _ & Hv); [|done|].
      { split; [done|]. exists opts. split; [done|].
        rewrite (dict_rel_keys _ _ _ Hrel). apply dict_get_is_Some.
        unfold entry_at in Hat. rewrite Hopts1 in Hat. eauto. }
      rewrite Hat in Hat'. injection Hat' as ->. eexists. split; [done|]. eauto.
  - rewrite Hgroup. apply grouping_nonempty.
Qed.
End init_total.

Lemma constructor_returns_on_described_sections_witness :
  (loadable ref_config_dict (config ("train", ex_config).2)
     (defaults ("train", ex_config).2) (sections (config ("train", ex_config).2)) ∧
   ∀ s, s ∈ sections (config ("train", ex_config).2) →
        is_Some (entry_at (defaults ("train", ex_config).2) s "helptext")) ∧
  ∃ d, ConfigurePlugins_init ref_config_dict ("train", ex_config) 0 = Some d ∧
       winfo_exists d = true.
Proof.
  assert (Hhelp : ∀ s, s ∈ sections (config ("train", ex_config).2) →
                       is_Some (entry_at (defaults ("train", ex_config).2) s "helptext")).
  { intros s Hs. apply list_elem_of_In in Hs. simpl in Hs.
    destruct Hs as [<-|[<-|[<-|[]]]]; by eexists. }
  split; [split; [exact ex_loadable|exact Hhelp]|].
  exact (constructor_returns_on_described_sections ref_config_dict ("train", ex_config) 0
           ex_loadable Hhelp).
Defined.

(** ** Reset, then OK *)

Section reset_values.
Context {V : Type}.
Implicit Types (d : @ConfigurePlugins V).

End reset_values.

Section reset_save.
Context {V : Type} (str : V → string).
Context (config_dict : ConfigParser → string → option (dict V)).
Context (format_help : string → bool → string).
Context (insert_config_section : string → @Entry V → ConfigParser → option ConfigParser).
Context (write_config : ConfigParser → string).
Context (valid_interpolation : string → bool).
Implicit Types (d : @ConfigurePlugins V) (cfg : string * @FaceswapConfig V).

Local Abbreviation press_on :=
  (press str format_help insert_config_section write_config valid_interpolation).

End reset_save.



(** ** Load on a popup that has been loaded *)

Lemma dict_set_same {A : Type} (d : dict A) (k : string) (v : A) :
  dict_get d k = Some v → dict_set d k v = d.
Proof.
  induction d as [|[k0 v0] d IH]; simpl; [done|].
  destruct (decide (k0 = k)) as [->|Hne].
  - by intros [= ->].
  - intros Hget. by rewrite IH.
Qed.

Lemma for_each_fixed {S B : Type} (body : S → B → option S) (l : list B) (s : S) :
  (∀ x, x ∈ l → body s x = Some s) → for_each body l s = Some s.
Proof.
  induction l as [|x l IH]; intros Hbody; simpl; [done|].
  rewrite Hbody by left. simpl. apply IH. intros y Hy. apply Hbody. by right.
Qed.

Section load_again.
Context {V : Type} (config_dict : ConfigParser → string → option (dict V)).
Implicit Types (o : @Option V) (e : @Entry V) (c : @FaceswapConfig V)
  (d : @ConfigurePlugins V) (conf : dict (dict optref)).

Lemma get_config_option_again sect c info key opts e :
  section c = sect → dict_get (defaults c) sect = Some opts →
  dict_get opts key = Some e →
  (key = "helptext" → dict_get info sect = Some e) →
  (key ≠ "helptext" →
   ∃ o, e = EOption o ∧ loaded_value config_dict (config c) sect key o) →
  get_config_option config_dict sect (c, info) key = Some (c, info).
Proof.
  intros Hsect Hopts He Hhelp Hval. unfold get_config_option.
  rewrite Hopts. simpl. rewrite He. simpl.
  destruct (decide (key = "helptext")) as [Hk|Hk].
  - by rewrite dict_set_same by auto.
  - destruct (Hval Hk) as (o & -> & stored & dflt & Hst & Hd & Hv).
    rewrite Hsect, Hst. simpl. rewrite Hd. simpl.
    unfold store. rewrite Hopts. simpl.
    assert (opt_with_value o (default dflt (dict_get stored key)) = o) as ->.
    { destruct o. simpl in *. by subst. }
    rewrite (dict_set_same opts) by done. rewrite dict_set_same by done.
    by destruct c.
Qed.

Lemma get_config_section_again c info conf sect opts :
  dict_get (defaults c) sect = Some opts →
  (∀ key e, dict_get opts key = Some e →
     (key = "helptext" → dict_get info sect = Some e) ∧
     (key ≠ "helptext" →
      ∃ o, e = EOption o ∧ loaded_value config_dict (config c) sect key o)) →
  get_config_section config_dict (c, info, conf) sect =
  Some (with_section c sect, info, group_section conf sect).
Proof.
  intros Hopts Hall. unfold get_config_section. rewrite split_head. simpl.
  rewrite Hopts. simpl. rewrite dict_get_setdefault. simpl.
  rewrite for_each_fixed.
  - simpl. unfold group_section. by rewrite dict_get_setdefault.
  - intros key Hkey. apply dict_get_is_Some in Hkey as [e He].
    destruct (Hall key e He) as [Hh Hv].
    by apply (get_config_option_again sect _ info key opts e).
Qed.

Lemma get_config_sections_again (sects : list string) c info conf :
  (∀ sect, sect ∈ sects →
     ∃ opts, dict_get (defaults c) sect = Some opts ∧
       ∀ key e, dict_get opts key = Some e →
         (key = "helptext" → dict_get info sect = Some e) ∧
         (key ≠ "helptext" →
          ∃ o, e = EOption o ∧ loaded_value config_dict (config c) sect key o)) →
  for_each (get_config_section config_dict) sects (c, info, conf) =
  Some (match last sects with Some s => with_section c s | None => c end,
        info, foldl group_section conf sects).
Proof.
  revert c conf. induction sects as [|sect sects IH]; intros c conf Hall; [done|].
  cbn [for_each]. destruct (Hall sect) as (opts & Hopts & Hkeys); [left|].
  rewrite (get_config_section_again c info conf sect opts Hopts Hkeys). simpl.
  rewrite IH.
  - f_equal. f_equal. f_equal. destruct sects as [|s' sects]; [done|].
    rewrite (last_cons sect). by destruct (last (s' :: sects)).
  - intros s Hs. apply Hall. by right.
Qed.

(** X15. Load is idempotent: run again on the popup it has loaded (as
    happens when the popup is opened once more on the same configuration
    object), it returns the same grouping and leaves the popup, with the
    values and help texts it recorded, exactly as it is. *)
Theorem load_is_idempotent d conf d' :
  get_config config_dict d = Some (conf, d') →
  get_config config_dict d' = Some (conf, d').
Proof.
  intros Hload.
  destruct (get_config_spec _ _ _ _ Hload) as (Hcfg & _ & _ & _ & _ & _ & _ & Hsch & Hl).
  destruct (get_config_changes _ _ _ _ Hload) as (_ & Hsame & _ & Hinfo).
  pose proof (get_config_grouping _ _ _ _ Hload) as Hgroup.
  pose proof (get_config_last_section _ _ _ _ Hload) as Hlast.
  unfold get_config. rewrite Hcfg. rewrite get_config_sections_again.
  - simpl. rewrite <- Hgroup. f_equal. f_equal.
    assert (match last (sections (config (self_config d))) with
            | Some s => with_section (self_config d') s
            | None => self_config d'
            end = self_config d') as ->.
    { destruct (last (sections (config (self_config d)))) as [s|]; [|done].
      simpl in Hlast. destruct (self_config d'). simpl in *. by subst. }
    by destruct d'.
  - intros sect Hsect.
    destruct (get_config_sections_defined _ _ _ _ _ Hload Hsect) as [opts0 Hopts0].
    destruct (dict_rel_get_Some _ _ _ _ _ Hsch Hopts0) as (opts & Hopts & Hrel).
    exists opts. split; [done|]. intros key e He.
    assert (entry_at (defaults (self_config d')) sect key = Some e) as Hat.
    { unfold entry_at. by rewrite Hopts. }
    split.
    + intros ->. rewrite (Hinfo sect Hsect).
      rewrite Hsame in Hat by (by right). by rewrite Hat.
    + intros Hk. destruct (Hl sect key) as (o & Hat' & Hv); [|done|].
      { split; [done|]. exists opts0. split; [done|].
        rewrite (dict_rel_keys _ _ _ Hrel). apply dict_get_is_Some. eauto. }
      rewrite Hat in Hat'. injection Hat' as ->. exists o. by rewrite Hcfg.
Qed.
End load_again.

Lemma load_is_idempotent_witness :
  get_config ref_config_dict ex_new = Some (ex_loaded.1, ex_loaded.2) ∧
  get_config ref_config_dict ex_loaded.2 = Some (ex_loaded.1, ex_loaded.2).
Proof.
  assert (Hload : get_config ref_config_dict ex_new = Some (ex_loaded.1, ex_loaded.2))
    by (vm_compute; reflexivity).
  split; [exact Hload|].
  exact (load_is_idempotent ref_config_dict ex_new ex_loaded.1 ex_loaded.2 Hload).
Defined.

(** ** The categories of the grouping and the texts of the tabs *)

Section category_facts.
Context {V : Type} (config_dict : ConfigParser → string → option (dict V)).
Implicit Types (d : @ConfigurePlugins V) (conf : dict (dict optref)).

(** X16. Every category of the grouping Load builds has at least one section,
    so that the index [plugins[0]] of Render exists, and its name, the text of
    a section name before the first ".", has no "." in it. *)
Theorem load_categories_are_inhabited d conf d' category by_section :
  get_config config_dict d = Some (conf, d') →
  dict_get conf category = Some by_section →
  by_section ≠ [] ∧ is_Some (sorted (dict_keys by_section) !! 0%nat) ∧
  contains_char "." category = false.
Proof.
  intros Hload Hcat.
  pose proof (get_config_partitioned _ _ _ _ Hload) as (_ & Hall & _).
  pose proof (get_config_grouping _ _ _ _ Hload) as Hgroup.
  apply dict_get_Some_elem in Hcat.
  assert (by_section ≠ []) as Hne.
  { pose proof (grouping_nonempty (sections (config (self_config d)))) as Hn.
    rewrite <- Hgroup in Hn. eapply Forall_forall in Hn; [|exact Hcat]. exact Hn. }
  split_and!; [done| |].
  - apply lookup_lt_is_Some. rewrite sorted_length.
    destruct by_section; [done|]. simpl. lia.
  - eapply Forall_forall in Hall; [|exact Hcat]. destruct Hall as [_ Hall].
    destruct by_section as [|[s r] rest]; [done|].
    apply Forall_cons in Hall as [(_ & Hpre & _) _]. simpl in Hpre.
    rewrite <- Hpre. apply (proj1 (prefix_before_spec "." s)).
Qed.
End category_facts.

Lemma load_categories_are_inhabited_witness :
  (get_config ref_config_dict ex_new = Some (ex_loaded.1, ex_loaded.2) ∧
   dict_get ex_loaded.1 "model" =
     Some [("model.original", DefaultsOf "model.original");
           ("model.dfl_h128", DefaultsOf "model.dfl_h128")]) ∧
  [("model.original", DefaultsOf "model.original");
   ("model.dfl_h128", DefaultsOf "model.dfl_h128")] ≠ [] ∧
  is_Some (sorted (dict_keys [("model.original", DefaultsOf "model.original");
                              ("model.dfl_h128", DefaultsOf "model.dfl_h128")])
             !! 0%nat) ∧
  contains_char "." "model" = false.
Proof.
  assert (Hload : get_config ref_config_dict ex_new = Some (ex_loaded.1, ex_loaded.2))
    by (vm_compute; reflexivity).
  assert (Hcat : dict_get ex_loaded.1 "model" =
                 Some [("model.original", DefaultsOf "model.original");
                       ("model.dfl_h128", DefaultsOf "model.dfl_h128")])
    by (vm_compute; reflexivity).
  split; [by split|].
  exact (load_categories_are_inhabited ref_config_dict ex_new ex_loaded.1 ex_loaded.2
           "model" _ Hload Hcat).
Defined.

Lemma contains_after_last (c : ascii) (s : string) :
  contains_char c (after_last c s) = false.
Proof.
  induction s as [|a s IH]; simpl; [done|].
  destruct (contains_char c s) eqn:Hs; [done|].
  destruct (decide (a = c)) as [->|Hne]; [done|]. simpl.
  by rewrite decide_False.
Qed.

Lemma contains_replace_char (c a b : ascii) (s : string) :
  c ≠ b → (c = a ∨ contains_char c s = false) →
  contains_char c (replace_char a b s) = false.
Proof.
  intros Hb. induction s as [|x s IH]; simpl; [done|]. intros Hs.
  destruct (decide (x = a)) as [->|Hxa].
  - rewrite decide_False by done. apply IH. destruct Hs as [?|Hs]; [by left|].
    destruct (decide (a = c)); [by left|by right].
  - destruct (decide (x = c)) as [->|Hxc].
    + by destruct Hs as [?|?].
    + apply IH. destruct Hs as [?|Hs]; [by left|by right].
Qed.

(** Changing the case of a character gives "." or "_" only from itself. *)
Lemma cased_separator (a : ascii) (prev_cased : bool) :
  ((if prev_cased then to_lower a else to_upper a) = "."%char → a = "."%char) ∧
  ((if prev_cased then to_lower a else to_upper a) = "_"%char → a = "_"%char).
Proof.
  destruct a as [[] [] [] [] [] [] [] []], prev_cased; vm_compute; split; congruence.
Qed.

Lemma contains_title_from (c : ascii) (prev_cased : bool) (s : string) :
  c = "."%char ∨ c = "_"%char → contains_char c s = false →
  contains_char c (title_from prev_cased s) = false.
Proof.
  intros Hc. revert prev_cased. induction s as [|a s IH]; intros prev_cased; simpl;
    [done|].
  destruct (decide (a = c)) as [|Hne]; [done|]. intros Hs.
  rewrite decide_False; [by apply IH|].
  intros Heq. apply Hne. destruct (cased_separator a prev_cased) as [Hdot Hund].
  destruct Hc as [->| ->]; auto.
Qed.

Section title_facts.
Context {V : Type}.
Implicit Types (d : @ConfigurePlugins V).

(** X17. The labels of a nested plugin notebook: for a category whose plugin
    names are ASCII text, the tabs that [build_page] adds are labelled, in
    the sorted order of the plugin names, with each name's text after its
    last ".", underscores turned into spaces, in title case; so no label
    has a "." or a "_" in it. *)
Theorem plugin_tabs_are_titled_names d category by_section tabs d' :
  dict_get (config_dict_gui d) category = Some by_section →
  Forall ascii_text (dict_keys by_section) →
  build_page d category = Some (Notebook tabs, d') →
  tabs.*1 = (λ plugin, title (replace_char "_" " " (after_last "." plugin)))
              <$> sorted (dict_keys by_section) ∧
  Forall (λ text, contains_char "." text = false ∧ contains_char "_" text = false)
    tabs.*1.
Proof.
  intros Hcat _. unfold build_page. rewrite Hcat. simpl.
  destruct (existsb _ _).
  2:{ destruct (sorted (dict_keys by_section) !! 0%nat) as [plugin|]; [|done]. simpl.
      destruct (dict_get by_section plugin) as [r|]; [|done]. simpl.
      destruct (dict_get (plugin_info d) plugin) as [info|]; [|done]. simpl.
      by destruct (ControlPanel r info d) as [[frame0 d1]|]. }
  destruct (for_each _ _ _) as [[tabs1 d1]|] eqn:Hrun; [|done]. simpl.
  intros [= <- <-].
  eapply build_page_plugins_spec in Hrun as (_ & _ & new & -> & Hnew); [|done].
  simpl.
  assert (new.*1 = (λ plugin, title (replace_char "_" " " (after_last "." plugin)))
                     <$> sorted (dict_keys by_section)) as Hlabels.
  { induction Hnew as [|plugin tab plugins new [Htext _] _ IH]; [done|].
    csimpl. by rewrite Htext, IH. }
  split; [done|]. rewrite Hlabels. apply Forall_fmap, Forall_forall.
  intros plugin _. simpl. split.
  - apply contains_title_from; [by left|].
    apply contains_replace_char; [done|right]. apply contains_after_last.
  - apply contains_title_from; [by right|].
    apply contains_replace_char; [done|by left].
Qed.
End title_facts.

Lemma plugin_tabs_are_titled_names_witness :
  (dict_get (config_dict_gui cx_loaded) "trainer" =
     Some [("trainer.original", DefaultsOf "trainer.original")] ∧
   Forall ascii_text (dict_keys [("trainer.original", DefaultsOf "trainer.original")]) ∧
   build_page cx_loaded "trainer" =
     Some (Notebook [("Original", {| panel_options := DefaultsOf "trainer.original";
                                     panel_info := EText "Original trainer" |})],
           cx_page.2)) ∧
  [("Original", {| panel_options := DefaultsOf "trainer.original";
                   panel_info := @EText string "Original trainer" |})].*1 =
    (λ plugin, title (replace_char "_" " " (after_last "." plugin)))
      <$> sorted (dict_keys [("trainer.original", DefaultsOf "trainer.original")]) ∧
  Forall (λ text, contains_char "." text = false ∧ contains_char "_" text = false)
    [("Original", {| panel_options := DefaultsOf "trainer.original";
                     panel_info := @EText string "Original trainer" |})].*1.
Proof.
  assert (Hcat : dict_get (config_dict_gui cx_loaded) "trainer" =
                 Some [("trainer.original", DefaultsOf "trainer.original")])
    by (vm_compute; reflexivity).
  assert (Hascii : Forall ascii_text
                     (dict_keys [("trainer.original", DefaultsOf "trainer.original")])).
  { repeat constructor; simpl; lia. }
  assert (Hpage : build_page cx_loaded "trainer" =
                  Some (Notebook [("Original",
                                   {| panel_options := DefaultsOf "trainer.original";
                                      panel_info := EText "Original trainer" |})],
                        cx_page.2))
    by (vm_compute; reflexivity).
  split; [by split_and!|].
  exact (plugin_tabs_are_titled_names cx_loaded "trainer" _ _ cx_page.2 Hcat Hascii Hpage).
Defined.

(** ** Save: help texts become comments *)

(** Loop invariants that may use the position of the element handled. *)
Lemma for_each_split_ind {S B : Type} (body : S → B → option S) (I : list B → S → Prop)
    (l : list B) (s0 s' : S) :
  I [] s0 →
  (∀ done x rest s s1, l = done ++ x :: rest → I done s → body s x = Some s1 →
                       I (done ++ [x]) s1) →
  for_each body l s0 = Some s' →
  I l s'.
Proof.
  intros H0 Hstep.
  enough (∀ rest done s, l = done ++ rest → I done s →
            for_each body rest s = Some s' → I l s') as Hgen.
  { by apply (Hgen l [] s0). }
  induction rest as [|x rest IH]; intros done s Hl HI Hrun; simpl in *.
  - rewrite app_nil_r in Hl. congruence.
  - destruct (body s x) as [s1|] eqn:Hx; [|done]. simpl in Hrun.
    apply (IH (done ++ [x]) s1); [by rewrite <- app_assoc|by eapply Hstep|done].
Qed.

Section save_comments.
Context {V : Type} (str : V → string).
Context (format_help : string → bool → string).
Context (insert_config_section : string → @Entry V → ConfigParser → option ConfigParser).
Context (write_config : ConfigParser → string).
Context (valid_interpolation : string → bool).
Implicit Types (d : @ConfigurePlugins V) (p : ConfigParser).

Lemma cp_set_Some p sect name value p' :
  cp_set valid_interpolation p sect name value = Some p' →
  cp_optionxform p = xform_str → sect ≠ "" → sect ≠ "DEFAULT" →
  ∃ opts, dict_get (cp_sections p) sect = Some opts ∧
          p' = cp_with_sections p
                 (dict_set (cp_sections p) sect (dict_set opts name value)).
Proof.
  unfold cp_set, apply_optionxform. intros Hset Hx Hne Hne'. rewrite Hx in Hset.
  destruct (negb (cp_accepts valid_interpolation value)); [done|].
  rewrite bool_decide_eq_false_2 in Hset by (by intros [?|?]).
  destruct (dict_get (cp_sections p) sect) as [opts|]; [|done]. simpl in Hset.
  injection Hset as <-. eauto.
Qed.

Lemma save_config_item_effect d options sect p key e p' :
  save_config_item str format_help valid_interpolation d options sect p (key, e)
    = Some p' →
  cp_optionxform p = xform_str → sect ≠ "" → sect ≠ "DEFAULT" →
  cp_optionxform p' = xform_str ∧ sections p' = sections p ∧
  ((key = "helptext" ∧ p' = p) ∨
   (key ≠ "helptext" ∧
    ∃ o hp v, e = EOption o ∧ opt_helptext o = Some hp ∧
      ∀ s k, cp_stored p' s k =
             if decide (sect = s ∧ key = k) then Some (Some (str v))
             else if decide (sect = s ∧ format_help hp false = k) then Some None
             else cp_stored p s k)).
Proof.
  unfold save_config_item. intros Hrun Hx Hne Hne'.
  destruct (decide (key = "helptext")) as [->|Hkey].
  { injection Hrun as <-. split_and!; [done..|]. by left. }
  destruct (dict_get options sect) as [r|]; [|done]. simpl in Hrun.
  destruct (deref (self_config d) r) as [opts|]; [|done]. simpl in Hrun.
  destruct (dict_get opts key) as [new_opt|]; [|done]. simpl in Hrun.
  destruct e as [t|o]; [done|].
  destruct (opt_helptext o) as [hp|] eqn:Hhp; [|done]. simpl in Hrun.
  destruct (cp_set _ p sect (format_help hp false) None) as [p1|] eqn:Hset1; [|done].
  simpl in Hrun. destruct new_opt as [t|o']; [done|].
  destruct (opt_selected o') as [x|]; [|done]. simpl in Hrun.
  destruct (tk_vars d !! x) as [v|]; [|done]. simpl in Hrun.
  apply cp_set_Some in Hset1 as (opts1 & Hopts1 & ->); [|done..].
  apply cp_set_Some in Hrun as (opts2 & Hopts2 & ->); [|done..].
  split_and!; [done| |].
  - erewrite sections_set; [|exact Hopts2]. by erewrite sections_set.
  - right. split; [done|]. exists o, hp, v. split_and!; [done..|].
    intros s k. erewrite cp_stored_set; [|exact Hopts2].
    destruct (decide (sect = s ∧ key = k)); [done|].
    by erewrite cp_stored_set.
Qed.

Lemma save_config_section_comments d options p sect items text p' :
  writes_section_headers insert_config_section →
  save_config_section str format_help insert_config_section valid_interpolation
    d options p (sect, items) = Some p' →
  sect ∉ sections p → sect ≠ "" → sect ≠ "DEFAULT" →
  dict_get items "helptext" = Some (EText text) →
  (∀ key e text0 b, (key, e) ∈ items → key ≠ "helptext" → format_help text0 b ≠ key) →
  sections p' = sections p ++ [sect] ∧
  (∀ s k, s ≠ sect → cp_stored p' s k = cp_stored p s k) ∧
  ∀ key o hp, (key, EOption o) ∈ items → key ≠ "helptext" → opt_helptext o = Some hp →
              cp_stored p' sect (format_help hp false) = Some None.
Proof.
  intros Hics Hrun Hnew Hne Hne' Htext Hhelp. unfold save_config_section in Hrun.
  rewrite Htext in Hrun. simpl in Hrun.
  destruct (Hics sect text p Hnew Hne Hne') as (p1 & header & Hp1 & Hx1 & Hs1).
  rewrite Hp1 in Hrun. simpl in Hrun.
  assert (sections p1 = sections p ++ [sect]) as Hsects.
  { unfold sections, dict_keys. by rewrite Hs1, fmap_app. }
  assert (∀ s k, s ≠ sect → cp_stored p1 s k = cp_stored p s k) as Hother.
  { intros s k Hs. unfold cp_stored. rewrite Hs1. by rewrite dict_get_snoc_ne. }
  apply (for_each_ind _
    (λ done q,
       cp_optionxform q = xform_str ∧ sections q = sections p1 ∧
       (∀ s k, s ≠ sect → cp_stored q s k = cp_stored p1 s k) ∧
       ∀ key o hp, (key, EOption o) ∈ done → key ≠ "helptext" →
                   opt_helptext o = Some hp →
                   cp_stored q sect (format_help hp false) = Some None)) in Hrun.
  - destruct Hrun as (_ & Hs' & Ho' & Hc'). split_and!; [congruence| |done].
    intros s k Hs. by rewrite Ho', Hother.
  - split_and!; [done..|]. by intros key o hp ?%elem_of_nil.
  - intros done [key e] q q' (Hxq & Hsq & Hoq & Hcq) Hin Hstep.
    apply save_config_item_effect in Hstep as (Hxq' & Hsq' & Heff); [|done..].
    split_and!; [done|congruence| |].
    + intros s k Hs.
      destruct Heff as [[_ ->]|(_ & o & hp & v & _ & _ & Hst)]; [by apply Hoq|].
      rewrite Hst. rewrite !decide_False by (by intros [? _]). by apply Hoq.
    + intros key' o' hp' Hin' Hkey' Hhp'.
      destruct Heff as [[-> ->]|(Hkey & o & hp & v & -> & Hhp & Hst)].
      * apply (Hcq key' o' hp'); [|done..].
        apply elem_of_app in Hin' as [?|[= -> _]%list_elem_of_singleton]; done.
      * rewrite Hst.
        rewrite decide_False by (intros [_ Heq]; by eapply (Hhelp key)).
        destruct (decide (sect = sect ∧ format_help hp false = format_help hp' false))
          as [_|Hdiff]; [done|].
        apply elem_of_app in Hin' as [Hin'|[= -> ->]%list_elem_of_singleton].
        -- by apply (Hcq key' o' hp').
        -- destruct Hdiff. split; [done|]. congruence.
Qed.

(** X18. Save keeps the help texts as comments: when Save returns, the parser
    it hands to the file writer stores, in every section of the defaults and
    for every option with a help text, the option's formatted help text as a
    key without a value (a comment line of the file), provided the
    collaborator's section header operation keeps its contract and no
    formatted help text is the name of an option. *)
Theorem save_stores_help_comments d d1 :
  writes_section_headers insert_config_section →
  well_keyed (defaults (self_config d)) →
  describes_sections (defaults (self_config d)) →
  help_is_no_option format_help (defaults (self_config d)) →
  save_config str format_help insert_config_section write_config valid_interpolation d
    = Some d1 →
  sections (config (self_config d1)) = dict_keys (defaults (self_config d)) ∧
  ∀ sect key o hp,
    entry_at (defaults (self_config d)) sect key = Some (EOption o) →
    key ≠ "helptext" → opt_helptext o = Some hp →
    cp_stored (config (self_config d1)) sect (format_help hp false) = Some None.
Proof.
  intros Hics Hwk Hdesc Hhelp. unfold save_config.
  destruct (for_each _ _ _) as [p'|] eqn:Hrun; [|done]. simpl. intros [= <-]. simpl.
  apply (for_each_split_ind _
    (λ done p,
       sections p = done.*1 ∧
       ∀ sect items key o hp,
         (sect, items) ∈ done → (key, EOption o) ∈ items → key ≠ "helptext" →
         opt_helptext o = Some hp →
         cp_stored p sect (format_help hp false) = Some None)) in Hrun.
  - destruct Hrun as [Hs Hc]. split; [done|]. intros sect key o hp Hat Hkey Hhp.
    unfold entry_at in Hat.
    destruct (dict_get (defaults (self_config d)) sect) as [items|] eqn:Hitems; [|done].
    simpl in Hat. apply dict_get_Some_elem in Hitems, Hat. by eapply Hc.
  - split; [done|]. by intros sect items key o hp ?%elem_of_nil.
  - intros done [sect items] rest p p1 Hsplit [Hsp Hcp] Hstep.
    assert ((sect, items) ∈ defaults (self_config d)) as Hin.
    { rewrite Hsplit. apply elem_of_app. right. left. }
    assert (sect ∉ done.*1) as Hfresh.
    { destruct Hwk as [Hnd _]. unfold dict_keys in Hnd.
      rewrite Hsplit, fmap_app in Hnd.
      apply NoDup_app in Hnd as (_ & Hdisj & _). intros Hd.
      apply (Hdisj sect Hd). csimpl. left. }
    destruct (Hdesc sect) as (Hne & Hne' & [text Htext] & _).
    { apply list_elem_of_fmap. by exists (sect, items). }
    assert (dict_get (defaults (self_config d)) sect = Some items) as Hitems.
    { apply dict_elem_get; [apply Hwk|done]. }
    unfold entry_at in Htext. rewrite Hitems in Htext. simpl in Htext.
    eapply save_config_section_comments in Hstep as (Hs1 & Ho1 & Hc1);
      [|done|by rewrite Hsp|done|done|exact Htext|].
    2:{ intros key e text0 b Hke Hkey.
        destruct (well_keyed_entry_at _ _ _ _ _ Hwk Hin Hke) as [_ Hat].
        by eapply Hhelp. }
    split; [by rewrite Hs1, Hsp, fmap_app|].
    intros s its key o hp Hs Hke Hkey Hhp.
    apply elem_of_app in Hs as [Hs|[= -> ->]%list_elem_of_singleton].
    + rewrite Ho1; [by eapply Hcp|]. intros ->. apply Hfresh.
      apply list_elem_of_fmap. by exists (sect, its).
    + by eapply Hc1.
Qed.
End save_comments.

Lemma ex_save_run :
  save_config id ref_format_help ref_insert_config_section ref_write_config
    ref_valid_interpolation (edits ex_popup [(2, "512")]) = Some ex_saved.
Proof. vm_compute. reflexivity. Qed.

Lemma ex_edited_defaults :
  defaults (self_config (edits ex_popup [(2, "512")])) = defaults (self_config ex_popup).
Proof. exact (f_equal defaults (proj1 (edits_frame ex_popup [(2, "512")]))). Qed.

Lemma ex_edited_schema :
  same_schema ex_defaults (defaults (self_config (edits ex_popup [(2, "512")]))).
Proof.
  rewrite ex_edited_defaults.
  by destruct (init_frame ref_config_dict ("train", ex_config) 0 ex_popup ex_popup_init)
    as (_ & ? & _).
Qed.

Lemma ex_edited_help_is_no_option :
  help_is_no_option ref_format_help (defaults (self_config (edits ex_popup [(2, "512")]))).
Proof.
  intros sect key e text b Hat Hkey.
  destruct (same_schema_entry_at_r _ _ _ _ _ ex_edited_schema Hat) as (e0 & Hat0 & _).
  by eapply ex_help_is_no_option.
Qed.

Lemma save_stores_help_comments_witness :
  (writes_section_headers (V := string) ref_insert_config_section ∧
   well_keyed (defaults (self_config (edits ex_popup [(2, "512")]))) ∧
   describes_sections (defaults (self_config (edits ex_popup [(2, "512")]))) ∧
   help_is_no_option ref_format_help
     (defaults (self_config (edits ex_popup [(2, "512")]))) ∧
   save_config id ref_format_help ref_insert_config_section ref_write_config
     ref_valid_interpolation (edits ex_popup [(2, "512")]) = Some ex_saved) ∧
  sections (config (self_config ex_saved)) =
    dict_keys (defaults (self_config (edits ex_popup [(2, "512")]))) ∧
  ∀ sect key o hp,
    entry_at (defaults (self_config (edits ex_popup [(2, "512")]))) sect key
      = Some (EOption o) →
    key ≠ "helptext" → opt_helptext o = Some hp →
    cp_stored (config (self_config ex_saved)) sect (ref_format_help hp false) = Some None.
Proof.
  assert (Hwk : well_keyed (defaults (self_config (edits ex_popup [(2, "512")]))))
    by exact (same_schema_well_keyed _ _ ex_edited_schema ex_well_keyed).
  assert (Hdesc : describes_sections
                    (defaults (self_config (edits ex_popup [(2, "512")]))))
    by exact (describes_sections_schema _ _ ex_edited_schema ex_describes_sections).
  split.
  - split_and!.
    + exact ref_writes_section_headers.
    + exact Hwk.
    + exact Hdesc.
    + exact ex_edited_help_is_no_option.
    + exact ex_save_run.
  - exact (save_stores_help_comments id ref_format_help ref_insert_config_section
             ref_write_config ref_valid_interpolation (edits ex_popup [(2, "512")])
             ex_saved ref_writes_section_headers Hwk Hdesc ex_edited_help_is_no_option
             ex_save_run).
Defined.

Example save_comment_example :
  cp_stored (config (self_config ex_saved)) "model.dfl_h128"
    (newline +:+ "# " +:+ "Resolution") = Some None ∧
  cp_stored (config (self_config ex_saved)) "model.dfl_h128" "size" = Some (Some "512").
Proof. split; vm_compute; reflexivity. Qed.
